(** * Signaling / SFU orchestration core: a shallow embedding

    The development follows the TypeScript sources of the signaling server
    (SignalingServer, RoomManager, SFUManager, RedisService,
    RateLimiterService) and of the SFU node (WorkerManager, RouterManager).

    Conventions of the embedding.
    - The function named after an asynchronous method is a call of the
      method during which no other call runs. Where an [await] separates a
      check from the write it guards ([createRouter], [allocateRoom]), the
      turns of the method are functions of their own ([..._start],
      [..._resume]), to be composed with the turns of other calls. A
      reading of [Date.now()] is an explicit argument [now] (milliseconds).
    - A JavaScript [Map] is an insertion-ordered association list ([JsMap]);
      a [Set] of strings is an insertion-ordered duplicate-free list.
    - A [throw] is the [Throw] constructor of [result]; a state paired with a
      [Throw] is the state reached when the exception left the method.
    - Opaque engine blobs ([any]) are carried as their source text.
    - Plain objects used as dictionaries, and the keys of the coordination
      store, are finite maps ([gmap]). *)

From Stdlib Require Import ZArith Lia Ascii.
From Stdlib Require SpecFloat.
From stdpp Require Import gmap strings list fin_maps pretty.

Open Scope Z_scope.

(* ===================================================================== *)
(** * Part I. The model                                                   *)
(* ===================================================================== *)

(** ** Results of fallible calls *)

Inductive result (A : Type) : Type :=
| Ok (a : A)
| Throw (message : string).
Arguments Ok {A} a.
Arguments Throw {A} message.

Definition is_ok {A} (r : result A) : bool :=
  match r with Ok _ => true | Throw _ => false end.

(** Opaque blobs ([any] in the source), as text. *)
Definition Any : Type := string.

(** The empty object literal [{}]. *)
Definition empty_object : Any := "{}".

(** JavaScript truthiness of a string. *)
Definition truthy (s : string) : bool :=
  match s with EmptyString => false | _ => true end.

(** [x || d] on strings. *)
Definition or_default (x : option string) (d : string) : string :=
  match x with
  | Some s => if truthy s then s else d
  | None => d
  end.

(** ** Insertion-ordered maps and sets *)

Module JsMap.
Section Ops.
Context {K V : Type} `{EqDecision K}.

(** [m.get(k)] *)
Fixpoint get (m : list (K * V)) (k : K) : option V :=
  match m with
  | [] => None
  | (k', v) :: m' => if decide (k = k') then Some v else get m' k
  end.

(** [m.set(k, v)]: an existing key keeps its position. *)
Fixpoint set (m : list (K * V)) (k : K) (v : V) : list (K * V) :=
  match m with
  | [] => [(k, v)]
  | (k', v') :: m' =>
      if decide (k = k') then (k, v) :: m' else (k', v') :: set m' k v
  end.

(** [m.delete(k)] *)
Fixpoint delete (m : list (K * V)) (k : K) : list (K * V) :=
  match m with
  | [] => []
  | (k', v) :: m' =>
      if decide (k = k') then delete m' k else (k', v) :: delete m' k
  end.

(** [Array.from(m.values())] *)
Definition values (m : list (K * V)) : list V := map snd m.

Definition keys (m : list (K * V)) : list K := map fst m.

(** [m.size] *)
Definition size (m : list (K * V)) : Z := Z.of_nat (length m).

(** The keys of a [Map] are pairwise distinct. *)
Definition wf (m : list (K * V)) : Prop := NoDup (keys m).
End Ops.
End JsMap.

Module JsSet.
(** [s.add(x)] *)
Definition add (s : list string) (x : string) : list string :=
  if decide (x ∈ s) then s else s ++ [x].

(** [s.delete(x)] *)
Definition delete (s : list string) (x : string) : list string :=
  filter (λ y, y ≠ x) s.
End JsSet.

(** ** Number parsing and printing *)

Module Js.
Definition is_space (c : Ascii.ascii) : bool :=
  let n := Ascii.nat_of_ascii c in
  ((9 <=? n)%nat && (n <=? 13)%nat) || (n =? 32)%nat.

Definition digit_of (c : Ascii.ascii) : option Z :=
  let n := Ascii.nat_of_ascii c in
  if ((48 <=? n)%nat && (n <=? 57)%nat) then Some (Z.of_nat n - 48) else None.

Fixpoint skip_spaces (s : string) : string :=
  match s with
  | String c s' => if is_space c then skip_spaces s' else s
  | EmptyString => s
  end.

(** The longest prefix of decimal digits, read left to right. *)
Fixpoint digits (acc : option Z) (s : string) : option Z :=
  match s with
  | String c s' =>
      match digit_of c with
      | Some d => digits (Some (10 * default 0 acc + d)) s'
      | None => acc
      end
  | EmptyString => acc
  end.

(** [parseInt(s, 10)]; [None] is [NaN]. *)
Definition parseInt (s : string) : option Z :=
  match skip_spaces s with
  | String "-"%char s' => Z.opp <$> digits None s'
  | String "+"%char s' => digits None s'
  | s' => digits None s'
  end.

(** A number in a template literal. *)
Definition show (n : option Z) : string :=
  match n with Some z => pretty z | None => "NaN" end.

(** The part of [s] before the first [sep], and the rest after it. *)
Fixpoint break_at (sep : Ascii.ascii) (s : string) : string * option string :=
  match s with
  | EmptyString => (EmptyString, None)
  | String c s' =>
      if decide (c = sep) then (EmptyString, Some s')
      else let '(h, t) := break_at sep s' in (String c h, t)
  end.

(** [Math.ceil(ms / 1000) || 1] *)
Definition retry_after (ms : Z) : Z :=
  let c := - ((- ms) / 1000) in
  if decide (c = 0) then 1 else c.

(** A number where its fraction matters: an IEEE 754 binary64 value, with
    the arithmetic of the standard (round to nearest, ties to even). *)
Definition number : Type := SpecFloat.spec_float.

(** The number an integer literal or counter denotes. *)
Definition of_int (z : Z) : number := SpecFloat.binary_normalize 53 1024 z 0 false.

Definition Infinity : number := SpecFloat.S754_infinity false.

(** [a + b], [a / b], [a < b], [a <= b] *)
Definition plus (a b : number) : number := SpecFloat.SFadd 53 1024 a b.
Definition divide (a b : number) : number := SpecFloat.SFdiv 53 1024 a b.
Definition less (a b : number) : bool := SpecFloat.SFltb a b.
Definition at_most (a b : number) : bool := SpecFloat.SFleb a b.
End Js.

(** ** RedisService: the coordination store *)

Module Redis.
(** A string key with its expiry instant, when it has a time to live. *)
Record Entry := { value : string; expiresAt : option Z }.

Record RouterInfo := { nodeId : string; routerId : string }.

(** The connected store. The hashes ['room:routers'] and ['sfu:nodes']
    hold their values decoded: [JSON.parse] after [JSON.stringify] is the
    identity on these records. *)
Record Db := {
  kv : gmap string Entry;
  room_routers : gmap string RouterInfo;
  sfu_nodes : gmap string string;
}.

(** [client] is [null] until [connect()]. *)
Record RedisService := { client : option Db }.

Definition empty_db : Db :=
  {| kv := ∅; room_routers := ∅; sfu_nodes := ∅ |}.

(** The store expires a key once the clock is past its expiry instant: at
    the expiry instant itself the key is still read. *)
Definition live (now : Z) (e : Entry) : bool :=
  match expiresAt e with
  | Some t => bool_decide (now <= t)
  | None => true
  end.

(** [get(key)] *)
Definition get (key : string) (now : Z) (r : RedisService) : option string :=
  match client r with
  | None => None
  | Some db =>
      match kv db !! key with
      | Some e => if live now e then Some (value e) else None
      | None => None
      end
  end.

(** [set(key, value, ttlSeconds?)] *)
Definition set (key v : string) (ttlSeconds : option Z) (now : Z)
    (r : RedisService) : RedisService :=
  match client r with
  | None => r
  | Some db =>
      let e :=
        match ttlSeconds with
        | Some ttl =>
            if decide (ttl = 0) then {| value := v; expiresAt := None |}
            else {| value := v; expiresAt := Some (now + ttl * 1000) |}
        | None => {| value := v; expiresAt := None |}
        end in
      {| client := Some {| kv := <[key := e]> (kv db);
                           room_routers := room_routers db;
                           sfu_nodes := sfu_nodes db |} |}
  end.

(** [del(key)] *)
Definition del (key : string) (r : RedisService) : RedisService :=
  match client r with
  | None => r
  | Some db =>
      {| client := Some {| kv := base.delete key (kv db);
                           room_routers := room_routers db;
                           sfu_nodes := sfu_nodes db |} |}
  end.

Definition heartbeat_key (nodeId : string) : string :=
  "sfu:node:" +:+ nodeId +:+ ":heartbeat".

Definition stats_key (nodeId : string) : string :=
  "sfu:node:" +:+ nodeId +:+ ":stats".

(** [registerNode(nodeId, info)] *)
Definition registerNode (nodeId info : string) (now : Z)
    (r : RedisService) : RedisService :=
  let r1 :=
    match client r with
    | None => r
    | Some db =>
        {| client := Some {| kv := kv db;
                             room_routers := room_routers db;
                             sfu_nodes := <[nodeId := info]> (sfu_nodes db) |} |}
    end in
  set (heartbeat_key nodeId) (pretty now) (Some 30) now r1.

(** [deregisterNode(nodeId)] *)
Definition deregisterNode (nodeId : string) (r : RedisService) : RedisService :=
  let r1 :=
    match client r with
    | None => r
    | Some db =>
        {| client := Some {| kv := kv db;
                             room_routers := room_routers db;
                             sfu_nodes := base.delete nodeId (sfu_nodes db) |} |}
    end in
  del (heartbeat_key nodeId) r1.

(** [updateNodeHealth(nodeId, stats)]; [stats] is the JSON text. *)
Definition updateNodeHealth (nodeId stats : string) (now : Z)
    (r : RedisService) : RedisService :=
  set (heartbeat_key nodeId) (pretty now) (Some 30) now
    (set (stats_key nodeId) stats (Some 60) now r).

(** [setRoomRouter(roomId, info)] *)
Definition setRoomRouter (roomId : string) (info : RouterInfo)
    (r : RedisService) : RedisService :=
  match client r with
  | None => r
  | Some db =>
      {| client := Some {| kv := kv db;
                           room_routers := <[roomId := info]> (room_routers db);
                           sfu_nodes := sfu_nodes db |} |}
  end.

(** [getRoomRouter(roomId)] *)
Definition getRoomRouter (roomId : string) (r : RedisService) : option RouterInfo :=
  match client r with
  | None => None
  | Some db => room_routers db !! roomId
  end.

(** [deleteRoomRouter(roomId)] *)
Definition deleteRoomRouter (roomId : string) (r : RedisService) : RedisService :=
  match client r with
  | None => r
  | Some db =>
      {| client := Some {| kv := kv db;
                           room_routers := base.delete roomId (room_routers db);
                           sfu_nodes := sfu_nodes db |} |}
  end.
End Redis.

(** ** RateLimiterService: admission control *)

Module RateLimiter.
(** *** The fixed-window limiter of the rate-limiter-flexible package

    [RateLimiterMemory] keeps, per key, a record with the points consumed
    in the current window and the instant the window ends ([expiresAt]),
    and arms a timer ([setTimeout]) that deletes the record when the
    window is over. The runtime replaces a timer delay above
    [TIMEOUT_MAX] milliseconds by 1 millisecond, so that the record of a
    longer window (or block) is deleted at once, although its [expiresAt]
    lies far ahead. A timer is taken to fire at its due instant, and a
    record whose window has ended is read as gone. The Redis-backed
    limiter counts the same way in the shared store. *)

Record Options := { points : Z; duration : Z; blockDuration : Z }.

(** [windowEnd] is [expiresAt]; [timeoutAt] is the instant the deleting
    timer is due, when one is armed. *)
Record Counter := {
  consumed : Z;
  windowEnd : option Z;
  timeoutAt : option Z;
}.

Record Limiter := { opts : Options; storage : gmap string Counter }.

Record Res := {
  msBeforeNext : Z;
  consumedPoints : Z;
  remainingPoints : Z;
  isFirstInDuration : bool;
}.

Definition create (o : Options) : Limiter := {| opts := o; storage := ∅ |}.

Definition with_storage (l : Limiter) (s : gmap string Counter) : Limiter :=
  {| opts := opts l; storage := s |}.

(** The largest delay of a timer, [2^31 - 1] milliseconds. *)
Definition TIMEOUT_MAX : Z := 2147483647.

(** The delay [setTimeout] really arms for a requested delay. *)
Definition timer_delay (delayMs : Z) : Z :=
  if decide (TIMEOUT_MAX < delayMs) then 1
  else if decide (delayMs < 1) then 1
  else delayMs.

(** The timer of a record has fired, and deleted the record. *)
Definition timer_fired (now : Z) (c : Counter) : bool :=
  match timeoutAt c with
  | Some t => bool_decide (t <= now)
  | None => false
  end.

(** [MemoryStorage.set] *)
Definition storage_set (key : string) (v durationSec now : Z)
    (s : gmap string Counter) : Res * gmap string Counter :=
  let durationMs := durationSec * 1000 in
  let c := {| consumed := v;
              windowEnd := if decide (0 < durationMs) then Some (now + durationMs)
                           else None;
              timeoutAt := if decide (0 < durationMs)
                           then Some (now + timer_delay durationMs)
                           else None |} in
  ({| msBeforeNext := if decide (durationMs = 0) then -1 else durationMs;
      consumedPoints := v; remainingPoints := 0; isFirstInDuration := true |},
   <[key := c]> s).

(** [MemoryStorage.incrby] *)
Definition storage_incrby (key : string) (v durationSec now : Z)
    (s : gmap string Counter) : Res * gmap string Counter :=
  match s !! key with
  | Some c =>
      if timer_fired now c then storage_set key v durationSec now s
      else
        let msBeforeExpires :=
          match windowEnd c with Some t => t - now | None => -1 end in
        if bool_decide (windowEnd c = None) || bool_decide (0 < msBeforeExpires)
        then
          let v' := consumed c + v in
          ({| msBeforeNext := msBeforeExpires; consumedPoints := v';
              remainingPoints := 0; isFirstInDuration := false |},
           <[key := {| consumed := v'; windowEnd := windowEnd c;
                       timeoutAt := timeoutAt c |}]> s)
        else storage_set key v durationSec now s
  | None => storage_set key v durationSec now s
  end.

Definition with_remaining (l : Limiter) (r : Res) : Res :=
  {| msBeforeNext := msBeforeNext r; consumedPoints := consumedPoints r;
     remainingPoints := Z.max (points (opts l) - consumedPoints r) 0;
     isFirstInDuration := isFirstInDuration r |}.

(** [limiter.consume(key, pointsToConsume)]: [inl] resolves, [inr] rejects. *)
Definition consume (key : string) (pointsToConsume now : Z) (l : Limiter)
    : (Res + Res) * Limiter :=
  let '(res0, s1) :=
    storage_incrby key pointsToConsume (duration (opts l)) now (storage l) in
  let res := with_remaining l res0 in
  if decide (points (opts l) < consumedPoints res) then
    if bool_decide (0 < blockDuration (opts l))
       && bool_decide (consumedPoints res <= points (opts l) + pointsToConsume)
    then
      let '(res', s2) :=
        storage_set key (consumedPoints res) (blockDuration (opts l)) now s1 in
      (inr res', with_storage l s2)
    else (inr res, with_storage l s1)
  else (inl res, with_storage l s1).

(** [limiter.delete(key)] *)
Definition delete (key : string) (l : Limiter) : Limiter :=
  with_storage l (base.delete key (storage l)).

(** [limiter.get(key)] *)
Definition get (key : string) (now : Z) (l : Limiter) : option Res :=
  match storage l !! key with
  | Some c =>
      if timer_fired now c then None else
      match windowEnd c with
      | Some t =>
          if decide (now < t) then
            Some (with_remaining l
                    {| msBeforeNext := t - now; consumedPoints := consumed c;
                       remainingPoints := 0; isFirstInDuration := false |})
          else None
      | None =>
          Some (with_remaining l
                  {| msBeforeNext := -1; consumedPoints := consumed c;
                     remainingPoints := 0; isFirstInDuration := false |})
      end
  | None => None
  end.

(** *** The service *)

Record RateLimiterConfig := {
  connectionPoints : Z;
  connectionDuration : Z;
  connectionBlockDuration : Z;
  messagePoints : Z;
  messageDuration : Z;
  globalMessagePoints : Z;
  globalMessageDuration : Z;
}.

Record RateLimiterService := {
  config : RateLimiterConfig;
  connectionLimiter : Limiter;
  messageLimiter : Limiter;
  globalMessageLimiter : Limiter;
}.

(** The constructor; both backings are given the same options. *)
Definition new (cfg : RateLimiterConfig) : RateLimiterService :=
  {| config := cfg;
     connectionLimiter :=
       create {| points := connectionPoints cfg;
                 duration := connectionDuration cfg;
                 blockDuration := connectionBlockDuration cfg |};
     messageLimiter :=
       create {| points := messagePoints cfg;
                 duration := messageDuration cfg;
                 blockDuration := 0 |};
     globalMessageLimiter :=
       create {| points := globalMessagePoints cfg;
                 duration := globalMessageDuration cfg;
                 blockDuration := 0 |} |}.

Record CheckResult := { allowed : bool; retryAfter : option Z }.

Definition denied (r : Res) : CheckResult :=
  {| allowed := false; retryAfter := Some (Js.retry_after (msBeforeNext r)) |}.

Definition granted : CheckResult := {| allowed := true; retryAfter := None |}.

(** [checkConnection(ip)] *)
Definition checkConnection (ip : string) (now : Z) (self : RateLimiterService)
    : CheckResult * RateLimiterService :=
  let '(r, cl) := consume ip 1 now (connectionLimiter self) in
  let self' := {| config := config self; connectionLimiter := cl;
                  messageLimiter := messageLimiter self;
                  globalMessageLimiter := globalMessageLimiter self |} in
  match r with
  | inl _ => (granted, self')
  | inr rej => (denied rej, self')
  end.

(** [checkMessage(connectionId, userId?)] *)
Definition checkMessage (connectionId : string) (userId : option string)
    (now : Z) (self : RateLimiterService) : CheckResult * RateLimiterService :=
  let '(r, ml) := consume connectionId 1 now (messageLimiter self) in
  let self1 := {| config := config self;
                  connectionLimiter := connectionLimiter self;
                  messageLimiter := ml;
                  globalMessageLimiter := globalMessageLimiter self |} in
  match r with
  | inr rej => (denied rej, self1)
  | inl _ =>
      match userId with
      | Some u =>
          if truthy u then
            let '(g, gl) := consume u 1 now (globalMessageLimiter self1) in
            let self2 := {| config := config self1;
                            connectionLimiter := connectionLimiter self1;
                            messageLimiter := messageLimiter self1;
                            globalMessageLimiter := gl |} in
            match g with
            | inl _ => (granted, self2)
            | inr rej => (denied rej, self2)
            end
          else (granted, self1)
      | None => (granted, self1)
      end
  end.

(** [reset(key)] *)
Definition reset (key : string) (self : RateLimiterService) : RateLimiterService :=
  {| config := config self;
     connectionLimiter := connectionLimiter self;
     messageLimiter := delete key (messageLimiter self);
     globalMessageLimiter := delete key (globalMessageLimiter self) |}.

(** [getRemaining(key)] *)
Definition getRemaining (key : string) (now : Z) (self : RateLimiterService) : Z :=
  match get key now (messageLimiter self) with
  | Some res => remainingPoints res
  | None => messagePoints (config self)
  end.

Definition DEFAULT_RATE_LIMIT_CONFIG : RateLimiterConfig :=
  {| connectionPoints := 20; connectionDuration := 60;
     connectionBlockDuration := 300;
     messagePoints := 100; messageDuration := 10;
     globalMessagePoints := 500; globalMessageDuration := 60 |}.
End RateLimiter.

(** ** SFUManager: node selection and room placement *)

Module SFUManager.
Record SFUNode := {
  id : string;
  host : string;
  port : option Z;          (* [None] is [NaN] *)
  isHealthy : bool;
  load : Z;
  lastHealthCheck : Z;
}.

Record SFUManager := { nodes : list (string * SFUNode) }.

Record IceServer := {
  urls : string;
  username : option string;
  credential : option string;
}.

Record Allocation := {
  node : string;
  routerId : string;
  iceServers : list IceServer;
}.

(** The constructor. *)
Definition new : SFUManager := {| nodes := [] |}.

(** One iteration of the loop of [initialize]. *)
Definition add_node (now : Z) (ns : list (string * SFUNode)) (nodeStr : string)
    : list (string * SFUNode) :=
  let '(h, rest) := Js.break_at ":" nodeStr in
  let portStr := (λ r, fst (Js.break_at ":" r)) <$> rest in
  let p := Js.parseInt (or_default portStr "4000") in
  let nodeId := "sfu-" +:+ h +:+ "-" +:+ Js.show p in
  JsMap.set ns nodeId
    {| id := nodeId; host := h; port := p; isHealthy := true; load := 0;
       lastHealthCheck := now |}.

(** [initialize()] over [config.nodes]. *)
Definition initialize (config_nodes : list string) (now : Z)
    (self : SFUManager) : SFUManager :=
  {| nodes := foldl (add_node now) (nodes self) config_nodes |}.

(** [healthyNodes.sort((a, b) => a.load - b.load)]: a stable sort. *)
Fixpoint insert_by_load (n : SFUNode) (l : list SFUNode) : list SFUNode :=
  match l with
  | [] => [n]
  | m :: l' =>
      if decide (load n <= load m) then n :: m :: l'
      else m :: insert_by_load n l'
  end.

Definition sort_by_load (l : list SFUNode) : list SFUNode :=
  foldr insert_by_load [] l.

(** [getBestNode()] *)
Definition getBestNode (self : SFUManager) : option SFUNode :=
  let healthyNodes := filter (λ n, isHealthy n = true) (JsMap.values (nodes self)) in
  head (sort_by_load healthyNodes).

Section Environment.
(** [process.env] *)
Variable process_env : string → option string.

(** [JSON.parse(statsStr)] followed by [stats.routers || 0]; [None] when
    either throws. *)
Variable stats_routers : string → option Z.

(** [getIceServers()] *)
Definition getIceServers : list IceServer :=
  [ {| urls := or_default (process_env "STUN_SERVER_URL")
                 "stun:stun.l.google.com:19302";
       username := None; credential := None |};
    {| urls := or_default (process_env "TURN_SERVER_URL")
                 "turn:turn.example.com:3478";
       username := Some (or_default (process_env "TURN_SERVER_USERNAME") "user");
       credential := Some (or_default (process_env "TURN_SERVER_CREDENTIAL") "pass") |} ].

(** [allocateRoom(roomId)] from the moment the store has answered the
    read of the placement with [existing], in the state of that moment. *)
Definition allocateRoom_resume (roomId : string) (now : Z)
    (existing : option Redis.RouterInfo) (self : SFUManager)
    (redis : Redis.RedisService) : result Allocation * Redis.RedisService :=
  match existing with
  | Some existing =>
      (Ok {| node := Redis.nodeId existing;
             routerId := Redis.routerId existing;
             iceServers := getIceServers |}, redis)
  | None =>
      match getBestNode self with
      | None => (Throw "No available SFU nodes", redis)
      | Some n =>
          let rid := "router-" +:+ roomId +:+ "-" +:+ pretty now in
          (Ok {| node := host n +:+ ":" +:+ Js.show (port n);
                 routerId := rid;
                 iceServers := getIceServers |},
           Redis.setRoomRouter roomId
             {| Redis.nodeId := id n; Redis.routerId := rid |} redis)
      end
  end.

(** [allocateRoom(roomId)], when nothing else runs between its read of
    the placement and its write. *)
Definition allocateRoom (roomId : string) (now : Z) (self : SFUManager)
    (redis : Redis.RedisService) : result Allocation * Redis.RedisService :=
  allocateRoom_resume roomId now (Redis.getRoomRouter roomId redis) self redis.

(** [releaseRoom(roomId)] *)
Definition releaseRoom (roomId : string) (redis : Redis.RedisService)
    : Redis.RedisService :=
  Redis.deleteRoomRouter roomId redis.

(** The body of the loop of [checkHealth()] for one node. *)
Definition check_node (now : Z) (redis : Redis.RedisService)
    (nodeId : string) (n : SFUNode) : SFUNode :=
  let n1 :=
    match Redis.get (Redis.heartbeat_key nodeId) now redis with
    | Some heartbeat =>
        if truthy heartbeat then
          let healthy :=
            match Js.parseInt heartbeat with
            | Some lastBeat => bool_decide (now - lastBeat < 60000)
            | None => false
            end in
          {| id := id n; host := host n; port := port n;
             isHealthy := healthy; load := load n;
             lastHealthCheck := lastHealthCheck n |}
        else n
    | None => n
    end in
  let n2 :=
    match Redis.get (Redis.stats_key nodeId) now redis with
    | Some statsStr =>
        if truthy statsStr then
          match stats_routers statsStr with
          | Some routers =>
              Ok {| id := id n1; host := host n1; port := port n1;
                    isHealthy := isHealthy n1; load := routers;
                    lastHealthCheck := lastHealthCheck n1 |}
          | None => Throw "stats"
          end
        else Ok n1
    | None => Ok n1
    end in
  match n2 with
  | Ok n3 =>
      {| id := id n3; host := host n3; port := port n3;
         isHealthy := isHealthy n3; load := load n3;
         lastHealthCheck := now |}
  | Throw _ =>
      {| id := id n1; host := host n1; port := port n1;
         isHealthy := false; load := load n1;
         lastHealthCheck := lastHealthCheck n1 |}
  end.

(** [checkHealth()]: the entry of every node is updated in place; the
    keys read are built from the keys of the map. *)
Definition checkHealth (now : Z) (redis : Redis.RedisService)
    (self : SFUManager) : SFUManager :=
  {| nodes := map (λ kn, (fst kn, check_node now redis (fst kn) (snd kn)))
                  (nodes self) |}.
End Environment.
End SFUManager.

(** ** RoomManager: the session directory of one signaling replica *)

Module Auth.
(** The part of [AuthenticatedUser] the server reads. *)
Record AuthenticatedUser := { id : string; permissions : list string }.
End Auth.

Module RoomManager.
Inductive MediaKind := audio | video.

Definition kind_text (k : MediaKind) : string :=
  match k with audio => "audio" | video => "video" end.

Inductive Direction := send | recv.

Definition direction_text (d : Direction) : string :=
  match d with send => "send" | recv => "recv" end.

(** [appData] of a produce request: its [source] field and the rest. *)
Record AppData := { source : option string; extra : Any }.

Record ProducerState := {
  producer_id : string;
  producer_kind : MediaKind;
  producer_source : string;
  producer_paused : bool;
}.

Record ConsumerState := {
  consumer_id : string;
  consumer_producerId : string;
  consumer_kind : MediaKind;
  consumer_paused : bool;
}.

Record RoomParticipant := {
  id : string;
  odUserId : string;
  displayName : string;
  role : string;
  rtpCapabilities : option Any;
  sendTransportId : option string;
  recvTransportId : option string;
  producers : list (string * ProducerState);
  consumers : list (string * ConsumerState);
}.

Record RoomState := {
  room_id : string;
  sfuNode : string;
  routerId : string;
  routerRtpCapabilities : Any;
  participants : list (string * RoomParticipant);
  createdAt : Z;
}.

Record RoomManager := { rooms : list (string * RoomState) }.

Record JoinInfo := {
  join_participantId : string;
  join_routerRtpCapabilities : Any;
  join_sfuNode : string;
}.

Record ProducerInfo := {
  info_producer_id : string;
  info_producer_kind : MediaKind;
  info_producer_source : string;
}.

Record ParticipantInfo := {
  info_id : string;
  info_odUserId : string;
  info_displayName : string;
  info_role : string;
  info_producers : list ProducerInfo;
}.

Record TransportData := {
  transport_id : string;
  iceParameters : Any;
  iceCandidates : Any;
  dtlsParameters : Any;
  sctpParameters : option Any;
}.

Record ConsumerData := {
  data_consumer_id : string;
  data_producerId : string;
  data_kind : MediaKind;
  data_rtpParameters : Any;
  data_appData : Any;
}.

Definition new : RoomManager := {| rooms := [] |}.

Definition with_participants (room : RoomState)
    (ps : list (string * RoomParticipant)) : RoomState :=
  {| room_id := room_id room; sfuNode := sfuNode room; routerId := routerId room;
     routerRtpCapabilities := routerRtpCapabilities room;
     participants := ps; createdAt := createdAt room |}.

(** A mutation of the participant object [room?.participants.get(pid)],
    when there is one. *)
Definition update_participant (roomId participantId : string)
    (f : RoomParticipant → RoomParticipant) (self : RoomManager) : RoomManager :=
  match JsMap.get (rooms self) roomId with
  | Some room =>
      match JsMap.get (participants room) participantId with
      | Some p =>
          {| rooms := JsMap.set (rooms self) roomId
               (with_participants room
                  (JsMap.set (participants room) participantId (f p))) |}
      | None => self
      end
  | None => self
  end.

Section Environment.
Variable process_env : string → option string.

(** [joinRoom(roomId, user, role, displayName)] *)
Definition joinRoom (roomId : string) (user : Auth.AuthenticatedUser)
    (role displayName : string) (now : Z)
    (self : RoomManager) (sfu : SFUManager.SFUManager)
    (redis : Redis.RedisService)
    : result JoinInfo * RoomManager * Redis.RedisService :=
  let found :=
    match JsMap.get (rooms self) roomId with
    | Some room => (Ok room, redis)
    | None =>
        match SFUManager.allocateRoom process_env roomId now sfu redis with
        | (Ok allocation, redis') =>
            (Ok {| room_id := roomId;
                   sfuNode := SFUManager.node allocation;
                   routerId := SFUManager.routerId allocation;
                   routerRtpCapabilities := empty_object;
                   participants := [];
                   createdAt := now |}, redis')
        | (Throw e, redis') => (Throw e, redis')
        end
    end in
  match found with
  | (Throw e, redis') => (Throw e, self, redis')
  | (Ok room, redis') =>
      let participantId := "p-" +:+ Auth.id user +:+ "-" +:+ pretty now in
      let participant :=
        {| id := participantId; odUserId := Auth.id user;
           displayName := displayName; role := role;
           rtpCapabilities := None;
           sendTransportId := None; recvTransportId := None;
           producers := []; consumers := [] |} in
      let room' :=
        with_participants room
          (JsMap.set (participants room) participantId participant) in
      (Ok {| join_participantId := participantId;
             join_routerRtpCapabilities := routerRtpCapabilities room';
             join_sfuNode := sfuNode room' |},
       {| rooms := JsMap.set (rooms self) roomId room' |},
       redis')
  end.
End Environment.

(** [leaveRoom(roomId, participantId)] *)
Definition leaveRoom (roomId participantId : string)
    (self : RoomManager) (redis : Redis.RedisService)
    : RoomManager * Redis.RedisService :=
  match JsMap.get (rooms self) roomId with
  | None => (self, redis)
  | Some room =>
      let room' :=
        with_participants room (JsMap.delete (participants room) participantId) in
      let rooms' := JsMap.set (rooms self) roomId room' in
      if decide (JsMap.size (participants room') = 0) then
        ({| rooms := JsMap.delete rooms' roomId |},
         SFUManager.releaseRoom roomId redis)
      else ({| rooms := rooms' |}, redis)
  end.

(** [setParticipantRtpCapabilities(roomId, participantId, rtpCapabilities)] *)
Definition setParticipantRtpCapabilities (roomId participantId : string)
    (caps : Any) (self : RoomManager) : RoomManager :=
  update_participant roomId participantId
    (λ p, {| id := id p; odUserId := odUserId p; displayName := displayName p;
             role := role p; rtpCapabilities := Some caps;
             sendTransportId := sendTransportId p;
             recvTransportId := recvTransportId p;
             producers := producers p; consumers := consumers p |}) self.

(** [getParticipants(roomId)] *)
Definition getParticipants (roomId : string) (self : RoomManager)
    : list ParticipantInfo :=
  match JsMap.get (rooms self) roomId with
  | None => []
  | Some room =>
      map (λ p, {| info_id := id p; info_odUserId := odUserId p;
                   info_displayName := displayName p; info_role := role p;
                   info_producers :=
                     map (λ prod, {| info_producer_id := producer_id prod;
                                     info_producer_kind := producer_kind prod;
                                     info_producer_source := producer_source prod |})
                         (JsMap.values (producers p)) |})
          (JsMap.values (participants room))
  end.

(** [createTransport(roomId, participantId, direction, sctpCapabilities?)] *)
Definition createTransport (roomId participantId : string) (d : Direction)
    (sctpCapabilities : option Any) (now : Z) (self : RoomManager)
    : TransportData * RoomManager :=
  let transportId :=
    "transport-" +:+ direction_text d +:+ "-" +:+ participantId +:+ "-"
      +:+ pretty now in
  let self' :=
    update_participant roomId participantId
      (λ p, {| id := id p; odUserId := odUserId p; displayName := displayName p;
               role := role p; rtpCapabilities := rtpCapabilities p;
               sendTransportId :=
                 match d with send => Some transportId | recv => sendTransportId p end;
               recvTransportId :=
                 match d with send => recvTransportId p | recv => Some transportId end;
               producers := producers p; consumers := consumers p |}) self in
  ({| transport_id := transportId;
      iceParameters := "{ usernameFragment: 'mock', password: 'mock' }";
      iceCandidates := "[]";
      dtlsParameters := "{ fingerprints: [], role: 'auto' }";
      sctpParameters :=
        match sctpCapabilities with Some _ => Some empty_object | None => None end |},
   self').

(** [connectTransport(roomId, transportId, dtlsParameters)] *)
Definition connectTransport (roomId transportId : string) (dtls : Any)
    (self : RoomManager) : RoomManager := self.

(** [produce(roomId, participantId, transportId, kind, rtpParameters, appData?)] *)
Definition produce (roomId participantId transportId : string) (k : MediaKind)
    (rtpParameters : Any) (appData : option AppData) (now : Z)
    (self : RoomManager) : string * RoomManager :=
  let producerId :=
    "producer-" +:+ kind_text k +:+ "-" +:+ participantId +:+ "-" +:+ pretty now in
  let st :=
    {| producer_id := producerId; producer_kind := k;
       producer_source := or_default (appData ≫= source) (kind_text k);
       producer_paused := false |} in
  (producerId,
   update_participant roomId participantId
     (λ p, {| id := id p; odUserId := odUserId p; displayName := displayName p;
              role := role p; rtpCapabilities := rtpCapabilities p;
              sendTransportId := sendTransportId p;
              recvTransportId := recvTransportId p;
              producers := JsMap.set (producers p) producerId st;
              consumers := consumers p |}) self).

(** [consume(roomId, participantId, producerId, rtpCapabilities)]: the
    result is never [null]. *)
Definition consume (roomId participantId producerId : string)
    (caps : Any) (now : Z) (self : RoomManager)
    : option ConsumerData * RoomManager :=
  let consumerId :=
    "consumer-" +:+ producerId +:+ "-" +:+ participantId +:+ "-" +:+ pretty now in
  let st :=
    {| consumer_id := consumerId; consumer_producerId := producerId;
       consumer_kind := video; consumer_paused := true |} in
  (Some {| data_consumer_id := consumerId; data_producerId := producerId;
           data_kind := video; data_rtpParameters := empty_object;
           data_appData := empty_object |},
   update_participant roomId participantId
     (λ p, {| id := id p; odUserId := odUserId p; displayName := displayName p;
              role := role p; rtpCapabilities := rtpCapabilities p;
              sendTransportId := sendTransportId p;
              recvTransportId := recvTransportId p;
              producers := producers p;
              consumers := JsMap.set (consumers p) consumerId st |}) self).

(** [resumeConsumer], [pauseProducer], [resumeProducer],
    [setPreferredLayers]: they only log. *)
Definition resumeConsumer (roomId consumerId : string)
    (self : RoomManager) : RoomManager := self.

Definition pauseProducer (roomId producerId : string)
    (self : RoomManager) : RoomManager := self.

Definition resumeProducer (roomId producerId : string)
    (self : RoomManager) : RoomManager := self.

Definition setPreferredLayers (roomId consumerId : string) (spatialLayer : Z)
    (temporalLayer : option Z) (self : RoomManager) : RoomManager := self.

Definition drop_producer (producerId : string) (p : RoomParticipant)
    : RoomParticipant :=
  {| id := id p; odUserId := odUserId p; displayName := displayName p;
     role := role p; rtpCapabilities := rtpCapabilities p;
     sendTransportId := sendTransportId p;
     recvTransportId := recvTransportId p;
     producers := JsMap.delete (producers p) producerId;
     consumers := consumers p |}.

(** [closeProducer(roomId, producerId)] *)
Definition closeProducer (roomId producerId : string)
    (self : RoomManager) : RoomManager :=
  match JsMap.get (rooms self) roomId with
  | None => self
  | Some room =>
      {| rooms := JsMap.set (rooms self) roomId
           (with_participants room
              (map (λ kp, (fst kp, drop_producer producerId (snd kp)))
                   (participants room))) |}
  end.

(** [getRouterRtpCapabilities(roomId)]; the stored capabilities are an
    object, hence truthy. *)
Definition getRouterRtpCapabilities (roomId : string) (self : RoomManager) : Any :=
  match JsMap.get (rooms self) roomId with
  | Some room => routerRtpCapabilities room
  | None => empty_object
  end.

(** [shutdown()] *)
Definition shutdown (self : RoomManager) (redis : Redis.RedisService)
    : RoomManager * Redis.RedisService :=
  ({| rooms := [] |},
   foldl (λ r roomId, SFUManager.releaseRoom roomId r) redis
         (JsMap.keys (rooms self))).
End RoomManager.

(** ** SignalingServer: the protocol gateway *)

Module SignalingServer.
Inductive ReadyState := CONNECTING | OPEN | CLOSING | CLOSED.

Record ConnectedClient := {
  id : string;
  readyState : ReadyState;          (* [socket.readyState] *)
  user : option Auth.AuthenticatedUser;
  roomId : option string;
  participantId : option string;
  transportIds : list string;
  producerIds : list string;
  consumerIds : list string;
  lastPing : Z;
  ip : string;
}.

(** Inbound messages, after [JSON.parse]; [Unknown] is any other event.
    An optional blob is [None] when the field is missing or falsy. *)
Inductive ClientMessage :=
| Authenticate (token organizationId : string)
| JoinRoom (room role displayName : string) (rtpCapabilities : option Any)
| LeaveRoom
| CreateTransport (direction : RoomManager.Direction) (sctpCapabilities : option Any)
| ConnectTransport (transportId : string) (dtlsParameters : Any)
| Produce (transportId : string) (kind : RoomManager.MediaKind)
    (rtpParameters : Any) (appData : option RoomManager.AppData)
| Consume (producerId : string) (rtpCapabilities : Any)
| ResumeConsumer (consumerId : string)
| PauseProducer (producerId : string)
| ResumeProducer (producerId : string)
| CloseProducer (producerId : string)
| SetPreferredLayers (consumerId : string) (spatialLayer : Z) (temporalLayer : option Z)
| GetRouterRtpCapabilities (room : string)
| Unknown (event : string).

(** Outbound events. *)
Inductive ServerMessage :=
| welcome (clientId : string) (serverTime : Z)
| error (message : string) (code : option string)
| authenticated (userId organizationId : string) (permissions : list string)
| room_joined (room participant : string) (routerRtpCapabilities : Any)
    (participants : list RoomManager.ParticipantInfo) (sfuNode : string)
| participant_joined (participant userId displayName role : string)
| transport_created (transport : RoomManager.TransportData)
    (direction : RoomManager.Direction)
| transport_connected (transportId : string)
| produced (producerId : string)
| new_producer (producerId producerUserId participant : string)
    (kind : RoomManager.MediaKind) (appData : option RoomManager.AppData)
| consumer_created (consumer : RoomManager.ConsumerData)
| consumer_resumed (consumerId : string)
| producer_paused (producerId : string)
| producer_resumed (producerId : string)
| producer_closed (producerId : string)
| router_rtp_capabilities (rtpCapabilities : Any)
| participant_left (participant : string) (userId : option string).

(** The methods of [RoomManager], as the gateway invokes them. *)
Inductive Method :=
| joinRoom | leaveRoom | setParticipantRtpCapabilities | getParticipants
| createTransport | connectTransport | produce | consume | resumeConsumer
| pauseProducer | resumeProducer | closeProducer | setPreferredLayers
| getRouterRtpCapabilities | shutdownRooms.

(** What a handler does to the outside, in order. *)
Inductive Effect :=
| Send (clientId : string) (message : ServerMessage)   (* [socket.send] *)
| Close (clientId : string) (code : Z) (reason : string) (* [socket.close] *)
| Terminate (clientId : string)                        (* [socket.terminate] *)
| Ping (clientId : string)                             (* [socket.ping] *)
| Invoke (method : Method) (room : string).            (* a call into RoomManager *)

Record SignalingServer := {
  clients : list (string * ConnectedClient);
  roomManager : RoomManager.RoomManager;
  sfuManager : SFUManager.SFUManager;
  redisService : Redis.RedisService;
  rateLimiter : RateLimiter.RateLimiterService;
}.

Definition with_clients (srv : SignalingServer)
    (cs : list (string * ConnectedClient)) : SignalingServer :=
  {| clients := cs; roomManager := roomManager srv; sfuManager := sfuManager srv;
     redisService := redisService srv; rateLimiter := rateLimiter srv |}.

Definition with_rooms (srv : SignalingServer) (rm : RoomManager.RoomManager)
    (redis : Redis.RedisService) : SignalingServer :=
  {| clients := clients srv; roomManager := rm; sfuManager := sfuManager srv;
     redisService := redis; rateLimiter := rateLimiter srv |}.

Definition with_rateLimiter (srv : SignalingServer)
    (rl : RateLimiter.RateLimiterService) : SignalingServer :=
  {| clients := clients srv; roomManager := roomManager srv;
     sfuManager := sfuManager srv; redisService := redisService srv;
     rateLimiter := rl |}.

(** A mutation of the client object registered under [cid]. *)
Definition update_client (cid : string) (f : ConnectedClient → ConnectedClient)
    (srv : SignalingServer) : SignalingServer :=
  match JsMap.get (clients srv) cid with
  | Some c => with_clients srv (JsMap.set (clients srv) cid (f c))
  | None => srv
  end.

Definition set_user (u : Auth.AuthenticatedUser) (c : ConnectedClient) :=
  {| id := id c; readyState := readyState c; user := Some u; roomId := roomId c;
     participantId := participantId c; transportIds := transportIds c;
     producerIds := producerIds c; consumerIds := consumerIds c;
     lastPing := lastPing c; ip := ip c |}.

Definition set_room (r p : option string) (c : ConnectedClient) :=
  {| id := id c; readyState := readyState c; user := user c; roomId := r;
     participantId := p; transportIds := transportIds c;
     producerIds := producerIds c; consumerIds := consumerIds c;
     lastPing := lastPing c; ip := ip c |}.

Definition set_ids (ts ps cs : list string) (c : ConnectedClient) :=
  {| id := id c; readyState := readyState c; user := user c; roomId := roomId c;
     participantId := participantId c; transportIds := ts;
     producerIds := ps; consumerIds := cs;
     lastPing := lastPing c; ip := ip c |}.

Definition set_lastPing (t : Z) (c : ConnectedClient) :=
  {| id := id c; readyState := readyState c; user := user c; roomId := roomId c;
     participantId := participantId c; transportIds := transportIds c;
     producerIds := producerIds c; consumerIds := consumerIds c;
     lastPing := t; ip := ip c |}.

(** The value of a nullable string when it is truthy. *)
Definition present (o : option string) : option string :=
  match o with
  | Some s => if truthy s then Some s else None
  | None => None
  end.

(** [send(client, message)] *)
Definition send (c : ConnectedClient) (m : ServerMessage) : list Effect :=
  match readyState c with
  | OPEN => [Send (id c) m]
  | _ => []
  end.

(** [sendError(client, message, code?)] *)
Definition sendError (c : ConnectedClient) (message : string)
    (code : option string) : list Effect :=
  send c (error message code).

(** [broadcastToRoom(roomId, excludeClientId, message)] *)
Definition broadcastToRoom (room excludeClientId : string) (m : ServerMessage)
    (srv : SignalingServer) : list Effect :=
  flat_map (λ c, if bool_decide (roomId c = Some room)
                    && bool_decide (id c ≠ excludeClientId)
                 then send c m else [])
           (JsMap.values (clients srv)).

(** Every registered connection is filed under its own id, and a
    connection without a user is in no room. *)
Definition clients_ok (cs : list (string * ConnectedClient)) : Prop :=
  ∀ k c, JsMap.get cs k = Some c →
         id c = k ∧ (user c = None → roomId c = None ∧ participantId c = None).

Section Collaborators.
(** [AuthService]: [verifyToken] and [verifyOrganizationMembership]. *)
Variable verifyToken : string → result Auth.AuthenticatedUser.
Variable verifyOrganizationMembership : string → string → result bool.
Variable process_env : string → option string.

Definition Handler : Type := SignalingServer → SignalingServer * list Effect.

(** [handleAuthenticate(client, data)] *)
Definition handleAuthenticate (c : ConnectedClient)
    (token organizationId : string) : Handler := λ srv,
  match verifyToken token with
  | Throw _ => (srv, sendError c "Authentication failed" (Some "AUTH_FAILED"))
  | Ok u =>
      match verifyOrganizationMembership (Auth.id u) organizationId with
      | Throw _ => (srv, sendError c "Authentication failed" (Some "AUTH_FAILED"))
      | Ok false =>
          (srv, sendError c "Not a member of this organization" (Some "AUTH_FAILED"))
      | Ok true =>
          (update_client (id c) (set_user u) srv,
           send c (authenticated (Auth.id u) organizationId (Auth.permissions u)))
      end
  end.

(** [handleJoinRoom(client, data)] *)
Definition handleJoinRoom (c : ConnectedClient) (room role displayName : string)
    (rtpCapabilities : option Any) (now : Z) : Handler := λ srv,
  match user c with
  | None => (srv, sendError c "Not authenticated" (Some "NOT_AUTHENTICATED"))
  | Some u =>
      match RoomManager.joinRoom process_env room u role displayName now
              (roomManager srv) (sfuManager srv) (redisService srv) with
      | (Throw _, rm, redis) =>
          (with_rooms srv rm redis,
           Invoke joinRoom room
             :: sendError c "Failed to join room" (Some "JOIN_FAILED"))
      | (Ok roomInfo, rm, redis) =>
          let pid := RoomManager.join_participantId roomInfo in
          let srv1 :=
            update_client (id c) (set_room (Some room) (Some pid))
              (with_rooms srv rm redis) in
          let '(rm2, caps_call) :=
            match rtpCapabilities with
            | Some caps =>
                (RoomManager.setParticipantRtpCapabilities room pid caps rm,
                 [Invoke setParticipantRtpCapabilities room])
            | None => (rm, [])
            end in
          let srv2 := with_rooms srv1 rm2 redis in
          let participants := RoomManager.getParticipants room rm2 in
          (srv2,
           Invoke joinRoom room :: caps_call
             ++ Invoke getParticipants room
             :: send c (room_joined room pid
                          (RoomManager.join_routerRtpCapabilities roomInfo)
                          (filter (λ p, RoomManager.info_id p ≠ pid) participants)
                          (RoomManager.join_sfuNode roomInfo))
             ++ broadcastToRoom room (id c)
                  (participant_joined pid (Auth.id u) displayName role) srv2)
      end
  end.

(** [cleanupClientRoom(client)] *)
Definition cleanupClientRoom (c : ConnectedClient) : Handler := λ srv,
  match present (roomId c), present (participantId c) with
  | Some room, Some pid =>
      let rm1 :=
        foldl (λ rm producerId, RoomManager.closeProducer room producerId rm)
              (roomManager srv) (producerIds c) in
      let '(rm2, redis) := RoomManager.leaveRoom room pid rm1 (redisService srv) in
      let srv1 := with_rooms srv rm2 redis in
      (update_client (id c) (λ c', set_ids [] [] [] (set_room None None c')) srv1,
       map (λ _, Invoke closeProducer room) (producerIds c)
         ++ Invoke leaveRoom room
         :: broadcastToRoom room (id c)
              (participant_left pid (Auth.id <$> user c)) srv1)
  | _, _ => (srv, [])
  end.

(** [handleLeaveRoom(client)] *)
Definition handleLeaveRoom (c : ConnectedClient) : Handler := λ srv,
  match present (roomId c), present (participantId c) with
  | Some _, Some _ => cleanupClientRoom c srv
  | _, _ => (srv, [])
  end.

(** [handleCreateTransport(client, data)] *)
Definition handleCreateTransport (c : ConnectedClient)
    (d : RoomManager.Direction) (sctpCapabilities : option Any) (now : Z)
    : Handler := λ srv,
  match present (roomId c), present (participantId c) with
  | Some room, Some pid =>
      let '(transport, rm) :=
        RoomManager.createTransport room pid d sctpCapabilities now
          (roomManager srv) in
      (update_client (id c)
         (λ c', set_ids (JsSet.add (transportIds c')
                           (RoomManager.transport_id transport))
                        (producerIds c') (consumerIds c') c')
         (with_rooms srv rm (redisService srv)),
       Invoke createTransport room :: send c (transport_created transport d))
  | _, _ => (srv, sendError c "Not in a room" (Some "NOT_IN_ROOM"))
  end.

(** [handleConnectTransport(client, data)] *)
Definition handleConnectTransport (c : ConnectedClient)
    (transportId : string) (dtls : Any) : Handler := λ srv,
  match present (roomId c) with
  | Some room =>
      (with_rooms srv
         (RoomManager.connectTransport room transportId dtls (roomManager srv))
         (redisService srv),
       Invoke connectTransport room :: send c (transport_connected transportId))
  | None => (srv, sendError c "Not in a room" (Some "NOT_IN_ROOM"))
  end.

(** [handleProduce(client, data)] *)
Definition handleProduce (c : ConnectedClient) (transportId : string)
    (k : RoomManager.MediaKind) (rtpParameters : Any)
    (appData : option RoomManager.AppData) (now : Z) : Handler := λ srv,
  match present (roomId c), present (participantId c) with
  | Some room, Some pid =>
      let '(producerId, rm) :=
        RoomManager.produce room pid transportId k rtpParameters appData now
          (roomManager srv) in
      let srv1 :=
        update_client (id c)
          (λ c', set_ids (transportIds c') (JsSet.add (producerIds c') producerId)
                         (consumerIds c') c')
          (with_rooms srv rm (redisService srv)) in
      (srv1,
       Invoke produce room :: send c (produced producerId)
         ++ match user c with
            | Some u =>
                broadcastToRoom room (id c)
                  (new_producer producerId (Auth.id u) pid k appData) srv1
            | None => sendError c "Failed to produce" (Some "PRODUCE_ERROR")
            end)
  | _, _ => (srv, sendError c "Not in a room" (Some "NOT_IN_ROOM"))
  end.

(** The part of [handleConsume] that follows the call of
    [roomManager.consume]: what is done with its result. *)
Definition consume_reply (c : ConnectedClient)
    (consumer : option RoomManager.ConsumerData) : Handler := λ srv,
  match consumer with
  | None =>
      (srv, sendError c "Cannot consume this producer" (Some "CONSUME_ERROR"))
  | Some consumer =>
      (update_client (id c)
         (λ c', set_ids (transportIds c') (producerIds c')
                        (JsSet.add (consumerIds c')
                           (RoomManager.data_consumer_id consumer)) c') srv,
       send c (consumer_created consumer))
  end.

(** [handleConsume(client, data)] *)
Definition handleConsume (c : ConnectedClient) (producerId : string)
    (caps : Any) (now : Z) : Handler := λ srv,
  match present (roomId c), present (participantId c) with
  | Some room, Some pid =>
      let '(consumer, rm) :=
        RoomManager.consume room pid producerId caps now (roomManager srv) in
      let '(srv', out) :=
        consume_reply c consumer (with_rooms srv rm (redisService srv)) in
      (srv', Invoke consume room :: out)
  | _, _ => (srv, sendError c "Not in a room" (Some "NOT_IN_ROOM"))
  end.

(** [handleResumeConsumer(client, data)] *)
Definition handleResumeConsumer (c : ConnectedClient) (consumerId : string)
    : Handler := λ srv,
  match present (roomId c) with
  | None => (srv, [])
  | Some room =>
      (with_rooms srv
         (RoomManager.resumeConsumer room consumerId (roomManager srv))
         (redisService srv),
       Invoke resumeConsumer room :: send c (consumer_resumed consumerId))
  end.

(** [handlePauseProducer(client, data)] *)
Definition handlePauseProducer (c : ConnectedClient) (producerId : string)
    : Handler := λ srv,
  match present (roomId c) with
  | None => (srv, [])
  | Some room =>
      let srv1 :=
        with_rooms srv
          (RoomManager.pauseProducer room producerId (roomManager srv))
          (redisService srv) in
      (srv1,
       Invoke pauseProducer room
         :: broadcastToRoom room (id c) (producer_paused producerId) srv1)
  end.

(** [handleResumeProducer(client, data)] *)
Definition handleResumeProducer (c : ConnectedClient) (producerId : string)
    : Handler := λ srv,
  match present (roomId c) with
  | None => (srv, [])
  | Some room =>
      let srv1 :=
        with_rooms srv
          (RoomManager.resumeProducer room producerId (roomManager srv))
          (redisService srv) in
      (srv1,
       Invoke resumeProducer room
         :: broadcastToRoom room (id c) (producer_resumed producerId) srv1)
  end.

(** [handleCloseProducer(client, data)] *)
Definition handleCloseProducer (c : ConnectedClient) (producerId : string)
    : Handler := λ srv,
  match present (roomId c) with
  | None => (srv, [])
  | Some room =>
      let srv1 :=
        update_client (id c)
          (λ c', set_ids (transportIds c')
                         (JsSet.delete (producerIds c') producerId)
                         (consumerIds c') c')
          (with_rooms srv
             (RoomManager.closeProducer room producerId (roomManager srv))
             (redisService srv)) in
      (srv1,
       Invoke closeProducer room
         :: broadcastToRoom room (id c) (producer_closed producerId) srv1)
  end.

(** [handleSetPreferredLayers(client, data)] *)
Definition handleSetPreferredLayers (c : ConnectedClient) (consumerId : string)
    (spatialLayer : Z) (temporalLayer : option Z) : Handler := λ srv,
  match present (roomId c) with
  | None => (srv, [])
  | Some room =>
      (with_rooms srv
         (RoomManager.setPreferredLayers room consumerId spatialLayer
            temporalLayer (roomManager srv))
         (redisService srv),
       [Invoke setPreferredLayers room])
  end.

(** [handleGetRouterRtpCapabilities(client, data)] *)
Definition handleGetRouterRtpCapabilities (c : ConnectedClient) (room : string)
    : Handler := λ srv,
  (srv,
   Invoke getRouterRtpCapabilities room
     :: send c (router_rtp_capabilities
                  (RoomManager.getRouterRtpCapabilities room (roomManager srv)))).

(** [handleMessage(client, message)] *)
Definition handleMessage (c : ConnectedClient) (m : ClientMessage) (now : Z)
    : Handler :=
  match m with
  | Authenticate token org => handleAuthenticate c token org
  | JoinRoom room role name caps => handleJoinRoom c room role name caps now
  | LeaveRoom => handleLeaveRoom c
  | CreateTransport d sctp => handleCreateTransport c d sctp now
  | ConnectTransport t dtls => handleConnectTransport c t dtls
  | Produce t k rtp app => handleProduce c t k rtp app now
  | Consume p caps => handleConsume c p caps now
  | ResumeConsumer x => handleResumeConsumer c x
  | PauseProducer p => handlePauseProducer c p
  | ResumeProducer p => handleResumeProducer c p
  | CloseProducer p => handleCloseProducer c p
  | SetPreferredLayers x s t => handleSetPreferredLayers c x s t
  | GetRouterRtpCapabilities room => handleGetRouterRtpCapabilities c room
  | Unknown event => λ srv, (srv, sendError c ("Unknown event: " +:+ event) None)
  end.

(** [cleanupClient(client)] *)
Definition cleanupClient (c : ConnectedClient) : Handler := λ srv,
  let '(srv1, out) := cleanupClientRoom c srv in
  let rl1 := RateLimiter.reset (id c) (rateLimiter srv1) in
  let rl2 :=
    match user c with
    | Some u => RateLimiter.reset (Auth.id u) rl1
    | None => rl1
    end in
  (with_rateLimiter srv1 rl2, out).

(** The ['message'] listener of a socket; [parsed] is [None] when
    [JSON.parse] throws. *)
Definition onMessage (clientId : string) (parsed : option ClientMessage)
    (now : Z) : Handler := λ srv,
  match JsMap.get (clients srv) clientId with
  | None => (srv, [])
  | Some c =>
      let '(check, rl) :=
        RateLimiter.checkMessage clientId (Auth.id <$> user c) now
          (rateLimiter srv) in
      let srv1 := with_rateLimiter srv rl in
      if RateLimiter.allowed check then
        match parsed with
        | Some m => handleMessage c m now srv1
        | None => (srv1, sendError c "Invalid message format" None)
        end
      else
        (srv1,
         sendError c
           ("Rate limit exceeded. Retry after "
              +:+ Js.show (RateLimiter.retryAfter check) +:+ "s")
           (Some "RATE_LIMIT_EXCEEDED"))
  end.

(** The ['close'] listener of a socket. *)
Definition onClose (clientId : string) : Handler := λ srv,
  match JsMap.get (clients srv) clientId with
  | None => (srv, [])
  | Some c =>
      let '(srv1, out) := cleanupClient c srv in
      (with_clients srv1 (JsMap.delete (clients srv1) clientId), out)
  end.

(** The ['pong'] listener of a socket. *)
Definition onPong (clientId : string) (now : Z) : Handler := λ srv,
  (update_client clientId (set_lastPing now) srv, []).

(** [handleConnection(socket, request)]; [clientId] is the fresh uuid and
    [address] the source address taken from the request. *)
Definition handleConnection (clientId address : string) (now : Z)
    : Handler := λ srv,
  let '(check, rl) :=
    RateLimiter.checkConnection address now (rateLimiter srv) in
  let srv1 := with_rateLimiter srv rl in
  if RateLimiter.allowed check then
    let c := {| id := clientId; readyState := OPEN; user := None;
                roomId := None; participantId := None;
                transportIds := []; producerIds := []; consumerIds := [];
                lastPing := now; ip := address |} in
    (with_clients srv1 (JsMap.set (clients srv1) clientId c),
     send c (welcome clientId now))
  else
    (srv1,
     [Close clientId 1008
        ("Rate limit exceeded. Retry after "
           +:+ Js.show (RateLimiter.retryAfter check) +:+ "s")]).

(** [pingClients()] *)
Definition pingClients (now : Z) : Handler := λ srv,
  (srv,
   flat_map (λ c, if decide (60000 < now - lastPing c) then [Terminate (id c)]
                  else match readyState c with
                       | OPEN => [Ping (id c)]
                       | _ => []
                       end)
            (JsMap.values (clients srv))).

(** [shutdown()] *)
Definition shutdown : Handler := λ srv,
  let '(srv1, out) :=
    foldl (λ acc cid,
             match JsMap.get (clients (fst acc)) cid with
             | Some c =>
                 let '(s, o) := cleanupClient c (fst acc) in
                 (s, snd acc ++ o ++ [Close cid 1001 "Server shutting down"])
             | None => acc
             end)
          (srv, []) (JsMap.keys (clients srv)) in
  let '(rm, redis) :=
    RoomManager.shutdown (roomManager srv1) (redisService srv1) in
  (with_rooms (with_clients srv1 []) rm redis,
   out ++ [Invoke shutdownRooms ""]).

(** What can happen to a gateway, one event at a time: the socket
    listeners, the timers, and what the rest of the world does to a
    socket or to the shared store. *)
Inductive Event :=
| Connection (clientId address : string) (now : Z)
| Message (clientId : string) (parsed : option ClientMessage) (now : Z)
| Closed (clientId : string)
| Pong (clientId : string) (now : Z)
| PingTimer (now : Z)
| HealthTimer (stats_routers : string → option Z) (now : Z)
| SocketState (clientId : string) (state : ReadyState)
| StoreChanged (redis : Redis.RedisService)
| ShutDown.

Definition set_readyState (rs : ReadyState) (c : ConnectedClient) :=
  {| id := id c; readyState := rs; user := user c; roomId := roomId c;
     participantId := participantId c; transportIds := transportIds c;
     producerIds := producerIds c; consumerIds := consumerIds c;
     lastPing := lastPing c; ip := ip c |}.

Definition step (srv : SignalingServer) (e : Event)
    : SignalingServer * list Effect :=
  match e with
  | Connection clientId address now => handleConnection clientId address now srv
  | Message clientId parsed now => onMessage clientId parsed now srv
  | Closed clientId => onClose clientId srv
  | Pong clientId now => onPong clientId now srv
  | PingTimer now => pingClients now srv
  | HealthTimer stats_routers now =>
      ({| clients := clients srv; roomManager := roomManager srv;
          sfuManager :=
            SFUManager.checkHealth stats_routers now (redisService srv)
              (sfuManager srv);
          redisService := redisService srv; rateLimiter := rateLimiter srv |},
       [])
  | SocketState clientId rs => (update_client clientId (set_readyState rs) srv, [])
  | StoreChanged redis => (with_rooms srv (roomManager srv) redis, [])
  | ShutDown => shutdown srv
  end.

(** The constructor, on the services it is given. *)
Definition new (sfu : SFUManager.SFUManager) (redis : Redis.RedisService)
    (rl : RateLimiter.RateLimiterService) : SignalingServer :=
  {| clients := []; roomManager := RoomManager.new; sfuManager := sfu;
     redisService := redis; rateLimiter := rl |}.

(** The gateway after a history of events. *)
Definition run (init : SignalingServer) (events : list Event) : SignalingServer :=
  foldl (λ srv e, fst (step srv e)) init events.
End Collaborators.
End SignalingServer.

(** ** WorkerManager: the media engine pool of one node *)

Module WorkerManager.
(** A worker object of the engine: [handle] is its identity ([===]). *)
Record Worker := { handle : nat; worker_pid : Z }.

Record ResourceUsage := { ru_utime : Z; ru_stime : Z }.

Record WorkerInfo := {
  worker : Worker;
  routerCount : Z;
  pid : Z;
  usage : option ResourceUsage;
}.

(** [workers] is a JavaScript array: [None] is a hole left by an
    assignment past the end. [closedWorkers] holds the handles of the
    worker objects whose [closed] flag is set. *)
Record WorkerManager := {
  workers : list (option WorkerInfo);
  closedWorkers : gset nat;
}.

(** The constructor. *)
Definition new : WorkerManager := {| workers := []; closedWorkers := ∅ |}.

Definition with_workers (wm : WorkerManager) (ws : list (option WorkerInfo))
    : WorkerManager :=
  {| workers := ws; closedWorkers := closedWorkers wm |}.

Definition fresh_slot (w : Worker) : WorkerInfo :=
  {| worker := w; routerCount := 0; pid := worker_pid w; usage := None |}.

(** [a[i] = x] on an array. *)
Definition array_set {A} (a : list (option A)) (i : nat) (x : A)
    : list (option A) :=
  if decide (i < length a)%nat then <[i := Some x]> a
  else a ++ replicate (i - length a) None ++ [Some x].

(** [initialize()]; [created] lists what [createWorker(i)] gives for
    [i = 0, 1, ...], one entry per worker to create. *)
Fixpoint initialize (created : list (result Worker)) (wm : WorkerManager)
    : result unit * WorkerManager :=
  match created with
  | [] => (Ok tt, wm)
  | Ok w :: rest =>
      initialize rest (with_workers wm (workers wm ++ [Some (fresh_slot w)]))
  | Throw e :: _ => (Throw e, wm)
  end.

(** The engine reports the death of the worker [w]. *)
Definition died (w : Worker) (wm : WorkerManager) : WorkerManager :=
  {| workers := workers wm; closedWorkers := {[handle w]} ∪ closedWorkers wm |}.

(** [handleWorkerDeath(index)], once the delay has elapsed; [created] is
    what [createWorker(index)] gives. *)
Definition handleWorkerDeath (index : nat) (created : result Worker)
    (wm : WorkerManager) : WorkerManager :=
  match created with
  | Ok newWorker => with_workers wm (array_set (workers wm) index (fresh_slot newWorker))
  | Throw _ => wm
  end.

(** The load score [routerCount + cpuFactor], computed and compared as the
    code does, in floating point; the counters are whole numbers. *)
Definition loadScore (w : WorkerInfo) : Js.number :=
  let cpuFactor :=
    match usage w with
    | Some u =>
        Js.divide (Js.plus (Js.of_int (ru_utime u)) (Js.of_int (ru_stime u)))
                  (Js.of_int 1000000)
    | None => Js.of_int 0
    end in
  Js.plus (Js.of_int (routerCount w)) cpuFactor.

(** The loop of [getLeastLoadedWorker]. *)
Fixpoint least_loaded (closed : gset nat) (ws : list (option WorkerInfo))
    (i : nat) (minLoad : Js.number) (selectedIndex : nat) : result nat :=
  match ws with
  | [] => Ok selectedIndex
  | None :: _ => Throw "TypeError"
  | Some w :: rest =>
      if decide (handle (worker w) ∈ closed) then
        least_loaded closed rest (S i) minLoad selectedIndex
      else if Js.less (loadScore w) minLoad then
        least_loaded closed rest (S i) (loadScore w) i
      else least_loaded closed rest (S i) minLoad selectedIndex
  end.

(** [getLeastLoadedWorker()] *)
Definition getLeastLoadedWorker (wm : WorkerManager) : result Worker :=
  match least_loaded (closedWorkers wm) (workers wm) 0 Js.Infinity 0 with
  | Throw e => Throw e
  | Ok selectedIndex =>
      match workers wm !! selectedIndex with
      | Some (Some w) => Ok (worker w)
      | _ => Throw "TypeError"
      end
  end.

(** [this.workers.find((w) => w.worker === worker)], as the index found. *)
Fixpoint find_index (ws : list (option WorkerInfo)) (w : Worker) (i : nat)
    : result (option nat) :=
  match ws with
  | [] => Ok None
  | None :: _ => Throw "TypeError"
  | Some info :: rest =>
      if decide (handle (worker info) = handle w) then Ok (Some i)
      else find_index rest w (S i)
  end.

Definition add_routers (d : Z) (info : WorkerInfo) : WorkerInfo :=
  {| worker := worker info; routerCount := routerCount info + d;
     pid := pid info; usage := usage info |}.

(** [incrementRouterCount(worker)] *)
Definition incrementRouterCount (w : Worker) (wm : WorkerManager)
    : result unit * WorkerManager :=
  match find_index (workers wm) w 0 with
  | Throw e => (Throw e, wm)
  | Ok None => (Ok tt, wm)
  | Ok (Some i) =>
      (Ok tt, with_workers wm (alter (fmap (add_routers 1)) i (workers wm)))
  end.

(** [decrementRouterCount(worker)] *)
Definition decrementRouterCount (w : Worker) (wm : WorkerManager)
    : result unit * WorkerManager :=
  match find_index (workers wm) w 0 with
  | Throw e => (Throw e, wm)
  | Ok None => (Ok tt, wm)
  | Ok (Some i) =>
      match workers wm !! i with
      | Some (Some info) =>
          if decide (0 < routerCount info) then
            (Ok tt, with_workers wm (alter (fmap (add_routers (-1))) i (workers wm)))
          else (Ok tt, wm)
      | _ => (Ok tt, wm)
      end
  end.

(** [getWorkerCount()] *)
Definition getWorkerCount (wm : WorkerManager) : Z :=
  Z.of_nat (length (workers wm)).

(** One round of the resource monitor; [sample h] is what
    [getResourceUsage()] gives for the worker [h]. A rejected sample is
    swallowed, a hole stops the round. *)
Fixpoint monitor (closed : gset nat) (sample : nat → result ResourceUsage)
    (ws : list (option WorkerInfo)) : list (option WorkerInfo) :=
  match ws with
  | [] => []
  | None :: rest => None :: rest
  | Some info :: rest =>
      let info' :=
        if decide (handle (worker info) ∈ closed) then info
        else match sample (handle (worker info)) with
             | Ok u => {| worker := worker info; routerCount := routerCount info;
                          pid := pid info; usage := Some u |}
             | Throw _ => info
             end in
      Some info' :: monitor closed sample rest
  end.

Definition resourceMonitoring (sample : nat → result ResourceUsage)
    (wm : WorkerManager) : WorkerManager :=
  with_workers wm (monitor (closedWorkers wm) sample (workers wm)).

(** The loop of [shutdown()]: the handles closed, or a hole met. *)
Fixpoint close_all (closed : gset nat) (ws : list (option WorkerInfo))
    : result unit * gset nat :=
  match ws with
  | [] => (Ok tt, closed)
  | None :: _ => (Throw "TypeError", closed)
  | Some info :: rest => close_all ({[handle (worker info)]} ∪ closed) rest
  end.

(** [shutdown()] *)
Definition shutdown (wm : WorkerManager) : result unit * WorkerManager :=
  match close_all (closedWorkers wm) (workers wm) with
  | (Ok _, closed) => (Ok tt, {| workers := []; closedWorkers := closed |})
  | (Throw e, closed) =>
      (Throw e, {| workers := workers wm; closedWorkers := closed |})
  end.

(** What can happen to a pool, one step at a time. *)
Inductive Op :=
| Initialize (created : list (result Worker))
| Died (w : Worker)
| HandleWorkerDeath (index : nat) (created : result Worker)
| IncrementRouterCount (w : Worker)
| DecrementRouterCount (w : Worker)
| ResourceMonitoring (sample : nat → result ResourceUsage)
| Shutdown.

Definition step (wm : WorkerManager) (op : Op) : WorkerManager :=
  match op with
  | Initialize created => snd (initialize created wm)
  | Died w => died w wm
  | HandleWorkerDeath index created => handleWorkerDeath index created wm
  | IncrementRouterCount w => snd (incrementRouterCount w wm)
  | DecrementRouterCount w => snd (decrementRouterCount w wm)
  | ResourceMonitoring sample => resourceMonitoring sample wm
  | Shutdown => snd (shutdown wm)
  end.

(** The pool after a history of steps, from its construction. *)
Definition run (ops : list Op) : WorkerManager := foldl step new ops.

(** Every filled slot tracks a count that is not negative. *)
Definition counts_nonneg (ws : list (option WorkerInfo)) : Prop :=
  Forall (λ o, ∀ info, o = Some info → 0 <= routerCount info) ws.

(** Every filled slot tracks the count zero. *)
Definition counts_zero (ws : list (option WorkerInfo)) : Prop :=
  Forall (λ o, ∀ info, o = Some info → routerCount info = 0) ws.

(** The tracked count of a slot, when the slot is filled. *)
Definition routerCountAt (wm : WorkerManager) (i : nat) : option Z :=
  match workers wm !! i with
  | Some (Some info) => Some (routerCount info)
  | _ => None
  end.
End WorkerManager.

(** ** RouterManager: the routing contexts of one node *)

Module RouterManager.
(** Engine objects, as the manager sees them. *)
Record Router := { router_handle : nat; rtpCapabilities : Any }.

Record Transport := {
  transport_id : string;
  iceParameters : Any;
  iceCandidates : Any;
  dtlsParameters : Any;
  sctpParameters : option Any;
}.

Record Producer := {
  producer_id : string;
  producer_kind : RoomManager.MediaKind;
  producer_rtpParameters : Any;
  producer_appData : Any;
}.

Record Consumer := {
  consumer_id : string;
  consumer_kind : RoomManager.MediaKind;
  consumer_rtpParameters : Any;
  consumer_appData : Any;
}.

Record RoomRouter := {
  id : string;
  roomId : string;
  router : Router;
  worker : WorkerManager.Worker;
  transports : list (string * Transport);
  producers : list (string * Producer);
  consumers : list (string * Consumer);
  createdAt : Z;
}.

(** The manager with the pool it was constructed on. *)
Record RouterManager := {
  routers : list (string * RoomRouter);
  workerManager : WorkerManager.WorkerManager;
  nodeId : string;
}.

Record RouterCreated := { created_routerId : string; created_rtpCapabilities : Any }.

Record ConsumerInfo := {
  info_id : string;
  info_producerId : string;
  info_kind : RoomManager.MediaKind;
  info_rtpParameters : Any;
  info_appData : Any;
}.

(** Calls made on engine objects, in order. *)
Inductive EngineCall :=
| consumer_close (consumerId : string)
| producer_close (producerId : string)
| transport_close (transportId : string)
| router_close (handle : nat)
| transport_connect (transportId : string)
| consumer_resume (consumerId : string)
| producer_pause (producerId : string)
| producer_resume (producerId : string)
| consumer_setPreferredLayers (consumerId : string) (spatialLayer : Z)
    (temporalLayer : option Z).

Definition new (wm : WorkerManager.WorkerManager) (node : string) : RouterManager :=
  {| routers := []; workerManager := wm; nodeId := node |}.

Definition with_routers (self : RouterManager) (rs : list (string * RoomRouter))
    : RouterManager :=
  {| routers := rs; workerManager := workerManager self; nodeId := nodeId self |}.

Definition with_workerManager (self : RouterManager)
    (wm : WorkerManager.WorkerManager) : RouterManager :=
  {| routers := routers self; workerManager := wm; nodeId := nodeId self |}.

Definition with_maps (r : RoomRouter) (ts : list (string * Transport))
    (ps : list (string * Producer)) (cs : list (string * Consumer)) : RoomRouter :=
  {| id := id r; roomId := roomId r; router := router r; worker := worker r;
     transports := ts; producers := ps; consumers := cs;
     createdAt := createdAt r |}.

(** [Array.from(this.routers.values()).find((r) => r.roomId === roomId)] *)
Definition getRouterByRoomId (room : string) (self : RouterManager)
    : option RoomRouter :=
  List.find (λ r, bool_decide (roomId r = room)) (JsMap.values (routers self)).

(** [getRouter(routerId)] *)
Definition getRouter (routerId : string) (self : RouterManager) : option RoomRouter :=
  JsMap.get (routers self) routerId.

(** What the first turn of [createRouter(roomId)] ends with: the answer,
    when the room has a router, or the worker whose engine is asked for a
    router. *)
Inductive Started :=
| Existing (answer : RouterCreated)
| Selected (w : WorkerManager.Worker).

(** [createRouter(roomId)] up to its first [await]. *)
Definition createRouter_start (room : string) (self : RouterManager)
    : result Started :=
  match getRouterByRoomId room self with
  | Some existingRouter =>
      Ok (Existing
            {| created_routerId := id existingRouter;
               created_rtpCapabilities := rtpCapabilities (router existingRouter) |})
  | None =>
      match WorkerManager.getLeastLoadedWorker (workerManager self) with
      | Throw e => Throw e
      | Ok w => Ok (Selected w)
      end
  end.

(** [createRouter(roomId)] from the moment [worker.createRouter] has
    answered with [engine_router], in the state of that moment. [uuid] is
    the value of [uuidv4()], and [stored] what awaiting
    [redisService.setRoomRouter] gives: a write that is rejected leaves
    the store as it is. *)
Definition createRouter_resume (room uuid : string) (now : Z)
    (w : WorkerManager.Worker) (engine_router : result Router)
    (stored : result unit)
    (self : RouterManager) (redis : Redis.RedisService)
    : result RouterCreated * RouterManager * Redis.RedisService :=
  match engine_router with
  | Throw e => (Throw e, self, redis)
  | Ok r =>
      let roomRouter :=
        {| id := uuid; roomId := room; router := r; worker := w;
           transports := []; producers := []; consumers := [];
           createdAt := now |} in
      let self1 := with_routers self (JsMap.set (routers self) uuid roomRouter) in
      match WorkerManager.incrementRouterCount w (workerManager self1) with
      | (Throw e, wm) => (Throw e, with_workerManager self1 wm, redis)
      | (Ok _, wm) =>
          match stored with
          | Throw e => (Throw e, with_workerManager self1 wm, redis)
          | Ok _ =>
              (Ok {| created_routerId := uuid;
                     created_rtpCapabilities := rtpCapabilities r |},
               with_workerManager self1 wm,
               Redis.setRoomRouter room
                 {| Redis.nodeId := nodeId self; Redis.routerId := uuid |} redis)
          end
      end
  end.

(** [createRouter(roomId)], when nothing else runs while the engine
    creates the router. *)
Definition createRouter (room uuid : string) (now : Z)
    (engine_router : result Router) (stored : result unit)
    (self : RouterManager) (redis : Redis.RedisService)
    : result RouterCreated * RouterManager * Redis.RedisService :=
  match createRouter_start room self with
  | Throw e => (Throw e, self, redis)
  | Ok (Existing answer) => (Ok answer, self, redis)
  | Ok (Selected w) =>
      createRouter_resume room uuid now w engine_router stored self redis
  end.

(** [createTransport(routerId, direction, sctpCapabilities?)];
    [engine_transport] is what [router.createWebRtcTransport] gives. *)
Definition createTransport (routerId : string) (d : RoomManager.Direction)
    (sctpCapabilities : option Any) (engine_transport : result Transport)
    (self : RouterManager) : result Transport * RouterManager :=
  match JsMap.get (routers self) routerId with
  | None => (Throw ("Router not found: " +:+ routerId), self)
  | Some roomRouter =>
      match engine_transport with
      | Throw e => (Throw e, self)
      | Ok t =>
          (Ok t,
           with_routers self
             (JsMap.set (routers self) routerId
                (with_maps roomRouter
                   (JsMap.set (transports roomRouter) (transport_id t) t)
                   (producers roomRouter) (consumers roomRouter))))
      end
  end.

(** [connectTransport(routerId, transportId, dtlsParameters)] *)
Definition connectTransport (routerId transportId : string) (dtls : Any)
    (engine_connected : result unit) (self : RouterManager)
    : result unit * list EngineCall :=
  match JsMap.get (routers self) routerId with
  | None => (Throw ("Router not found: " +:+ routerId), [])
  | Some roomRouter =>
      match JsMap.get (transports roomRouter) transportId with
      | None => (Throw ("Transport not found: " +:+ transportId), [])
      | Some _ => (engine_connected, [transport_connect transportId])
      end
  end.

(** [produce(routerId, transportId, kind, rtpParameters, appData?)];
    [engine_producer] is what [transport.produce] gives. *)
Definition produce (routerId transportId : string) (k : RoomManager.MediaKind)
    (rtpParameters : Any) (appData : option Any)
    (engine_producer : result Producer) (self : RouterManager)
    : result Producer * RouterManager :=
  match JsMap.get (routers self) routerId with
  | None => (Throw ("Router not found: " +:+ routerId), self)
  | Some roomRouter =>
      match JsMap.get (transports roomRouter) transportId with
      | None => (Throw ("Transport not found: " +:+ transportId), self)
      | Some _ =>
          match engine_producer with
          | Throw e => (Throw e, self)
          | Ok p =>
              (Ok p,
               with_routers self
                 (JsMap.set (routers self) routerId
                    (with_maps roomRouter (transports roomRouter)
                       (JsMap.set (producers roomRouter) (producer_id p) p)
                       (consumers roomRouter))))
          end
      end
  end.

(** [consume(routerId, transportId, producerId, rtpCapabilities)];
    [canConsume] is the answer of [router.canConsume] and
    [engine_consumer] what [transport.consume] gives. [Ok None] is the
    [null] result. *)
Definition consume (routerId transportId producerId : string)
    (caps : Any) (canConsume : bool) (engine_consumer : result Consumer)
    (self : RouterManager) : result (option ConsumerInfo) * RouterManager :=
  match JsMap.get (routers self) routerId with
  | None => (Throw ("Router not found: " +:+ routerId), self)
  | Some roomRouter =>
      match JsMap.get (transports roomRouter) transportId with
      | None => (Throw ("Transport not found: " +:+ transportId), self)
      | Some _ =>
          match JsMap.get (producers roomRouter) producerId with
          | None => (Throw ("Producer not found: " +:+ producerId), self)
          | Some _ =>
              if negb canConsume then (Ok None, self)
              else
                match engine_consumer with
                | Throw e => (Throw e, self)
                | Ok c =>
                    (Ok (Some {| info_id := consumer_id c;
                                 info_producerId := producerId;
                                 info_kind := consumer_kind c;
                                 info_rtpParameters := consumer_rtpParameters c;
                                 info_appData := consumer_appData c |}),
                     with_routers self
                       (JsMap.set (routers self) routerId
                          (with_maps roomRouter (transports roomRouter)
                             (producers roomRouter)
                             (JsMap.set (consumers roomRouter) (consumer_id c) c))))
                end
          end
      end
  end.

(** The ['transportclose'] listener of a producer. *)
Definition on_producer_transportclose (routerId producerId : string)
    (self : RouterManager) : RouterManager :=
  match JsMap.get (routers self) routerId with
  | None => self
  | Some roomRouter =>
      with_routers self
        (JsMap.set (routers self) routerId
           (with_maps roomRouter (transports roomRouter)
              (JsMap.delete (producers roomRouter) producerId)
              (consumers roomRouter)))
  end.

(** The ['transportclose'] and ['producerclose'] listeners of a consumer. *)
Definition on_consumer_close (routerId consumerId : string)
    (self : RouterManager) : RouterManager :=
  match JsMap.get (routers self) routerId with
  | None => self
  | Some roomRouter =>
      with_routers self
        (JsMap.set (routers self) routerId
           (with_maps roomRouter (transports roomRouter)
              (producers roomRouter)
              (JsMap.delete (consumers roomRouter) consumerId)))
  end.

(** [resumeConsumer(routerId, consumerId)] *)
Definition resumeConsumer (routerId consumerId : string) (self : RouterManager)
    : list EngineCall :=
  match JsMap.get (routers self) routerId with
  | None => []
  | Some roomRouter =>
      match JsMap.get (consumers roomRouter) consumerId with
      | None => []
      | Some _ => [consumer_resume consumerId]
      end
  end.

(** [pauseProducer(routerId, producerId)] *)
Definition pauseProducer (routerId producerId : string) (self : RouterManager)
    : list EngineCall :=
  match JsMap.get (routers self) routerId with
  | None => []
  | Some roomRouter =>
      match JsMap.get (producers roomRouter) producerId with
      | None => []
      | Some _ => [producer_pause producerId]
      end
  end.

(** [resumeProducer(routerId, producerId)] *)
Definition resumeProducer (routerId producerId : string) (self : RouterManager)
    : list EngineCall :=
  match JsMap.get (routers self) routerId with
  | None => []
  | Some roomRouter =>
      match JsMap.get (producers roomRouter) producerId with
      | None => []
      | Some _ => [producer_resume producerId]
      end
  end.

(** [closeProducer(routerId, producerId)] *)
Definition closeProducer (routerId producerId : string) (self : RouterManager)
    : RouterManager * list EngineCall :=
  match JsMap.get (routers self) routerId with
  | None => (self, [])
  | Some roomRouter =>
      match JsMap.get (producers roomRouter) producerId with
      | None => (self, [])
      | Some _ =>
          (with_routers self
             (JsMap.set (routers self) routerId
                (with_maps roomRouter (transports roomRouter)
                   (JsMap.delete (producers roomRouter) producerId)
                   (consumers roomRouter))),
           [producer_close producerId])
      end
  end.

(** [setPreferredLayers(routerId, consumerId, spatialLayer, temporalLayer?)] *)
Definition setPreferredLayers (routerId consumerId : string) (spatialLayer : Z)
    (temporalLayer : option Z) (self : RouterManager) : list EngineCall :=
  match JsMap.get (routers self) routerId with
  | None => []
  | Some roomRouter =>
      match JsMap.get (consumers roomRouter) consumerId with
      | None => []
      | Some _ => [consumer_setPreferredLayers consumerId spatialLayer temporalLayer]
      end
  end.

(** [closeRouter(routerId)] *)
Definition closeRouter (routerId : string) (self : RouterManager)
    (redis : Redis.RedisService)
    : result unit * RouterManager * Redis.RedisService * list EngineCall :=
  match JsMap.get (routers self) routerId with
  | None => (Ok tt, self, redis, [])
  | Some roomRouter =>
      let calls :=
        map consumer_close (JsMap.keys (consumers roomRouter))
        ++ map producer_close (JsMap.keys (producers roomRouter))
        ++ map transport_close (JsMap.keys (transports roomRouter))
        ++ [router_close (router_handle (router roomRouter))] in
      match WorkerManager.decrementRouterCount (worker roomRouter)
              (workerManager self) with
      | (Throw e, wm) => (Throw e, with_workerManager self wm, redis, calls)
      | (Ok _, wm) =>
          (Ok tt,
           with_routers (with_workerManager self wm)
             (JsMap.delete (routers self) routerId),
           Redis.deleteRoomRouter (roomId roomRouter) redis,
           calls)
      end
  end.


(** [getRtpCapabilities(routerId)] *)
Definition getRtpCapabilities (routerId : string) (self : RouterManager)
    : option Any :=
  (λ r, rtpCapabilities (router r)) <$> JsMap.get (routers self) routerId.

(** [shutdown()]: the routers are closed in turn, until one fails. *)
Fixpoint close_each (ids : list string) (self : RouterManager)
    (redis : Redis.RedisService)
    : result unit * RouterManager * Redis.RedisService * list EngineCall :=
  match ids with
  | [] => (Ok tt, self, redis, [])
  | routerId :: rest =>
      match closeRouter routerId self redis with
      | (Throw e, self', redis', calls) => (Throw e, self', redis', calls)
      | (Ok _, self', redis', calls) =>
          let '(r, self'', redis'', calls') := close_each rest self' redis' in
          (r, self'', redis'', calls ++ calls')
      end
  end.

Definition shutdown (self : RouterManager) (redis : Redis.RedisService)
    : result unit * RouterManager * Redis.RedisService * list EngineCall :=
  close_each (JsMap.keys (routers self)) self redis.

(** What can happen to the manager and the store it writes to, each
    method call being one during which nothing else runs. *)
Inductive Op :=
| CreateRouter (room uuid : string) (now : Z) (engine_router : result Router)
    (stored : result unit)
| CreateTransport (routerId : string) (d : RoomManager.Direction)
    (sctpCapabilities : option Any) (engine_transport : result Transport)
| Produce (routerId transportId : string) (k : RoomManager.MediaKind)
    (rtpParameters : Any) (appData : option Any) (engine_producer : result Producer)
| Consume (routerId transportId producerId : string) (caps : Any)
    (canConsume : bool) (engine_consumer : result Consumer)
| ProducerTransportClosed (routerId producerId : string)
| ConsumerClosed (routerId consumerId : string)
| CloseProducer (routerId producerId : string)
| CloseRouter (routerId : string)
| Pool (op : WorkerManager.Op)
| StoreChanged (redis : Redis.RedisService)
| Shutdown.

Definition step (st : RouterManager * Redis.RedisService) (op : Op)
    : RouterManager * Redis.RedisService :=
  let '(self, redis) := st in
  match op with
  | CreateRouter room uuid now engine_router stored =>
      let '(_, self', redis') :=
        createRouter room uuid now engine_router stored self redis in
      (self', redis')
  | CreateTransport routerId d sctp engine_transport =>
      (snd (createTransport routerId d sctp engine_transport self), redis)
  | Produce routerId transportId k rtp appData engine_producer =>
      (snd (produce routerId transportId k rtp appData engine_producer self), redis)
  | Consume routerId transportId producerId caps can engine_consumer =>
      (snd (consume routerId transportId producerId caps can engine_consumer self),
       redis)
  | ProducerTransportClosed routerId producerId =>
      (on_producer_transportclose routerId producerId self, redis)
  | ConsumerClosed routerId consumerId =>
      (on_consumer_close routerId consumerId self, redis)
  | CloseProducer routerId producerId =>
      (fst (closeProducer routerId producerId self), redis)
  | CloseRouter routerId =>
      let '(_, self', redis', _) := closeRouter routerId self redis in
      (self', redis')
  | Pool op' =>
      (with_workerManager self (WorkerManager.step (workerManager self) op'), redis)
  | StoreChanged redis' => (self, redis')
  | Shutdown =>
      let '(_, self', redis', _) := shutdown self redis in
      (self', redis')
  end.

(** The manager after a history of steps, from its construction. *)
Definition run (wm : WorkerManager.WorkerManager) (node : string)
    (redis : Redis.RedisService) (ops : list Op)
    : RouterManager * Redis.RedisService :=
  foldl step (new wm node, redis) ops.

(** No two entries of a router map serve the same room. *)
Definition unique_rooms (m : list (string * RoomRouter)) : Prop :=
  ∀ id1 id2 r1 r2,
    JsMap.get m id1 = Some r1 → JsMap.get m id2 = Some r2 →
    roomId r1 = roomId r2 → id1 = id2.

(** At most one routing context per room. *)
Definition one_router_per_room (self : RouterManager) : Prop :=
  unique_rooms (routers self).
End RouterManager.

(** ** The cluster: one gateway and one media node on a shared store

    The store is held once, in the gateway's [redisService]; the node's
    manager works on the same store. *)

Module Cluster.
Record Cluster := {
  gateway : SignalingServer.SignalingServer;
  sfu : RouterManager.RouterManager;
}.

Definition store (cl : Cluster) : Redis.RedisService :=
  SignalingServer.redisService (gateway cl).

(** The ['died'] listener set up by [createWorker(index)], followed by
    [handleWorkerDeath(index)]: only the pool of the node is touched, and
    nothing is sent to any connection. *)
Definition worker_died (index : nat) (w : WorkerManager.Worker)
    (created : result WorkerManager.Worker) (cl : Cluster)
    : Cluster * list SignalingServer.Effect :=
  ({| gateway := gateway cl;
      sfu := RouterManager.with_workerManager (sfu cl)
               (WorkerManager.handleWorkerDeath index created
                  (WorkerManager.died w (RouterManager.workerManager (sfu cl)))) |},
   []).

(** An event of the gateway. The gateway holds no reference to the
    managers of the node: it reaches the node through the store only. *)
Definition gateway_event
    (verifyToken : string → result Auth.AuthenticatedUser)
    (verifyOrganizationMembership : string → string → result bool)
    (process_env : string → option string)
    (e : SignalingServer.Event) (cl : Cluster)
    : Cluster * list SignalingServer.Effect :=
  let '(g, out) :=
    SignalingServer.step verifyToken verifyOrganizationMembership process_env
      (gateway cl) e in
  ({| gateway := g; sfu := sfu cl |}, out).

(** A step of the node's router manager, on the shared store. *)
Definition node_step (op : RouterManager.Op) (cl : Cluster) : Cluster :=
  let '(rm, redis) := RouterManager.step (sfu cl, store cl) op in
  {| gateway :=
       SignalingServer.with_rooms (gateway cl)
         (SignalingServer.roomManager (gateway cl)) redis;
     sfu := rm |}.

(** The connections of the gateway that are in the room [room]. *)
Definition members (room : string) (cl : Cluster) : list string :=
  map SignalingServer.id
    (filter (λ c, SignalingServer.roomId c = Some room)
       (JsMap.values (SignalingServer.clients (gateway cl)))).

(** The rooms whose routing context lives on the worker [w]. *)
Definition rooms_on (w : WorkerManager.Worker) (cl : Cluster) : list string :=
  map RouterManager.roomId
    (filter (λ r, WorkerManager.handle (RouterManager.worker r)
                  = WorkerManager.handle w)
       (JsMap.values (RouterManager.routers (sfu cl)))).
End Cluster.

(** ** AuthService: the permissions of a role *)

Module AuthService.
(** [getPermissionsForRole(role)]; [None] is [undefined]. *)
Definition getPermissionsForRole (role : option string) : list string :=
  if decide (role = Some "owner") then
    ["manage"; "admin"; "stream"; "moderate"; "view"]
  else if decide (role = Some "admin") then ["admin"; "stream"; "moderate"; "view"]
  else if decide (role = Some "host") then ["stream"; "moderate"; "view"]
  else if decide (role = Some "co_host") then ["stream"; "view"]
  else if decide (role = Some "moderator") then ["moderate"; "view"]
  else ["view"].
End AuthService.

(** ** WorkerManager: round-robin selection and the shape of the pool *)

Module WorkerPool.
(** [getNextWorker()]. [nextWorkerIndex] is a field of the manager that no
    other method reads; it is threaded here on its own, [None] being
    [NaN]. The index is advanced before the worker is dereferenced. *)
Definition getNextWorker (wm : WorkerManager.WorkerManager)
    (nextWorkerIndex : option nat)
    : result WorkerManager.Worker * option nat :=
  let ws := WorkerManager.workers wm in
  let next :=
    match nextWorkerIndex with
    | Some i => if decide (length ws = 0%nat) then None
                else Some ((i + 1) mod length ws)%nat
    | None => None
    end in
  match nextWorkerIndex ≫= (λ i, ws !! i) with
  | Some (Some info) => (Ok (WorkerManager.worker info), next)
  | _ => (Throw "TypeError", next)
  end.

(** [n] calls of [getNextWorker()] in a row: what they return, and the
    index left behind. *)
Fixpoint getNextWorker_times (n : nat) (wm : WorkerManager.WorkerManager)
    (nextWorkerIndex : option nat)
    : list (result WorkerManager.Worker) * option nat :=
  match n with
  | O => ([], nextWorkerIndex)
  | S n' =>
      let '(r, next) := getNextWorker wm nextWorkerIndex in
      let '(rs, final) := getNextWorker_times n' wm next in
      (r :: rs, final)
  end.


(** The worker of a slot is not closed. *)
Definition is_open (closed : gset nat) (info : WorkerManager.WorkerInfo) : Prop :=
  WorkerManager.handle (WorkerManager.worker info) ∉ closed.

(** What the loop of [getLeastLoadedWorker] holds after the slots [infos].
    Either [minLoad] is still [Infinity], the selected index is 0 and no
    open worker met has a score below [Infinity]; or the selected slot
    holds an open worker of score [minLoad], no open worker met has a
    score below it, and no open worker in a lower slot has a score at
    most it. *)
Definition selected (closed : gset nat) (infos : list WorkerManager.WorkerInfo)
    (minLoad : Js.number) (selectedIndex : nat) : Prop :=
  (minLoad = Js.Infinity ∧ selectedIndex = 0%nat
   ∧ Forall (λ info, is_open closed info →
                     Js.less (WorkerManager.loadScore info) Js.Infinity = false)
            infos)
  ∨ (∃ info, infos !! selectedIndex = Some info
             ∧ is_open closed info
             ∧ WorkerManager.loadScore info = minLoad
             ∧ ∀ j info', infos !! j = Some info' → is_open closed info' →
                 Js.less (WorkerManager.loadScore info') minLoad = false
                 ∧ ((j < selectedIndex)%nat →
                    Js.at_most (WorkerManager.loadScore info') minLoad = false)).
End WorkerPool.

(** ** RouterManager: listing the producers of a router *)

Module RouterQueries.
(** [getProducers(routerId)] *)
Definition getProducers (routerId : string) (self : RouterManager.RouterManager)
    : list RouterManager.Producer :=
  match JsMap.get (RouterManager.routers self) routerId with
  | None => []
  | Some roomRouter => JsMap.values (RouterManager.producers roomRouter)
  end.
End RouterQueries.

(** ** Connection attempts from one address *)

Module Admission.
(** [checkConnection(ip)] at each of the instants [ts] in turn: the
    verdicts, and the service afterwards. *)
Fixpoint attempts (ip : string) (ts : list Z)
    (self : RateLimiter.RateLimiterService)
    : list RateLimiter.CheckResult * RateLimiter.RateLimiterService :=
  match ts with
  | [] => ([], self)
  | t :: rest =>
      let '(v, self1) := RateLimiter.checkConnection ip t self in
      let '(vs, self2) := attempts ip rest self1 in
      (v :: vs, self2)
  end.

(** The counter of [key] in a limiter: points consumed and end of window. *)
Definition counter_is (l : RateLimiter.Limiter) (key : string) (k e : Z) : Prop :=
  RateLimiter.storage l !! key
  = Some {| RateLimiter.consumed := k; RateLimiter.windowEnd := Some e;
            RateLimiter.timeoutAt := Some e |}.

(** The connection limiter of a service carries the configured options
    and the counter [k], [e] for the address. *)
Definition conn_state (cfg : RateLimiter.RateLimiterConfig) (ip : string) (k e : Z)
    (self : RateLimiter.RateLimiterService) : Prop :=
  RateLimiter.opts (RateLimiter.connectionLimiter self)
  = {| RateLimiter.points := RateLimiter.connectionPoints cfg;
       RateLimiter.duration := RateLimiter.connectionDuration cfg;
       RateLimiter.blockDuration := RateLimiter.connectionBlockDuration cfg |}
  ∧ counter_is (RateLimiter.connectionLimiter self) ip k e.
End Admission.

(** ** Effects of the gateway that keep a connection open *)

Module Traffic.
(** An effect that neither closes nor terminates nor pings a socket: a
    message sent, or a call into [RoomManager]. *)
Definition stays_open (e : SignalingServer.Effect) : bool :=
  match e with
  | SignalingServer.Send _ _ | SignalingServer.Invoke _ _ => true
  | _ => false
  end.

(** The connection's last pong is older than the timeout of [pingClients]. *)
Definition stale (now : Z) (c : SignalingServer.ConnectedClient) : Prop :=
  60000 < now - SignalingServer.lastPing c.
End Traffic.

(* ===================================================================== *)
(** * Part II. Properties                                                 *)
(* ===================================================================== *)

(** ** Insertion-ordered maps *)

Module JsMapFacts.
Section Facts.
Context {K V : Type} `{EqDecision K}.
Implicit Types (m : list (K * V)) (k : K) (v : V).

Lemma get_set_eq m k v : JsMap.get (JsMap.set m k v) k = Some v.
Proof.
  induction m as [|[k' v'] m IH]; simpl.
  - by rewrite decide_True.
  - destruct (decide (k = k')) as [->|Hne]; simpl.
    + by rewrite decide_True.
    + by rewrite decide_False.
Qed.

Lemma get_set_ne m k k' v :
  k ≠ k' → JsMap.get (JsMap.set m k v) k' = JsMap.get m k'.
Proof.
  intros Hne. induction m as [|[k0 v0] m IH]; simpl.
  - by rewrite decide_False.
  - destruct (decide (k = k0)) as [->|Hk]; simpl.
    + rewrite !decide_False; congruence.
    + destruct (decide (k' = k0)); [done | apply IH].
Qed.

Lemma get_set m k k' v :
  JsMap.get (JsMap.set m k v) k'
  = if decide (k = k') then Some v else JsMap.get m k'.
Proof.
  case_decide as Hk.
  - subst. apply get_set_eq.
  - by apply get_set_ne.
Qed.

Lemma get_delete_eq m k : JsMap.get (JsMap.delete m k) k = None.
Proof.
  induction m as [|[k' v'] m IH]; simpl; [done|].
  destruct (decide (k = k')) as [->|Hne]; simpl; [done|].
  by rewrite decide_False.
Qed.

Lemma get_delete_ne m k k' :
  k ≠ k' → JsMap.get (JsMap.delete m k) k' = JsMap.get m k'.
Proof.
  intros Hne. induction m as [|[k0 v0] m IH]; simpl; [done|].
  destruct (decide (k = k0)) as [->|Hk]; simpl.
  - rewrite IH. rewrite decide_False; congruence.
  - destruct (decide (k' = k0)); [done | apply IH].
Qed.

Lemma set_get_id m k v : JsMap.get m k = Some v → JsMap.set m k v = m.
Proof.
  induction m as [|[k' v'] m IH]; simpl; [done|].
  destruct (decide (k = k')) as [->|Hne].
  - by intros [= ->].
  - intros Hg. by rewrite IH.
Qed.

Lemma get_Some_elem m k v : JsMap.get m k = Some v → (k, v) ∈ m.
Proof.
  induction m as [|[k' v'] m IH]; simpl; [done|].
  destruct (decide (k = k')) as [->|Hne].
  - intros [= ->]. left.
  - intros Hg. right. by apply IH.
Qed.



Lemma keys_set_present m k v :
  is_Some (JsMap.get m k) → JsMap.keys (JsMap.set m k v) = JsMap.keys m.
Proof.
  induction m as [|[k' v'] m IH]; simpl.
  - by intros [? ?].
  - destruct (decide (k = k')) as [->|Hne]; simpl; [done|].
    intros Hs. by rewrite IH.
Qed.

Lemma keys_delete_subseteq m k : JsMap.keys (JsMap.delete m k) ⊆ JsMap.keys m.
Proof.
  induction m as [|[k' v'] m IH]; simpl; [done|].
  destruct (decide (k = k')); simpl.
  - by apply list_subseteq_cons.
  - intros x. rewrite !elem_of_cons. intros [->|Hx]; [by left|right; by apply IH].
Qed.

Lemma wf_delete m k : JsMap.wf m → JsMap.wf (JsMap.delete m k).
Proof.
  unfold JsMap.wf. induction m as [|[k' v'] m IH]; simpl; [done|].
  rewrite NoDup_cons. intros [Hni Hnd].
  destruct (decide (k = k')); simpl; [by apply IH|].
  apply NoDup_cons. split; [|by apply IH].
  intros Hin. apply Hni. by eapply keys_delete_subseteq.
Qed.




End Facts.
End JsMapFacts.

(** ** The media engine pool *)

Module WorkerManagerFacts.
Import WorkerManager.

Lemma initialize_counts_nonneg created wm :
  counts_nonneg (workers wm) →
  counts_nonneg (workers (snd (initialize created wm))).
Proof.
  revert wm. induction created as [|[w|e] rest IH]; intros wm Hwm; simpl; [done| |done].
  apply IH. simpl. apply Forall_app. split; [done|].
  apply Forall_singleton. intros info [= <-]. simpl. lia.
Qed.

Lemma initialize_counts_zero created wm :
  counts_zero (workers wm) →
  counts_zero (workers (snd (initialize created wm))).
Proof.
  revert wm. induction created as [|[w|e] rest IH]; intros wm Hwm; simpl; [done| |done].
  apply IH. simpl. apply Forall_app. split; [done|].
  apply Forall_singleton. by intros info [= <-].
Qed.

Lemma array_set_counts_nonneg ws i w :
  counts_nonneg ws → counts_nonneg (array_set ws i (fresh_slot w)).
Proof.
  intros Hws. unfold array_set. case_decide.
  - apply Forall_insert; [done|]. intros info [= <-]. simpl. lia.
  - apply Forall_app. split; [done|]. apply Forall_app. split.
    + apply Forall_replicate. by intros info.
    + apply Forall_singleton. intros info [= <-]. simpl. lia.
Qed.

Lemma array_set_lookup {A} (a : list (option A)) i x :
  array_set a i x !! i = Some (Some x).
Proof.
  unfold array_set. case_decide as Hi.
  - by apply list_lookup_insert_eq.
  - rewrite lookup_app_r; [|lia].
    rewrite lookup_app_r; rewrite length_replicate; [|lia].
    by replace (i - length a - (i - length a))%nat with 0%nat by lia.
Qed.

Lemma find_index_spec ws w k i :
  find_index ws w k = Ok (Some i) →
  (k <= i)%nat ∧ ∃ info, ws !! (i - k)%nat = Some (Some info)
                         ∧ handle (worker info) = handle w.
Proof.
  revert k. induction ws as [|[info|] ws IH]; intros k; simpl; [done| |done].
  case_decide as Hh.
  - intros [= <-]. split; [lia|]. exists info.
    by replace (k - k)%nat with 0%nat by lia.
  - intros Hf. destruct (IH _ Hf) as (Hle & info' & Hl & Hh').
    split; [lia|]. exists info'. split; [|done].
    by replace (i - k)%nat with (S (i - S k)) by lia.
Qed.

Lemma monitor_counts_nonneg closed sample ws :
  counts_nonneg ws → counts_nonneg (monitor closed sample ws).
Proof.
  unfold counts_nonneg.
  induction ws as [|[info|] ws IH]; simpl; intros Hws; [done| |done].
  apply Forall_cons in Hws as [Hx Hws]. apply Forall_cons. split; [|by apply IH].
  intros info' [= <-]. specialize (Hx info eq_refl).
  case_decide; [done|]. by destruct (sample _).
Qed.

Lemma step_counts_nonneg wm op :
  counts_nonneg (workers wm) → counts_nonneg (workers (step wm op)).
Proof.
  intros Hwm. destruct op as [created|w|index created|w|w|sample|]; simpl.
  - by apply initialize_counts_nonneg.
  - done.
  - destruct created; simpl; [by apply array_set_counts_nonneg | done].
  - unfold incrementRouterCount.
    destruct (find_index _ _ _) as [[i|]|]; simpl; [|done..].
    apply Forall_alter; [done|].
    intros [info|] _ Hx info' [= <-]. simpl. specialize (Hx info eq_refl). lia.
  - unfold decrementRouterCount.
    destruct (find_index _ _ _) as [[i|]|]; simpl; [|done..].
    destruct (workers wm !! i) as [[info|]|] eqn:Hi; simpl; [|done..].
    case_decide as Hpos; simpl; [|done].
    apply Forall_alter; [done|].
    intros o Ho _ info' Hinfo. rewrite Hi in Ho. injection Ho as <-.
    simpl in Hinfo. injection Hinfo as <-. simpl. lia.
  - by apply monitor_counts_nonneg.
  - unfold shutdown. destruct (close_all _ _) as [[?|?] ?]; simpl; [|done].
    apply Forall_nil_2.
Qed.

Lemma run_counts_nonneg ops : counts_nonneg (workers (run ops)).
Proof.
  unfold run. induction ops as [|op ops IH] using rev_ind.
  - apply Forall_nil_2.
  - rewrite foldl_app. simpl. by apply step_counts_nonneg.
Qed.

Lemma routerCountAt_Some wm i n :
  routerCountAt wm i = Some n ↔
  ∃ info, workers wm !! i = Some (Some info) ∧ routerCount info = n.
Proof.
  unfold routerCountAt. destruct (workers wm !! i) as [[info|]|].
  - split; [intros [= <-]; eauto | intros (? & [= <-] & <-); done].
  - split; [done | intros (? & ? & _); done].
  - split; [done | intros (? & ? & _); done].
Qed.

(** C9. In every pool reached from its construction, the count tracked
    by a filled slot is never negative; the slots made by [initialize]
    start at 0; [incrementRouterCount] adds one to the slot found for the
    worker; [decrementRouterCount] subtracts one when the count is
    strictly positive and leaves it otherwise; the slot that replaces a
    dead worker tracks exactly 0. *)
Theorem routerCount_never_negative (ops : list Op) (i : nat) (n : Z) :
  routerCountAt (run ops) i = Some n →
  0 <= n
  ∧ (∀ created j m,
       routerCountAt (snd (initialize created new)) j = Some m → m = 0)
  ∧ (∀ w, find_index (workers (run ops)) w 0 = Ok (Some i) →
          routerCountAt (snd (incrementRouterCount w (run ops))) i = Some (n + 1)
          ∧ routerCountAt (snd (decrementRouterCount w (run ops))) i
            = Some (if decide (0 < n) then n - 1 else n))
  ∧ (∀ w', routerCountAt (handleWorkerDeath i (Ok w') (run ops)) i = Some 0).
Proof.
  intros Hn. apply routerCountAt_Some in Hn as (info & Hi & <-).
  split; [|split; [|split]].
  - pose proof (run_counts_nonneg ops) as Hall.
    unfold counts_nonneg in Hall. rewrite Forall_lookup in Hall.
    by apply (Hall i (Some info)).
  - intros created j m Hm. apply routerCountAt_Some in Hm as (info' & Hj & <-).
    assert (counts_zero (workers (snd (initialize created new)))) as Hz.
    { apply initialize_counts_zero. apply Forall_nil_2. }
    unfold counts_zero in Hz. rewrite Forall_lookup in Hz.
    by apply (Hz j (Some info')).
  - intros w Hf. split.
    + unfold incrementRouterCount. rewrite Hf. simpl.
      unfold routerCountAt. simpl. rewrite list_lookup_alter_eq, Hi. done.
    + unfold decrementRouterCount. rewrite Hf, Hi. simpl.
      case_decide; simpl.
      * unfold routerCountAt. simpl. rewrite list_lookup_alter_eq, Hi. simpl.
        f_equal; lia.
      * unfold routerCountAt. by rewrite Hi.
  - intros w'. unfold routerCountAt, handleWorkerDeath. simpl.
    by rewrite array_set_lookup.
Qed.

Lemma routerCount_never_negative_witness :
  let w0 := {| handle := 7; worker_pid := 4242 |} in
  let ops := [Initialize [Ok w0]; IncrementRouterCount w0] in
  routerCountAt (run ops) 0 = Some 1
  ∧ 0 <= 1
  ∧ routerCountAt (snd (decrementRouterCount w0 (run ops))) 0 = Some 0.
Proof.
  intros w0 ops.
  assert (routerCountAt (run ops) 0 = Some 1) as H by reflexivity.
  split; [exact H|].
  destruct (routerCount_never_negative ops 0 1 H) as (Hpos & _ & Hops & _).
  split; [exact Hpos|].
  destruct (Hops w0 eq_refl) as [_ Hdec]. exact Hdec.
Defined.
End WorkerManagerFacts.

(** ** Admission control *)

Module RateLimiterFacts.
Import RateLimiter.

Lemma timer_delay_pos d : 1 <= timer_delay d.
Proof. unfold timer_delay. destruct (decide _); [lia|]. destruct (decide _); lia. Qed.

Lemma timer_delay_in_range d :
  0 < d → d <= TIMEOUT_MAX → timer_delay d = d.
Proof.
  intros Hpos Hmax. unfold timer_delay.
  destruct (decide _); [lia|]. destruct (decide _); [lia | done].
Qed.

Ltac arith_cases :=
  repeat match goal with
         | |- context [bool_decide ?P] => destruct (bool_decide_reflect P)
         | |- context [decide ?P] => destruct (decide P)
         | H : context [bool_decide ?P] |- _ => destruct (bool_decide_reflect P)
         | H : context [decide ?P] |- _ => destruct (decide P)
         end.

(** What [getRemaining] reads from one limiter. *)
Lemma consume_resolved_remaining key now l res l' :
  consume key 1 now l = (inl res, l') →
  opts l' = opts l
  ∧ ∃ r', get key now l' = Some r'
          ∧ remainingPoints r'
            = match get key now l with
              | Some r => remainingPoints r
              | None => points (opts l)
              end - 1.
Proof.
  pose proof (timer_delay_pos (duration (opts l) * 1000)) as Hdelay.
  unfold consume, storage_incrby, storage_set, get, timer_fired.
  destruct (storage l !! key) as [[n [t|] [ta|]]|] eqn:Hk; simpl;
    arith_cases; simpl; try discriminate;
    intros [= <- <-]; simpl; (split; [done|]);
    rewrite lookup_insert_eq; simpl in *; arith_cases; simpl in *; try lia;
    (eexists; split; [done|]; simpl in *; lia).
Qed.

(** C10. When the per-connection check passes and the per-user check
    rejects, [checkMessage] denies the message, and the per-connection
    limiter is left as its own [consume] made it: the point taken from
    the connection is not given back, so what [getRemaining] reports for
    the connection is one less than before the call. *)
Theorem checkMessage_user_denial_keeps_connection_point
    (connectionId userId : string) (now : Z) (self : RateLimiterService)
    (res rej : Res) (ml gl : Limiter) :
  points (opts (messageLimiter self)) = messagePoints (config self) →
  truthy userId = true →
  consume connectionId 1 now (messageLimiter self) = (inl res, ml) →
  consume userId 1 now (globalMessageLimiter self) = (inr rej, gl) →
  allowed (fst (checkMessage connectionId (Some userId) now self)) = false
  ∧ messageLimiter (snd (checkMessage connectionId (Some userId) now self)) = ml
  ∧ getRemaining connectionId now
      (snd (checkMessage connectionId (Some userId) now self))
    = getRemaining connectionId now self - 1.
Proof.
  intros Hwired Huser Hconn Hglobal.
  unfold checkMessage. rewrite Hconn. simpl. rewrite Huser, Hglobal. simpl.
  split; [done|]. split; [done|].
  destruct (consume_resolved_remaining _ _ _ _ _ Hconn) as (Hopts & r' & Hget & Hr').
  unfold getRemaining. simpl. rewrite Hget, Hr'.
  destruct (get connectionId now (messageLimiter self)); [done|].
  by rewrite Hwired.
Qed.

Lemma checkMessage_user_denial_keeps_connection_point_witness :
  let cfg := {| connectionPoints := 20; connectionDuration := 60;
                connectionBlockDuration := 300;
                messagePoints := 100; messageDuration := 10;
                globalMessagePoints := 0; globalMessageDuration := 60 |} in
  allowed (fst (checkMessage "c1" (Some "u1") 5 (new cfg))) = false
  ∧ getRemaining "c1" 5 (snd (checkMessage "c1" (Some "u1") 5 (new cfg)))
    = getRemaining "c1" 5 (new cfg) - 1.
Proof.
  intros cfg.
  destruct (checkMessage_user_denial_keeps_connection_point
              "c1" "u1" 5 (new cfg)
              (match fst (consume "c1" 1 5 (messageLimiter (new cfg))) with
               | inl x | inr x => x
               end)
              (match fst (consume "u1" 1 5 (globalMessageLimiter (new cfg))) with
               | inl x | inr x => x
               end)
              (snd (consume "c1" 1 5 (messageLimiter (new cfg))))
              (snd (consume "u1" 1 5 (globalMessageLimiter (new cfg)))))
    as (Hdenied & _ & Hremaining); [reflexivity..|].
  split; [exact Hdenied | exact Hremaining].
Defined.
End RateLimiterFacts.

(** ** The gateway: cleanup on disconnect and the rate limiters *)

Module DisconnectFacts.
Import SignalingServer.

Lemma update_client_rateLimiter cid f srv :
  rateLimiter (update_client cid f srv) = rateLimiter srv.
Proof. unfold update_client. by destruct (JsMap.get _ _). Qed.


Lemma cleanupClientRoom_rateLimiter c srv :
  rateLimiter (fst (cleanupClientRoom c srv)) = rateLimiter srv.
Proof.
  unfold cleanupClientRoom.
  destruct (present (roomId c)), (present (participantId c)); try done.
  destruct (RoomManager.leaveRoom _ _ _ _). simpl.
  by rewrite update_client_rateLimiter.
Qed.

(** C6, as the code has it. On disconnect [cleanupClient] resets the key
    of the connection and, for an authenticated connection, the key of its
    user; [reset] deletes a key from the per-connection limiter and from
    the per-user limiter alike. Hence both limiters lose the entries under
    these two keys, every other entry of both is unchanged, and the
    connection-rate limiter is untouched. *)
Theorem cleanupClient_resets_connection_and_user_keys
    (c : ConnectedClient) (srv : SignalingServer) (k : string) :
  let rl := rateLimiter srv in
  let rl' := rateLimiter (fst (cleanupClient c srv)) in
  RateLimiter.connectionLimiter rl' = RateLimiter.connectionLimiter rl
  ∧ RateLimiter.storage (RateLimiter.messageLimiter rl') !! k
    = (if decide (k = id c ∨ Auth.id <$> user c = Some k) then None
       else RateLimiter.storage (RateLimiter.messageLimiter rl) !! k)
  ∧ RateLimiter.storage (RateLimiter.globalMessageLimiter rl') !! k
    = (if decide (k = id c ∨ Auth.id <$> user c = Some k) then None
       else RateLimiter.storage (RateLimiter.globalMessageLimiter rl) !! k).
Proof.
  intros rl rl'. subst rl rl'. unfold cleanupClient.
  pose proof (cleanupClientRoom_rateLimiter c srv) as Hrl.
  destruct (cleanupClientRoom c srv) as [srv1 out]. simpl in Hrl. simpl.
  rewrite Hrl. destruct (user c) as [u|]; simpl.
  - split; [done|]. rewrite !lookup_delete.
    split; repeat (match goal with
                   | |- context [decide ?P] => destruct (decide P)
                   end); first [done | intuition congruence].
  - split; [done|]. rewrite !lookup_delete.
    split; repeat (match goal with
                   | |- context [decide ?P] => destruct (decide P)
                   end); first [done | intuition congruence].
Qed.

(** C6, as stated, fails. A connection authenticates as user [u1] and
    sends one more message, which takes a point from the budget of [u1];
    when the connection closes, the counter of [u1] is gone with it, so
    the user-level budget is full again. *)
Lemma disconnect_clears_user_counter :
  let verifyToken := λ _ : string,
    Ok {| Auth.id := "u1"; Auth.permissions := [] |} in
  let verifyMembership := λ _ _ : string, Ok true in
  let env := λ _ : string, @None string in
  let srv0 :=
    new SFUManager.new {| Redis.client := Some Redis.empty_db |}
      (RateLimiter.new RateLimiter.DEFAULT_RATE_LIMIT_CONFIG) in
  let before :=
    run verifyToken verifyMembership env srv0
      [ Connection "c1" "10.0.0.1" 0;
        Message "c1" (Some (Authenticate "token" "org")) 1;
        Message "c1" (Some LeaveRoom) 2 ] in
  let after := fst (step verifyToken verifyMembership env before (Closed "c1")) in
  RateLimiter.consumedPoints
    <$> RateLimiter.get "u1" 3 (RateLimiter.globalMessageLimiter (rateLimiter before))
  = Some 1
  ∧ RateLimiter.get "u1" 3 (RateLimiter.globalMessageLimiter (rateLimiter after))
    = None.
Proof. vm_compute. split; reflexivity. Qed.
End DisconnectFacts.

(** ** Node health and selection *)

Module HealthFacts.
Import SFUManager.

(** A node whose heartbeat key reads as absent keeps the health flag it
    had, whenever its statistics do not fail to parse. *)
Lemma check_node_absent_heartbeat stats_routers now redis nodeId n :
  Redis.get (Redis.heartbeat_key nodeId) now redis = None →
  (∀ s, Redis.get (Redis.stats_key nodeId) now redis = Some s →
        truthy s = true → is_Some (stats_routers s)) →
  isHealthy (check_node stats_routers now redis nodeId n) = isHealthy n.
Proof.
  intros Hbeat Hstats. unfold check_node. rewrite Hbeat.
  destruct (Redis.get (Redis.stats_key nodeId) now redis) as [s|] eqn:Hs; [|done].
  destruct (truthy s) eqn:Ht; [|done].
  by destruct (Hstats s eq_refl Ht) as [z ->].
Qed.

(** C5, on the code. A node registers at instant 0, which writes its
    heartbeat key with a time to live of 30 seconds, and never refreshes
    it. One second later the key is read; 100 seconds later it has
    expired and reads as absent. The health check run at that instant
    leaves the node healthy, and [getBestNode] still selects it. *)
Theorem expired_heartbeat_node_still_selected :
  let stats_routers := λ _ : string, @None Z in
  let sfu := initialize ["a:4000"] 0 new in
  let redis :=
    Redis.registerNode "sfu-a-4000" "{}" 0
      {| Redis.client := Some Redis.empty_db |} in
  Redis.get (Redis.heartbeat_key "sfu-a-4000") 1000 redis = Some "0"
  ∧ Redis.get (Redis.heartbeat_key "sfu-a-4000") 100000 redis = None
  ∧ (λ n, (id n, isHealthy n))
      <$> getBestNode (checkHealth stats_routers 100000 redis sfu)
    = Some ("sfu-a-4000", true).
Proof. vm_compute. repeat split; reflexivity. Qed.
End HealthFacts.

(** ** Placement of rooms *)

Module AllocationFacts.
(** C1. Two calls for one room that are in flight together give the room
    two routing contexts.
    - On a node with one worker and no router, [createRouter("room-1")]
      is called twice before the engine has answered: the first turn of
      either call finds no router for the room and selects the worker.
      When the engine answers, each call registers a router of its own:
      the manager then holds two routers for the room, each call has
      returned a different router id, and the placement in the store
      names the router of the call that wrote last.
    - On the signaling side, [allocateRoom("room-1")] is called twice
      and the store answers both reads (no placement) before either
      write: the two calls return different router ids for the room, and
      the store keeps the one written last.
    - Called one after the other, the second call of either method
      returns the one context of the room. *)
Theorem overlapping_calls_give_a_room_two_routers :
  let w0 := {| WorkerManager.handle := 7; WorkerManager.worker_pid := 4242 |} in
  let pool := snd (WorkerManager.initialize [Ok w0] WorkerManager.new) in
  let self0 := RouterManager.new pool "sfu-1" in
  let redis0 := {| Redis.client := Some Redis.empty_db |} in
  let r1 := {| RouterManager.router_handle := 1;
               RouterManager.rtpCapabilities := "{ codecs: [] }" |} in
  let r2 := {| RouterManager.router_handle := 2;
               RouterManager.rtpCapabilities := "{ codecs: [] }" |} in
  let first :=
    RouterManager.createRouter_resume "room-1" "uuid-1" 5 w0 (Ok r1) (Ok tt)
      self0 redis0 in
  let second :=
    RouterManager.createRouter_resume "room-1" "uuid-2" 6 w0 (Ok r2) (Ok tt)
      (snd (fst first)) (snd first) in
  let env := λ _ : string, @None string in
  let sfu := SFUManager.initialize ["a:4000"] 0 SFUManager.new in
  let placed := SFUManager.allocateRoom_resume env "room-1" 5 None sfu redis0 in
  let placed_again :=
    SFUManager.allocateRoom_resume env "room-1" 6 None sfu (snd placed) in
  (RouterManager.createRouter_start "room-1" self0 = Ok (RouterManager.Selected w0)
   ∧ fst (fst first)
     = Ok {| RouterManager.created_routerId := "uuid-1";
             RouterManager.created_rtpCapabilities := "{ codecs: [] }" |}
   ∧ fst (fst second)
     = Ok {| RouterManager.created_routerId := "uuid-2";
             RouterManager.created_rtpCapabilities := "{ codecs: [] }" |}
   ∧ (λ kr, (fst kr, RouterManager.roomId (snd kr)))
       <$> RouterManager.routers (snd (fst second))
     = [("uuid-1", "room-1"); ("uuid-2", "room-1")]
   ∧ ¬ RouterManager.one_router_per_room (snd (fst second))
   ∧ Redis.getRoomRouter "room-1" (snd second)
     = Some {| Redis.nodeId := "sfu-1"; Redis.routerId := "uuid-2" |})
  ∧ (Redis.getRoomRouter "room-1" redis0 = None
     ∧ SFUManager.routerId
         <$> (match fst placed with Ok a => Some a | Throw _ => None end)
       = Some "router-room-1-5"
     ∧ SFUManager.routerId
         <$> (match fst placed_again with Ok a => Some a | Throw _ => None end)
       = Some "router-room-1-6"
     ∧ Redis.getRoomRouter "room-1" (snd placed_again)
       = Some {| Redis.nodeId := "sfu-a-4000";
                 Redis.routerId := "router-room-1-6" |})
  ∧ (fst (fst (RouterManager.createRouter "room-1" "uuid-2" 6 (Ok r2) (Ok tt)
                 (snd (fst first)) (snd first)))
     = Ok {| RouterManager.created_routerId := "uuid-1";
             RouterManager.created_rtpCapabilities := "{ codecs: [] }" |}
     ∧ SFUManager.routerId
         <$> (match fst (SFUManager.allocateRoom env "room-1" 6 sfu (snd placed)) with
              | Ok a => Some a | Throw _ => None end)
       = Some "router-room-1-5").
Proof.
  intros w0 pool self0 redis0 r1 r2 first second env sfu placed placed_again.
  split; [|split].
  - split; [reflexivity|]. split; [reflexivity|]. split; [reflexivity|].
    split; [reflexivity|]. split; [|reflexivity].
    intros Hone.
    specialize (Hone "uuid-1" "uuid-2"
                  {| RouterManager.id := "uuid-1"; RouterManager.roomId := "room-1";
                     RouterManager.router := r1; RouterManager.worker := w0;
                     RouterManager.transports := []; RouterManager.producers := [];
                     RouterManager.consumers := []; RouterManager.createdAt := 5 |}
                  {| RouterManager.id := "uuid-2"; RouterManager.roomId := "room-1";
                     RouterManager.router := r2; RouterManager.worker := w0;
                     RouterManager.transports := []; RouterManager.producers := [];
                     RouterManager.consumers := []; RouterManager.createdAt := 6 |}
                  eq_refl eq_refl eq_refl).
    discriminate Hone.
  - repeat split; reflexivity.
  - split; reflexivity.
Qed.


End AllocationFacts.

(** ** Worker death *)

Module WorkerDeathFacts.
Import Cluster.

(** C4, as the code has it. When a worker dies, the pool puts a new
    worker in its slot, tracking 0 routers and no usage sample, or leaves
    the pool as it is when the new worker cannot be created. Nothing else
    happens: no message is sent to any connection, the gateway and the
    store (with every placement record) are unchanged, and the router map
    of the node still holds the routers of the dead worker. *)
Theorem worker_death_only_replaces_slot
    (index : nat) (w w' : WorkerManager.Worker)
    (created : result WorkerManager.Worker) (cl : Cluster) :
  snd (worker_died index w created cl) = []
  ∧ gateway (fst (worker_died index w created cl)) = gateway cl
  ∧ store (fst (worker_died index w created cl)) = store cl
  ∧ RouterManager.routers (sfu (fst (worker_died index w created cl)))
    = RouterManager.routers (sfu cl)
  ∧ WorkerManager.workers
      (RouterManager.workerManager (sfu (fst (worker_died index w created cl))))
    = match created with
      | Ok new_worker =>
          WorkerManager.array_set
            (WorkerManager.workers (RouterManager.workerManager (sfu cl)))
            index (WorkerManager.fresh_slot new_worker)
      | Throw _ => WorkerManager.workers (RouterManager.workerManager (sfu cl))
      end
  ∧ WorkerManager.routerCountAt
      (RouterManager.workerManager (sfu (fst (worker_died index w (Ok w') cl))))
      index
    = Some 0.
Proof.
  repeat split; try done.
  - by destruct created.
  - unfold WorkerManager.routerCountAt. simpl.
    by rewrite WorkerManagerFacts.array_set_lookup.
Qed.

(** C4, as stated, fails. The node creates the router of room [r1] on
    its only worker, which records the placement of [r1]; a connection
    authenticates and joins [r1]. The worker dies and is replaced. The
    connection receives nothing, and the placement of [r1] is still in
    the store, pointing at the router of the dead worker. *)
Lemma worker_death_is_silent :
  let verifyToken := λ _ : string,
    Ok {| Auth.id := "u1"; Auth.permissions := [] |} in
  let verifyMembership := λ _ _ : string, Ok true in
  let env := λ _ : string, @None string in
  let w0 := {| WorkerManager.handle := 7; WorkerManager.worker_pid := 4242 |} in
  let w1 := {| WorkerManager.handle := 8; WorkerManager.worker_pid := 4343 |} in
  let pool := snd (WorkerManager.initialize [Ok w0] WorkerManager.new) in
  let cl0 :=
    {| gateway :=
         SignalingServer.new (SFUManager.initialize ["a:4000"] 0 SFUManager.new)
           {| Redis.client := Some Redis.empty_db |}
           (RateLimiter.new RateLimiter.DEFAULT_RATE_LIMIT_CONFIG);
       sfu := RouterManager.new pool "sfu-1" |} in
  let cl1 :=
    node_step
      (RouterManager.CreateRouter "r1" "router-1" 0
         (Ok {| RouterManager.router_handle := 1;
                RouterManager.rtpCapabilities := "{}" |}) (Ok tt)) cl0 in
  let cl2 :=
    foldl (λ cl e, fst (gateway_event verifyToken verifyMembership env e cl)) cl1
      [ SignalingServer.Connection "c1" "10.0.0.1" 1;
        SignalingServer.Message "c1"
          (Some (SignalingServer.Authenticate "token" "org")) 2;
        SignalingServer.Message "c1"
          (Some (SignalingServer.JoinRoom "r1" "host" "Ann" None)) 3 ] in
  let after := worker_died 0 w0 (Ok w1) cl2 in
  rooms_on w0 cl2 = ["r1"]
  ∧ members "r1" cl2 = ["c1"]
  ∧ snd after = []
  ∧ Redis.getRoomRouter "r1" (store (fst after))
    = Some {| Redis.nodeId := "sfu-1"; Redis.routerId := "router-1" |}
  ∧ rooms_on w0 (fst after) = ["r1"].
Proof. vm_compute. repeat split; reflexivity. Qed.
End WorkerDeathFacts.

(** ** Leaving a room *)

Module LeaveFacts.
Import RoomManager.






End LeaveFacts.

(** ** The gateway: requests in the wrong state *)

Module GatewayFacts.
Import SignalingServer.

Lemma clients_ok_set cs k c :
  clients_ok cs → id c = k →
  (user c = None → roomId c = None ∧ participantId c = None) →
  clients_ok (JsMap.set cs k c).
Proof.
  intros Hcs Hid Hc k' c'. rewrite JsMapFacts.get_set.
  case_decide as Hk; [|apply Hcs]. by intros [= <-]; subst.
Qed.

Lemma clients_ok_delete cs k : clients_ok cs → clients_ok (JsMap.delete cs k).
Proof.
  intros Hcs k' c'. destruct (decide (k = k')) as [<-|Hk].
  - by rewrite JsMapFacts.get_delete_eq.
  - rewrite JsMapFacts.get_delete_ne by done. apply Hcs.
Qed.

Lemma clients_ok_update cid f srv :
  clients_ok (clients srv) →
  (∀ c, JsMap.get (clients srv) cid = Some c →
        id (f c) = id c
        ∧ (user (f c) = None → roomId (f c) = None ∧ participantId (f c) = None)) →
  clients_ok (clients (update_client cid f srv)).
Proof.
  intros Hcs Hf. unfold update_client.
  destruct (JsMap.get (clients srv) cid) as [c|] eqn:Hget; [|done]. simpl.
  destruct (Hf c eq_refl) as [Hid Hroom].
  apply clients_ok_set; [done| |done].
  rewrite Hid. by apply Hcs.
Qed.

(** An update that keeps the id, the user and the room of a client. *)
Lemma clients_ok_update_same cid f srv :
  clients_ok (clients srv) →
  (∀ c, id (f c) = id c ∧ user (f c) = user c ∧ roomId (f c) = roomId c
        ∧ participantId (f c) = participantId c) →
  clients_ok (clients (update_client cid f srv)).
Proof.
  intros Hcs Hf. apply clients_ok_update; [done|].
  intros c Hget. destruct (Hf c) as (-> & -> & -> & ->).
  split; [done|]. exact (proj2 (Hcs _ _ Hget)).
Qed.

Lemma clients_ok_leave cid srv :
  clients_ok (clients srv) →
  clients_ok
    (clients (update_client cid
                (λ c', set_ids [] [] [] (set_room None None c')) srv)).
Proof. intros Hcs. by apply clients_ok_update. Qed.

Lemma cleanupClientRoom_ok c srv :
  clients_ok (clients srv) → clients_ok (clients (fst (cleanupClientRoom c srv))).
Proof.
  intros Hcs. unfold cleanupClientRoom.
  destruct (present (roomId c)), (present (participantId c)); try done.
  destruct (RoomManager.leaveRoom _ _ _ _). simpl. by apply clients_ok_leave.
Qed.

Lemma cleanupClient_ok c srv :
  clients_ok (clients srv) → clients_ok (clients (fst (cleanupClient c srv))).
Proof.
  intros Hcs. unfold cleanupClient.
  pose proof (cleanupClientRoom_ok c srv Hcs).
  by destruct (cleanupClientRoom c srv).
Qed.

Section Collaborators.
Variable verifyToken : string → result Auth.AuthenticatedUser.
Variable verifyOrganizationMembership : string → string → result bool.
Variable process_env : string → option string.

Abbreviation handle := (handleMessage verifyToken verifyOrganizationMembership process_env).
Abbreviation gateway_step := (step verifyToken verifyOrganizationMembership process_env).
Abbreviation gateway_run := (run verifyToken verifyOrganizationMembership process_env).

Lemma handleMessage_ok c m now srv :
  clients_ok (clients srv) →
  JsMap.get (clients srv) (id c) = Some c →
  clients_ok (clients (fst (handle c m now srv))).
Proof.
  intros Hcs Hc. destruct m; simpl.
  - unfold handleAuthenticate. repeat case_match; simpl; try done.
    by apply clients_ok_update.
  - unfold handleJoinRoom.
    destruct (user c) as [u|] eqn:Hu; [|done].
    destruct (RoomManager.joinRoom _ _ _ _ _ _ _ _ _) as [[[info|e] rm] redis];
      [|done].
    destruct rtpCapabilities; simpl.
    + apply clients_ok_update; [done|]. simpl. intros c' Hc'.
      rewrite Hc in Hc'. injection Hc' as <-. split; [done|]. by rewrite Hu.
    + apply clients_ok_update; [done|]. simpl. intros c' Hc'.
      rewrite Hc in Hc'. injection Hc' as <-. split; [done|]. by rewrite Hu.
  - unfold handleLeaveRoom.
    destruct (present (roomId c)), (present (participantId c)); try done.
    by apply cleanupClientRoom_ok.
  - unfold handleCreateTransport.
    destruct (present (roomId c)), (present (participantId c)); try done.
    destruct (RoomManager.createTransport _ _ _ _ _ _). simpl.
    by apply clients_ok_update_same.
  - unfold handleConnectTransport. by destruct (present (roomId c)).
  - unfold handleProduce.
    destruct (present (roomId c)), (present (participantId c)); try done.
    destruct (RoomManager.produce _ _ _ _ _ _ _ _). simpl.
    by apply clients_ok_update_same.
  - unfold handleConsume, RoomManager.consume, consume_reply.
    destruct (present (roomId c)), (present (participantId c)); try done.
    simpl. by apply clients_ok_update_same.
  - unfold handleResumeConsumer. by destruct (present (roomId c)).
  - unfold handlePauseProducer. by destruct (present (roomId c)).
  - unfold handleResumeProducer. by destruct (present (roomId c)).
  - unfold handleCloseProducer. destruct (present (roomId c)); [|done]. simpl.
    by apply clients_ok_update_same.
  - unfold handleSetPreferredLayers. by destruct (present (roomId c)).
  - done.
  - done.
Qed.

Lemma shutdown_ok srv : clients_ok (clients (fst (shutdown srv))).
Proof.
  unfold shutdown. destruct (foldl _ _ _) as [srv1 out].
  by destruct (RoomManager.shutdown _ _).
Qed.

Lemma step_ok srv e :
  clients_ok (clients srv) → clients_ok (clients (fst (gateway_step srv e))).
Proof.
  intros Hcs. destruct e; simpl.
  - unfold handleConnection.
    destruct (RateLimiter.checkConnection _ _ _) as [check rl].
    destruct (RateLimiter.allowed check); simpl; [|done].
    by apply clients_ok_set.
  - unfold onMessage.
    destruct (JsMap.get (clients srv) clientId) as [c|] eqn:Hc; [|done].
    destruct (RateLimiter.checkMessage _ _ _ _) as [check rl].
    destruct (RateLimiter.allowed check); [|done].
    destruct parsed as [m|]; [|done].
    apply handleMessage_ok; simpl; [done|].
    by destruct (Hcs clientId c Hc) as [-> _].
  - unfold onClose.
    destruct (JsMap.get (clients srv) clientId) as [c|] eqn:Hc; [|done].
    pose proof (cleanupClient_ok c srv Hcs).
    destruct (cleanupClient c srv). simpl. by apply clients_ok_delete.
  - simpl. by apply clients_ok_update_same.
  - done.
  - done.
  - by apply clients_ok_update_same.
  - done.
  - apply shutdown_ok.
Qed.

(** In every gateway reached from one without connections, a connection
    without a user is in no room. *)
Lemma run_ok init events :
  clients init = [] → clients_ok (clients (gateway_run init events)).
Proof.
  intros Hinit. unfold run.
  induction events as [|e events IH] using rev_ind.
  - simpl. rewrite Hinit. by intros ? ?.
  - rewrite foldl_app. simpl. by apply step_ok.
Qed.

Lemma no_invoke_in_reply c message code method room :
  Invoke method room ∉ sendError c message code.
Proof.
  unfold sendError, send. destruct (readyState c);
    first [ apply not_elem_of_nil
          | apply not_elem_of_cons; split; [done | apply not_elem_of_nil] ].
Qed.

(** C2, as the code has it. In every gateway reached from one without
    connections, a message of a connection that has no user, other than
    [authenticate] and [get-router-rtp-capabilities], changes nothing
    and invokes no method of the room manager. [join-room] is answered
    with the error [NOT_AUTHENTICATED]; [create-transport],
    [connect-transport], [produce] and [consume] are answered with the
    error [NOT_IN_ROOM]; an unknown event is answered with an error
    without code; [leave-room], [resume-consumer], [pause-producer],
    [resume-producer], [close-producer] and [set-preferred-layers] get
    no answer. *)
Theorem unauthenticated_requests_stay_outside
    (init : SignalingServer) (events : list Event) (cid : string)
    (c : ConnectedClient) (m : ClientMessage) (now : Z) :
  clients init = [] →
  JsMap.get (clients (gateway_run init events)) cid = Some c →
  user c = None →
  (∀ token org, m ≠ Authenticate token org) →
  (∀ room, m ≠ GetRouterRtpCapabilities room) →
  handle c m now (gateway_run init events)
  = (gateway_run init events,
     match m with
     | JoinRoom _ _ _ _ =>
         sendError c "Not authenticated" (Some "NOT_AUTHENTICATED")
     | CreateTransport _ _ | ConnectTransport _ _
     | Produce _ _ _ _ | Consume _ _ =>
         sendError c "Not in a room" (Some "NOT_IN_ROOM")
     | Unknown event => sendError c ("Unknown event: " +:+ event) None
     | _ => []
     end)
  ∧ ∀ method room,
      Invoke method room ∉ snd (handle c m now (gateway_run init events)).
Proof.
  intros Hinit Hc Hu Hauth Hcaps.
  destruct (run_ok init events Hinit cid c Hc) as [_ Hroom].
  destruct (Hroom Hu) as [Hr Hp].
  assert (handle c m now (gateway_run init events)
          = (gateway_run init events,
             match m with
             | JoinRoom _ _ _ _ =>
                 sendError c "Not authenticated" (Some "NOT_AUTHENTICATED")
             | CreateTransport _ _ | ConnectTransport _ _
             | Produce _ _ _ _ | Consume _ _ =>
                 sendError c "Not in a room" (Some "NOT_IN_ROOM")
             | Unknown event => sendError c ("Unknown event: " +:+ event) None
             | _ => []
             end)) as Heq.
  { destruct m; simpl;
      unfold handleJoinRoom, handleLeaveRoom, handleCreateTransport,
        handleConnectTransport, handleProduce, handleConsume,
        handleResumeConsumer, handlePauseProducer, handleResumeProducer,
        handleCloseProducer, handleSetPreferredLayers;
      rewrite ?Hu, ?Hr, ?Hp; simpl; try done.
    - by destruct (Hauth token organizationId).
    - by destruct (Hcaps room). }
  split; [exact Heq|].
  intros method room. rewrite Heq. simpl.
  destruct m; try apply no_invoke_in_reply; apply not_elem_of_nil.
Qed.

(** C8, as the code has it. For a connection whose socket is open: an
    unknown event is answered with an error event; [join-room] without a
    user is answered with the error [NOT_AUTHENTICATED];
    [create-transport], [connect-transport], [produce] and [consume]
    outside a room are answered with the error [NOT_IN_ROOM];
    [leave-room], [resume-consumer], [pause-producer],
    [resume-producer], [close-producer] and [set-preferred-layers]
    outside a room are dropped without an answer. In each case the
    gateway is unchanged and the connection is not closed. *)
Theorem wrong_state_requests_answered_or_dropped
    (c : ConnectedClient) (m : ClientMessage) (now : Z) (srv : SignalingServer) :
  readyState c = OPEN →
  match m with
  | Unknown event =>
      handle c m now srv
      = (srv, [Send (id c) (error ("Unknown event: " +:+ event) None)])
  | JoinRoom _ _ _ _ =>
      user c = None →
      handle c m now srv
      = (srv, [Send (id c) (error "Not authenticated" (Some "NOT_AUTHENTICATED"))])
  | CreateTransport _ _ | ConnectTransport _ _
  | Produce _ _ _ _ | Consume _ _ =>
      present (roomId c) = None →
      handle c m now srv
      = (srv, [Send (id c) (error "Not in a room" (Some "NOT_IN_ROOM"))])
  | LeaveRoom | ResumeConsumer _ | PauseProducer _ | ResumeProducer _
  | CloseProducer _ | SetPreferredLayers _ _ _ =>
      present (roomId c) = None → handle c m now srv = (srv, [])
  | Authenticate _ _ | GetRouterRtpCapabilities _ => True
  end.
Proof.
  intros Hopen.
  destruct m; simpl; try done;
    unfold handleJoinRoom, handleLeaveRoom, handleCreateTransport,
      handleConnectTransport, handleProduce, handleConsume,
      handleResumeConsumer, handlePauseProducer, handleResumeProducer,
      handleCloseProducer, handleSetPreferredLayers, sendError, send;
    try (intros ->); rewrite ?Hopen; done.
Qed.
End Collaborators.
End GatewayFacts.

(** ** The properties at work on small histories *)

Module Scenarios.
Import SignalingServer.

Lemma unauthenticated_requests_stay_outside_witness :
  let verifyToken := λ _ : string,
    Ok {| Auth.id := "u1"; Auth.permissions := [] |} in
  let verifyMembership := λ _ _ : string, Ok true in
  let env := λ _ : string, @None string in
  let init :=
    new SFUManager.new {| Redis.client := Some Redis.empty_db |}
      (RateLimiter.new RateLimiter.DEFAULT_RATE_LIMIT_CONFIG) in
  let c := {| id := "c1"; readyState := OPEN; user := None; roomId := None;
              participantId := None; transportIds := []; producerIds := [];
              consumerIds := []; lastPing := 0; ip := "10.0.0.1" |} in
  let srv := run verifyToken verifyMembership env init [Connection "c1" "10.0.0.1" 0] in
  handleMessage verifyToken verifyMembership env c
    (JoinRoom "r1" "host" "Ann" None) 1 srv
  = (srv, [Send "c1" (error "Not authenticated" (Some "NOT_AUTHENTICATED"))]).
Proof.
  intros verifyToken verifyMembership env init c srv.
  refine (proj1 (GatewayFacts.unauthenticated_requests_stay_outside
                   verifyToken verifyMembership env init
                   [Connection "c1" "10.0.0.1" 0] "c1" c
                   (JoinRoom "r1" "host" "Ann" None) 1
                   eq_refl eq_refl eq_refl _ _)).
  - intros token org. discriminate.
  - intros room. discriminate.
Defined.

(** C2, as stated, fails on a connection that has just been accepted and
    has no user: [create-transport] is answered with [NOT_IN_ROOM], not
    with an authentication error; [pause-producer] is not answered at
    all; and [get-router-rtp-capabilities] is served by a call into the
    room manager. *)
Lemma unauthenticated_request_not_rejected_as_such :
  let verifyToken := λ _ : string,
    Ok {| Auth.id := "u1"; Auth.permissions := [] |} in
  let verifyMembership := λ _ _ : string, Ok true in
  let env := λ _ : string, @None string in
  let init :=
    new SFUManager.new {| Redis.client := Some Redis.empty_db |}
      (RateLimiter.new RateLimiter.DEFAULT_RATE_LIMIT_CONFIG) in
  let srv := run verifyToken verifyMembership env init [Connection "c1" "10.0.0.1" 0] in
  let reply m := snd (step verifyToken verifyMembership env srv (Message "c1" (Some m) 1)) in
  user <$> JsMap.get (clients srv) "c1" = Some None
  ∧ reply (CreateTransport RoomManager.send None)
    = [Send "c1" (error "Not in a room" (Some "NOT_IN_ROOM"))]
  ∧ reply (PauseProducer "p1") = []
  ∧ reply (GetRouterRtpCapabilities "r1")
    = [Invoke getRouterRtpCapabilities "r1";
       Send "c1" (router_rtp_capabilities "{}")].
Proof. vm_compute. repeat split; reflexivity. Qed.

Lemma wrong_state_requests_answered_or_dropped_witness :
  let verifyToken := λ _ : string,
    Ok {| Auth.id := "u1"; Auth.permissions := [] |} in
  let verifyMembership := λ _ _ : string, Ok true in
  let env := λ _ : string, @None string in
  let c := {| id := "c1"; readyState := OPEN;
              user := Some {| Auth.id := "u1"; Auth.permissions := [] |};
              roomId := None; participantId := None; transportIds := [];
              producerIds := []; consumerIds := []; lastPing := 0;
              ip := "10.0.0.1" |} in
  let srv :=
    new SFUManager.new {| Redis.client := Some Redis.empty_db |}
      (RateLimiter.new RateLimiter.DEFAULT_RATE_LIMIT_CONFIG) in
  handleMessage verifyToken verifyMembership env c
    (Consume "producer-video-p-u2-7-9" "{}") 1 srv
  = (srv, [Send "c1" (error "Not in a room" (Some "NOT_IN_ROOM"))])
  ∧ handleMessage verifyToken verifyMembership env c (PauseProducer "p1") 1 srv
    = (srv, []).
Proof.
  intros verifyToken verifyMembership env c srv. split.
  - exact (GatewayFacts.wrong_state_requests_answered_or_dropped
             verifyToken verifyMembership env c
             (Consume "producer-video-p-u2-7-9" "{}") 1 srv eq_refl eq_refl).
  - exact (GatewayFacts.wrong_state_requests_answered_or_dropped
             verifyToken verifyMembership env c (PauseProducer "p1") 1 srv
             eq_refl eq_refl).
Defined.

(** C8, as stated, fails: an authenticated connection that is in no room
    sends [pause-producer], then [set-preferred-layers], then
    [leave-room]; none of them is answered, neither with an error event
    nor otherwise. And once its socket is closing, an unknown event is not
    answered either. *)
Lemma wrong_state_request_silently_dropped :
  let verifyToken := λ _ : string,
    Ok {| Auth.id := "u1"; Auth.permissions := [] |} in
  let verifyMembership := λ _ _ : string, Ok true in
  let env := λ _ : string, @None string in
  let init :=
    new SFUManager.new {| Redis.client := Some Redis.empty_db |}
      (RateLimiter.new RateLimiter.DEFAULT_RATE_LIMIT_CONFIG) in
  let srv :=
    run verifyToken verifyMembership env init
      [ Connection "c1" "10.0.0.1" 0;
        Message "c1" (Some (Authenticate "token" "org")) 1 ] in
  let reply m := snd (step verifyToken verifyMembership env srv (Message "c1" (Some m) 2)) in
  (readyState <$> JsMap.get (clients srv) "c1" = Some OPEN)
  ∧ (roomId <$> JsMap.get (clients srv) "c1" = Some None)
  ∧ reply (PauseProducer "p1") = []
  ∧ reply (SetPreferredLayers "x1" 2 None) = []
  ∧ reply LeaveRoom = []
  ∧ snd (step verifyToken verifyMembership env
           (run verifyToken verifyMembership env srv [SocketState "c1" CLOSING])
           (Message "c1" (Some (Unknown "dance")) 3))
    = [].
Proof. vm_compute. repeat split; reflexivity. Qed.


End Scenarios.

(** ** Numbers read back from their decimal text *)

Module JsFacts.
Lemma digit_of_char (d : N) :
  (d < 10)%N →
  Js.digit_of (pretty_N_char d) = Some (Z.of_N d)
  ∧ Js.is_space (pretty_N_char d) = false
  ∧ pretty_N_char d ≠ "-"%char ∧ pretty_N_char d ≠ "+"%char.
Proof.
  intros Hd.
  assert (d = 0 ∨ d = 1 ∨ d = 2 ∨ d = 3 ∨ d = 4 ∨ d = 5 ∨ d = 6 ∨ d = 7
          ∨ d = 8 ∨ d = 9)%N as Hcases by lia.
  repeat (destruct Hcases as [->|Hcases]; [by vm_compute|]).
  subst. by vm_compute.
Qed.

Lemma pretty_N_go_first (x : N) (s : string) :
  (0 < x)%N →
  ∃ d s', (d < 10)%N ∧ pretty_N_go x s = String (pretty_N_char d) s'.
Proof.
  revert s. induction (N.lt_wf_0 x) as [x _ IH]. intros s Hx.
  rewrite pretty_N_go_step by done.
  destruct (decide (x `div` 10 = 0)%N) as [Hz|Hnz].
  - rewrite Hz, pretty_N_go_0. eexists _, _. split; [|done].
    by apply N.mod_lt.
  - apply IH; [by apply N.div_lt | by apply N.neq_0_lt_0].
Qed.

Lemma digits_pretty_N_go (x : N) :
  (0 < x)%N →
  ∃ k, ∀ acc s,
    Js.digits acc (pretty_N_go x s)
    = Js.digits (Some (k * default 0 acc + Z.of_N x)) s.
Proof.
  induction (N.lt_wf_0 x) as [x _ IH]. intros Hx.
  assert (Z.of_N x = 10 * Z.of_N (x `div` 10) + Z.of_N (x `mod` 10)) as Hdm.
  { rewrite (N.div_mod x 10) at 1 by done. lia. }
  destruct (digit_of_char (x `mod` 10)) as (Hdigit & _); [by apply N.mod_lt|].
  destruct (decide (x `div` 10 = 0)%N) as [Hz|Hnz].
  - exists 10. intros acc s. rewrite pretty_N_go_step by done.
    rewrite Hz, pretty_N_go_0. simpl. rewrite Hdigit.
    f_equal. f_equal. rewrite Hdm, Hz. lia.
  - destruct (IH (x `div` 10)%N) as [k Hk];
      [by apply N.div_lt | by apply N.neq_0_lt_0 |].
    exists (10 * k). intros acc s. rewrite pretty_N_go_step by done.
    rewrite Hk. simpl. rewrite Hdigit. f_equal. f_equal. simpl. lia.
Qed.

Lemma parseInt_unsigned (c : ascii) (s : string) :
  Js.is_space c = false → c ≠ "-"%char → c ≠ "+"%char →
  Js.parseInt (String c s) = Js.digits None (String c s).
Proof.
  intros Hsp Hm Hp. unfold Js.parseInt. simpl. rewrite Hsp.
  destruct c as [[] [] [] [] [] [] [] []]; try done; by (destruct Hm || destruct Hp).
Qed.

Lemma digits_pretty_pos (p : positive) :
  Js.digits None (pretty_N_go (N.pos p) "") = Some (Z.pos p).
Proof.
  destruct (digits_pretty_N_go (N.pos p)) as [k Hk]; [lia|].
  rewrite Hk. simpl. f_equal. lia.
Qed.

(** [parseInt] reads back what [toString] printed. *)
Lemma parseInt_pretty (z : Z) :
  Js.parseInt (pretty z) = Some z ∧ truthy (pretty z) = true.
Proof.
  destruct z as [|p|p]; [done| |].
  - change (pretty (Z.pos p)) with (pretty_N_go (N.pos p) "").
    destruct (pretty_N_go_first (N.pos p) "") as (d & s' & Hd & Hs); [lia|].
    destruct (digit_of_char d Hd) as (_ & Hsp & Hm & Hp).
    pose proof (digits_pretty_pos p) as Hdig. rewrite Hs in *.
    by rewrite parseInt_unsigned.
  - change (pretty (Z.neg p)) with (String "-" (pretty_N_go (N.pos p) "")).
    split; [|done]. unfold Js.parseInt. simpl.
    by rewrite digits_pretty_pos.
Qed.

Lemma heartbeat_key_ne_stats_key nodeId :
  Redis.heartbeat_key nodeId ≠ Redis.stats_key nodeId.
Proof.
  unfold Redis.heartbeat_key, Redis.stats_key. intros Heq.
  apply String.app_inj in Heq. apply String.app_inj in Heq. discriminate.
Qed.
End JsFacts.

(** ** The coordination store: placements and expiring keys *)

Module StoreFacts.
Import Redis.

(** X1. On a connected store a placement is read back as it was written,
    is gone once deleted, and neither operation touches the placement of
    another room; on a store that is not connected a write does nothing and
    every room reads as unplaced. *)
Theorem placement_round_trip (room room' : string) (info : RouterInfo) (db : Db) :
  let r := {| client := Some db |} in
  getRoomRouter room (setRoomRouter room info r) = Some info
  ∧ getRoomRouter room (deleteRoomRouter room r) = None
  ∧ (room ≠ room' →
     getRoomRouter room' (setRoomRouter room info r) = getRoomRouter room' r
     ∧ getRoomRouter room' (deleteRoomRouter room r) = getRoomRouter room' r)
  ∧ setRoomRouter room info {| client := None |} = {| client := None |}
  ∧ getRoomRouter room (setRoomRouter room info {| client := None |}) = None.
Proof.
  simpl. unfold getRoomRouter, setRoomRouter, deleteRoomRouter. simpl.
  split; [apply lookup_insert_eq|]. split; [apply lookup_delete_eq|].
  split; [|done]. intros Hne.
  split; [by apply lookup_insert_ne | by apply lookup_delete_ne].
Qed.

Lemma placement_round_trip_witness :
  getRoomRouter "r2"
    (setRoomRouter "r1" {| nodeId := "sfu-1"; routerId := "router-1" |}
       (setRoomRouter "r2" {| nodeId := "sfu-2"; routerId := "router-2" |}
          {| client := Some empty_db |}))
  = Some {| nodeId := "sfu-2"; routerId := "router-2" |}.
Proof.
  destruct (placement_round_trip "r1" "r2"
              {| nodeId := "sfu-1"; routerId := "router-1" |}
              {| kv := ∅;
                 room_routers :=
                   <["r2" := {| nodeId := "sfu-2"; routerId := "router-2" |}]> ∅;
                 sfu_nodes := ∅ |})
    as (_ & _ & Hother & _).
  destruct Hother as [Hset _]; [discriminate|].
  etransitivity; [exact Hset | reflexivity].
Defined.

(** X2. A key written with a time to live of [ttl] seconds reads as its
    value until [ttl * 1000] milliseconds have passed, that instant
    included, and as absent at every later instant; a key written without
    one never expires; a deleted key reads as absent; other keys are not
    affected by the write. *)
Theorem key_lives_for_its_ttl
    (key key' v : string) (ttl now now' : Z) (db : Db) :
  0 < ttl →
  let r := {| client := Some db |} in
  get key now' (set key v (Some ttl) now r)
  = (if decide (now' <= now + ttl * 1000) then Some v else None)
  ∧ get key now' (set key v None now r) = Some v
  ∧ get key now' (del key r) = None
  ∧ (key ≠ key' → get key' now' (set key v (Some ttl) now r) = get key' now' r).
Proof.
  intros Httl. simpl. unfold get, set, del. simpl.
  rewrite decide_False by lia.
  split; [|split; [|split]].
  - rewrite lookup_insert_eq. unfold live. simpl.
    case_bool_decide; by case_decide.
  - by rewrite lookup_insert_eq.
  - by rewrite lookup_delete_eq.
  - intros Hne. by rewrite lookup_insert_ne.
Qed.

Lemma key_lives_for_its_ttl_witness :
  get "k" 30000 (set "k" "v" (Some 30) 0 {| client := Some empty_db |}) = Some "v"
  ∧ get "k" 30001 (set "k" "v" (Some 30) 0 {| client := Some empty_db |}) = None.
Proof.
  split.
  - exact (proj1 (key_lives_for_its_ttl "k" "k" "v" 30 0 30000 empty_db eq_refl)).
  - exact (proj1 (key_lives_for_its_ttl "k" "k" "v" 30 0 30001 empty_db eq_refl)).
Defined.
End StoreFacts.

(** ** Node selection *)

Module SelectionFacts.
Import SFUManager.

Lemma head_insert_by_load n l :
  head (insert_by_load n l)
  = Some (match head l with
          | Some h => if decide (load n <= load h) then n else h
          | None => n
          end).
Proof. destruct l as [|h l]; simpl; [done|]. by case_decide. Qed.

Lemma head_sort_by_load l n :
  head (sort_by_load l) = Some n →
  n ∈ l ∧ ∀ m, m ∈ l → load n <= load m.
Proof.
  revert n. induction l as [|x l IH]; intros n; simpl; [done|].
  rewrite head_insert_by_load.
  destruct (head (sort_by_load l)) as [h|] eqn:Hh.
  - destruct (IH h eq_refl) as [Hin Hmin].
    case_decide as Hle; intros [= <-].
    + split; [left|]. intros m [->|Hm]%elem_of_cons; [lia|].
      specialize (Hmin m Hm). lia.
    + split; [by right|]. intros m [->|Hm]%elem_of_cons; [lia|by apply Hmin].
  - intros [= <-]. apply head_None in Hh.
    assert (l = []) as ->.
    { destruct l as [|y l]; [done|]. simpl in Hh.
      pose proof (head_insert_by_load y (sort_by_load l)) as Hc.
      rewrite Hh in Hc. done. }
    split; [left|]. intros m Hm%list_elem_of_singleton. subst. lia.
Qed.

(** X3. [getBestNode] answers [null] exactly when no node is healthy;
    otherwise it answers a healthy node of the map whose load is the least
    among the healthy nodes. *)
Theorem getBestNode_least_loaded (self : SFUManager) :
  (getBestNode self = None ↔
   ∀ n, n ∈ JsMap.values (nodes self) → isHealthy n = false)
  ∧ ∀ n, getBestNode self = Some n →
         n ∈ JsMap.values (nodes self) ∧ isHealthy n = true
         ∧ ∀ m, m ∈ JsMap.values (nodes self) → isHealthy m = true →
                load n <= load m.
Proof.
  unfold getBestNode. split.
  - split.
    + intros Hnone n Hn.
      destruct (isHealthy n) eqn:Hh; [|done].
      assert (n ∈ filter (λ n, isHealthy n = true) (JsMap.values (nodes self)))
        as Hin by (by apply list_elem_of_filter).
      destruct (filter _ _) as [|x l] eqn:Hf; [by apply elem_of_nil in Hin|].
      simpl in Hnone. rewrite head_insert_by_load in Hnone. done.
    + intros Hall.
      assert (filter (λ n, isHealthy n = true) (JsMap.values (nodes self)) = [])
        as ->; [|done].
      destruct (filter _ _) as [|x l] eqn:Hf; [done|].
      assert (x ∈ filter (λ n, isHealthy n = true) (JsMap.values (nodes self)))
        as [Hx Hin]%list_elem_of_filter by (rewrite Hf; left).
      rewrite (Hall x Hin) in Hx. done.
  - intros n Hbest. apply head_sort_by_load in Hbest as [Hin Hmin].
    apply list_elem_of_filter in Hin as [Hh Hin].
    split; [done|]. split; [done|].
    intros m Hm Hmh. apply Hmin. by apply list_elem_of_filter.
Qed.

Lemma getBestNode_least_loaded_witness :
  let busy := {| id := "sfu-a-1"; host := "a"; port := Some 1; isHealthy := true;
                 load := 7; lastHealthCheck := 0 |} in
  let down := {| id := "sfu-b-1"; host := "b"; port := Some 1; isHealthy := false;
                 load := 0; lastHealthCheck := 0 |} in
  let idle := {| id := "sfu-c-1"; host := "c"; port := Some 1; isHealthy := true;
                 load := 2; lastHealthCheck := 0 |} in
  let self := {| nodes := [("sfu-a-1", busy); ("sfu-b-1", down); ("sfu-c-1", idle)] |} in
  getBestNode self = Some idle ∧ isHealthy idle = true.
Proof.
  intros busy down idle self.
  split; [reflexivity|].
  exact (proj1 (proj2 (proj2 (getBestNode_least_loaded self) idle eq_refl))).
Defined.

Lemma Forall_set {V} (P : string * V → Prop) m k v :
  Forall P m → P (k, v) → Forall P (JsMap.set m k v).
Proof.
  intros Hm Hkv. induction m as [|[k' v'] m IH]; simpl.
  - by apply Forall_singleton.
  - apply Forall_cons in Hm as [Hx Hm]. case_decide.
    + by apply Forall_cons.
    + apply Forall_cons. split; [done | by apply IH].
Qed.

Lemma set_not_nil {V} (m : list (string * V)) k v : JsMap.set m k v ≠ [].
Proof. destruct m as [|[k' v'] m]; simpl; [done|]. by case_decide. Qed.

Lemma sort_by_load_same_load l :
  Forall (λ n, load n = 0) l → sort_by_load l = l.
Proof.
  induction l as [|x l IH]; [done|]. intros [Hx Hl]%Forall_cons. simpl.
  rewrite IH by done. destruct l as [|y l]; [done|]. simpl.
  apply Forall_cons in Hl as [Hy _]. rewrite decide_True; [done|lia].
Qed.

Lemma filter_all {A} (P : A → Prop) `{∀ x, Decision (P x)} (l : list A) :
  Forall P l → filter P l = l.
Proof.
  induction l as [|x l IH]; [done|]. intros [Hx Hl]%Forall_cons.
  rewrite filter_cons_True by done. by rewrite IH.
Qed.

(** X4. After [initialize], every node is filed under its own id, is
    healthy and has load 0; the map is empty exactly when no node is
    configured; and [getBestNode] answers the first node of the map, so
    that, until statistics arrive, every new room is placed on it. *)
Theorem initialize_all_healthy (config_nodes : list string) (now : Z) :
  let self := initialize config_nodes now new in
  (∀ k n, JsMap.get (nodes self) k = Some n →
          id n = k ∧ isHealthy n = true ∧ load n = 0)
  ∧ (nodes self = [] ↔ config_nodes = [])
  ∧ getBestNode self = head (JsMap.values (nodes self)).
Proof.
  set (P := λ kn : string * SFUNode,
              id (snd kn) = fst kn ∧ isHealthy (snd kn) = true ∧ load (snd kn) = 0).
  assert (∀ cfg ns, Forall P ns → Forall P (foldl (add_node now) ns cfg)) as Hall.
  { induction cfg as [|c cfg IH]; intros ns Hns; [done|]. simpl. apply IH.
    unfold add_node. destruct (Js.break_at ":" c) as [h rest].
    by apply Forall_set. }
  assert (∀ cfg ns, ns ≠ [] → foldl (add_node now) ns cfg ≠ []) as Hne.
  { induction cfg as [|c cfg IH]; intros ns Hns; [done|]. simpl. apply IH.
    unfold add_node. destruct (Js.break_at ":" c) as [h rest].
    apply set_not_nil. }
  simpl. specialize (Hall config_nodes [] (Forall_nil_2 _)).
  split; [|split].
  - intros k n Hget. apply JsMapFacts.get_Some_elem in Hget.
    rewrite Forall_forall in Hall. exact (Hall (k, n) Hget).
  - split.
    + destruct config_nodes as [|c cfg]; [done|]. simpl. intros Hnil.
      destruct (Hne cfg (add_node now [] c)); [|done].
      unfold add_node. destruct (Js.break_at ":" c) as [h rest]. done.
    + by intros ->.
  - unfold getBestNode. simpl.
    assert (Forall (λ n, isHealthy n = true ∧ load n = 0)
              (JsMap.values (foldl (add_node now) [] config_nodes))) as Hvals.
    { unfold JsMap.values. apply Forall_fmap.
      eapply Forall_impl; [exact Hall|]. by intros [k n] (_ & ? & ?). }
    rewrite filter_all.
    + rewrite sort_by_load_same_load; [done|].
      eapply Forall_impl; [exact Hvals|]. by intros n [_ ?].
    + eapply Forall_impl; [exact Hvals|]. by intros n [? _].
Qed.

Lemma get_map_keyed {V} (f : string → V → V) (m : list (string * V)) k :
  JsMap.get (map (λ kv, (fst kv, f (fst kv) (snd kv))) m) k = f k <$> JsMap.get m k.
Proof.
  induction m as [|[k' v'] m IH]; simpl; [done|].
  case_decide; [by subst | done].
Qed.

(** X5. A health check never adds, removes, renames or reorders a node:
    the keys are the same in the same order, and each node keeps its id,
    host and port. Only the health flag, the load and the instant of the
    last check can change. *)
Theorem checkHealth_keeps_registry
    (stats_routers : string → option Z) (now : Z)
    (redis : Redis.RedisService) (self : SFUManager) (k : string) :
  JsMap.keys (nodes (checkHealth stats_routers now redis self)) = JsMap.keys (nodes self)
  ∧ (λ n, (id n, host n, port n))
      <$> JsMap.get (nodes (checkHealth stats_routers now redis self)) k
    = (λ n, (id n, host n, port n)) <$> JsMap.get (nodes self) k.
Proof.
  unfold checkHealth. simpl. split.
  - unfold JsMap.keys. rewrite map_map. done.
  - rewrite (get_map_keyed (check_node stats_routers now redis)).
    destruct (JsMap.get (nodes self) k) as [n|]; [|done]. simpl.
    unfold check_node.
    destruct (Redis.get (Redis.heartbeat_key k) now redis) as [hb|];
      [destruct (truthy hb)|];
      (destruct (Redis.get (Redis.stats_key k) now redis) as [st|];
       [destruct (truthy st); [destruct (stats_routers st)|]|]); done.
Qed.

(** X6. A node that reported at instant [t] ([updateNodeHealth]) is found
    healthy by every health check run less than 30 seconds later, whatever
    its flag was before, and its load becomes the router count of the
    report; when the report cannot be parsed the node is marked unhealthy
    and keeps the load it had. *)
Theorem fresh_report_marks_healthy
    (stats_routers : string → option Z) (nodeId stats : string)
    (t t' : Z) (db : Redis.Db) (n : SFUNode) :
  t' < t + 30000 →
  truthy stats = true →
  let redis :=
    Redis.updateNodeHealth nodeId stats t {| Redis.client := Some db |} in
  match stats_routers stats with
  | Some routers =>
      check_node stats_routers t' redis nodeId n
      = {| id := id n; host := host n; port := port n; isHealthy := true;
           load := routers; lastHealthCheck := t' |}
  | None =>
      check_node stats_routers t' redis nodeId n
      = {| id := id n; host := host n; port := port n; isHealthy := false;
           load := load n; lastHealthCheck := lastHealthCheck n |}
  end.
Proof.
  intros Hfresh Hstats. simpl.
  destruct (JsFacts.parseInt_pretty t) as [Hparse Htruthy].
  pose proof (JsFacts.heartbeat_key_ne_stats_key nodeId) as Hkeys.
  assert (Redis.get (Redis.heartbeat_key nodeId) t'
            (Redis.updateNodeHealth nodeId stats t {| Redis.client := Some db |})
          = Some (pretty t)) as Hbeat.
  { unfold Redis.updateNodeHealth, Redis.get, Redis.set. simpl.
    rewrite lookup_insert_eq. unfold Redis.live. simpl.
    rewrite bool_decide_eq_true_2; [done|lia]. }
  assert (Redis.get (Redis.stats_key nodeId) t'
            (Redis.updateNodeHealth nodeId stats t {| Redis.client := Some db |})
          = Some stats) as Hst.
  { unfold Redis.updateNodeHealth, Redis.get, Redis.set. simpl.
    rewrite lookup_insert_ne by done. rewrite lookup_insert_eq.
    unfold Redis.live. simpl. rewrite bool_decide_eq_true_2; [done|lia]. }
  unfold check_node. rewrite Hbeat, Hst, Htruthy, Hparse, Hstats. simpl.
  destruct (stats_routers stats); simpl.
  - rewrite bool_decide_eq_true_2; [done|lia].
  - done.
Qed.

Lemma fresh_report_marks_healthy_witness :
  let stats_routers := λ _ : string, Some 3 in
  let n := {| id := "sfu-a-4000"; host := "a"; port := Some 4000;
              isHealthy := false; load := 0; lastHealthCheck := 0 |} in
  check_node stats_routers 1029999
    (Redis.updateNodeHealth "sfu-a-4000" "{ routers: 3 }" 1000000
       {| Redis.client := Some Redis.empty_db |})
    "sfu-a-4000" n
  = {| id := "sfu-a-4000"; host := "a"; port := Some 4000; isHealthy := true;
       load := 3; lastHealthCheck := 1029999 |}.
Proof.
  intros stats_routers n.
  exact (fresh_report_marks_healthy stats_routers "sfu-a-4000" "{ routers: 3 }"
           1000000 1029999 Redis.empty_db n eq_refl eq_refl).
Defined.

(** X7. On a store that is not connected an allocation is never
    remembered: with a healthy node, [allocateRoom] answers a router id
    built from the room and the clock and leaves the store as it is, so
    that two allocations of one room at different instants answer
    different routers. *)
Theorem allocateRoom_forgets_without_store
    (env : string → option string) (room : string) (now now' : Z)
    (self : SFUManager) (redis : Redis.RedisService) (n : SFUNode) :
  Redis.client redis = None →
  getBestNode self = Some n →
  allocateRoom env room now self redis
  = (Ok {| node := host n +:+ ":" +:+ Js.show (port n);
           routerId := "router-" +:+ room +:+ "-" +:+ pretty now;
           iceServers := getIceServers env |}, redis)
  ∧ (now ≠ now' →
     routerId <$> (match fst (allocateRoom env room now' self
                                (snd (allocateRoom env room now self redis))) with
                   | Ok a => Some a | Throw _ => None end)
     ≠ Some ("router-" +:+ room +:+ "-" +:+ pretty now)).
Proof.
  intros Hclient Hbest.
  assert (∀ t, allocateRoom env room t self redis
               = (Ok {| node := host n +:+ ":" +:+ Js.show (port n);
                        routerId := "router-" +:+ room +:+ "-" +:+ pretty t;
                        iceServers := getIceServers env |}, redis)) as Halloc.
  { intros t.
    unfold allocateRoom, allocateRoom_resume, Redis.getRoomRouter,
      Redis.setRoomRouter.
    by rewrite Hclient, Hbest. }
  split; [apply Halloc|].
  intros Hne. rewrite (Halloc now). simpl. rewrite (Halloc now'). simpl.
  intros [= Heq]. do 2 apply String.app_inj in Heq. injection Heq as Heq.
  apply Hne. symmetry. by apply (inj pretty).
Qed.

Lemma allocateRoom_forgets_without_store_witness :
  let env := λ _ : string, @None string in
  let self := initialize ["a:4000"] 0 new in
  routerId <$> (match fst (allocateRoom env "r1" 9 self {| Redis.client := None |}) with
                | Ok a => Some a | Throw _ => None end)
  = Some "router-r1-9".
Proof.
  intros env self.
  pose proof (proj1 (allocateRoom_forgets_without_store env "r1" 9 5 self
                       {| Redis.client := None |}
                       {| id := "sfu-a-4000"; host := "a"; port := Some 4000;
                          isHealthy := true; load := 0; lastHealthCheck := 0 |}
                       eq_refl eq_refl)) as H.
  rewrite H. reflexivity.
Defined.
End SelectionFacts.

(** ** Admission control: windows, blocks and budgets *)

Module AdmissionFacts.
Import RateLimiter Admission.

Lemma retry_after_of_seconds (b : Z) : 0 < b → Js.retry_after (b * 1000) = b.
Proof.
  intros Hb. unfold Js.retry_after.
  replace (- (b * 1000)) with ((- b) * 1000) by lia.
  rewrite Z.div_mul by lia. rewrite decide_False by lia. lia.
Qed.

Lemma retry_after_at_least_one (ms : Z) :
  0 < ms ∨ ms = -1 → 1 <= Js.retry_after ms.
Proof.
  intros Hms. unfold Js.retry_after. case_decide as Hc; [lia|].
  destruct Hms as [Hpos| ->]; [|done].
  assert (- ms / 1000 < 0); [|lia].
  apply Z.div_lt_upper_bound; lia.
Qed.

Lemma consume_counts key now l k e :
  counter_is l key k e → now < e → k + 1 <= points (opts l) →
  ∃ res l', consume key 1 now l = (inl res, l')
            ∧ opts l' = opts l ∧ counter_is l' key (k + 1) e.
Proof.
  unfold counter_is. intros Hk Hlive Hroom.
  unfold consume, storage_incrby, timer_fired. rewrite Hk. simpl.
  rewrite (bool_decide_eq_false_2 (e <= now)) by lia.
  rewrite (bool_decide_eq_true_2 (0 < e - now)) by lia. simpl.
  rewrite decide_False by lia.
  eexists _, _. split; [done|]. split; [done|]. simpl. apply lookup_insert_eq.
Qed.

Lemma consume_opens_window key now l :
  (storage l !! key = None
   ∨ ∃ k e, counter_is l key k e ∧ e <= now) →
  0 < duration (opts l) → duration (opts l) * 1000 <= TIMEOUT_MAX →
  1 <= points (opts l) →
  ∃ res l', consume key 1 now l = (inl res, l')
            ∧ opts l' = opts l
            ∧ counter_is l' key 1 (now + duration (opts l) * 1000).
Proof.
  unfold counter_is. intros Hk Hd Hmax Hp.
  assert (storage_incrby key 1 (duration (opts l)) now (storage l)
          = storage_set key 1 (duration (opts l)) now (storage l)) as Hincr.
  { unfold storage_incrby, timer_fired.
    destruct Hk as [->|(k & e & -> & He)]; [done|]. simpl.
    by rewrite (bool_decide_eq_true_2 (e <= now)) by lia. }
  unfold consume. rewrite Hincr. unfold storage_set. simpl.
  rewrite decide_False by lia.
  eexists _, _. split; [done|]. split; [done|]. simpl.
  rewrite lookup_insert_eq. rewrite !decide_True by lia.
  by rewrite RateLimiterFacts.timer_delay_in_range by lia.
Qed.

Lemma consume_blocks key now l e :
  counter_is l key (points (opts l)) e → now < e →
  0 < blockDuration (opts l) → blockDuration (opts l) * 1000 <= TIMEOUT_MAX →
  ∃ rej l', consume key 1 now l = (inr rej, l')
            ∧ msBeforeNext rej = blockDuration (opts l) * 1000
            ∧ opts l' = opts l
            ∧ counter_is l' key (points (opts l) + 1)
                (now + blockDuration (opts l) * 1000).
Proof.
  unfold counter_is. intros Hk Hlive Hb Hmax.
  unfold consume, storage_incrby, timer_fired. rewrite Hk. simpl.
  rewrite (bool_decide_eq_false_2 (e <= now)) by lia.
  rewrite (bool_decide_eq_true_2 (0 < e - now)) by lia. simpl.
  rewrite decide_True by lia.
  rewrite (bool_decide_eq_true_2 (0 < blockDuration (opts l))) by done.
  rewrite bool_decide_eq_true_2 by lia. simpl.
  unfold storage_set. simpl.
  eexists _, _. split; [done|]. simpl.
  split; [by rewrite decide_False by lia|]. split; [done|].
  rewrite lookup_insert_eq. rewrite !decide_True by lia.
  by rewrite RateLimiterFacts.timer_delay_in_range by lia.
Qed.

Lemma attempts_granted cfg ip e ts :
  ∀ k self,
    conn_state cfg ip k e self →
    Forall (λ t, t < e) ts →
    k + Z.of_nat (length ts) <= connectionPoints cfg →
    ∃ self', attempts ip ts self = (replicate (length ts) granted, self')
             ∧ conn_state cfg ip (k + Z.of_nat (length ts)) e self'.
Proof.
  induction ts as [|t ts IH]; intros k self Hst Hts Hroom.
  - exists self. split; [done|]. simpl. by rewrite Z.add_0_r.
  - apply Forall_cons in Hts as [Ht Hts]. destruct Hst as [Hopts Hk].
    simpl length in Hroom.
    destruct (consume_counts ip t (connectionLimiter self) k e Hk Ht)
      as (res & l' & Hc & Hopts' & Hk'); [rewrite Hopts; simpl; lia|].
    destruct (IH (k + 1)
                {| config := config self; connectionLimiter := l';
                   messageLimiter := messageLimiter self;
                   globalMessageLimiter := globalMessageLimiter self |})
      as (self' & Hrun & Hst'); [split; simpl; congruence | done | lia |].
    exists self'. simpl. unfold checkConnection. rewrite Hc, Hrun.
    split; [done|]. simpl length.
    by replace (k + Z.of_nat (S (length ts))) with (k + 1 + Z.of_nat (length ts))
      by lia.
Qed.

(** X8. With a limit of [N] connections per window and a block once it is
    exceeded, the window and the block both being short enough for a
    timer (at most [TIMEOUT_MAX] milliseconds, about 24.8 days): the first
    attempt of an address opens a window, and it and the next [N - 1]
    attempts before the window ends are allowed; one more attempt before
    the window ends is denied, with the block duration as its
    retry-after; an attempt made once the block has elapsed is allowed
    again. *)
Theorem connection_limit_then_block
    (cfg : RateLimiterConfig) (ip : string) (t0 : Z) (rest : list Z)
    (t_deny t_again : Z) :
  1 <= connectionPoints cfg →
  0 < connectionDuration cfg →
  connectionDuration cfg * 1000 <= TIMEOUT_MAX →
  0 < connectionBlockDuration cfg →
  connectionBlockDuration cfg * 1000 <= TIMEOUT_MAX →
  Z.of_nat (length rest) = connectionPoints cfg - 1 →
  Forall (λ t, t < t0 + connectionDuration cfg * 1000) rest →
  t_deny < t0 + connectionDuration cfg * 1000 →
  t_deny + connectionBlockDuration cfg * 1000 <= t_again →
  fst (attempts ip (t0 :: rest ++ [t_deny; t_again]) (new cfg))
  = replicate (S (length rest)) granted
    ++ [ {| allowed := false; retryAfter := Some (connectionBlockDuration cfg) |};
         granted ].
Proof.
  intros HN Hd Hdmax Hb Hbmax Hlen Hrest Hdeny Hagain.
  set (e := t0 + connectionDuration cfg * 1000) in *.
  (* the first attempt opens the window *)
  destruct (consume_opens_window ip t0 (connectionLimiter (new cfg)))
    as (res0 & l0 & Hc0 & Ho0 & Hk0); [by left | done | done | done |].
  set (s0 := {| config := config (new cfg); connectionLimiter := l0;
                messageLimiter := messageLimiter (new cfg);
                globalMessageLimiter := globalMessageLimiter (new cfg) |}).
  assert (conn_state cfg ip 1 e s0) as Hs0 by (split; [exact Ho0 | exact Hk0]).
  (* the other attempts inside the window *)
  destruct (attempts_granted cfg ip e rest 1 s0 Hs0 Hrest) as (s1 & Hrun1 & Hs1);
    [lia|].
  replace (1 + Z.of_nat (length rest)) with (connectionPoints cfg) in Hs1 by lia.
  destruct Hs1 as [Ho1 Hk1].
  (* one attempt too many *)
  assert (points (opts (connectionLimiter s1)) = connectionPoints cfg) as Hp1
    by (by rewrite Ho1).
  rewrite <- Hp1 in Hk1.
  destruct (consume_blocks ip t_deny (connectionLimiter s1) e Hk1 Hdeny)
    as (rej & l2 & Hc2 & Hms & Ho2 & Hk2); [by rewrite Ho1 | by rewrite Ho1 |].
  (* after the block *)
  destruct (consume_opens_window ip t_again l2)
    as (res3 & l3 & Hc3 & _ & _).
  { right. eexists _, _. split; [exact Hk2|]. rewrite Ho1. simpl. lia. }
  { by rewrite Ho2, Ho1. }
  { by rewrite Ho2, Ho1. }
  { by rewrite Ho2, Ho1. }
  change (t0 :: rest ++ [t_deny; t_again]) with ([t0] ++ rest ++ [t_deny; t_again]).
  simpl. unfold checkConnection at 1. rewrite Hc0. fold s0.
  assert (∀ ts1 ts2 self,
            attempts ip (ts1 ++ ts2) self
            = (fst (attempts ip ts1 self)
               ++ fst (attempts ip ts2 (snd (attempts ip ts1 self))),
               snd (attempts ip ts2 (snd (attempts ip ts1 self)))))
    as Happ.
  { induction ts1 as [|t ts1 IH]; intros ts2 self; simpl.
    - by destruct (attempts ip ts2 self).
    - destruct (checkConnection ip t self) as [v self1]. rewrite IH.
      by destruct (attempts ip ts1 self1). }
  rewrite Happ, Hrun1. simpl.
  unfold checkConnection at 1. rewrite Hc2.
  unfold checkConnection at 1. simpl. rewrite Hc3. simpl.
  unfold denied. rewrite Hms, Ho1. simpl.
  by rewrite retry_after_of_seconds.
Qed.

Lemma connection_limit_then_block_witness :
  let cfg := {| connectionPoints := 2; connectionDuration := 60;
                connectionBlockDuration := 300;
                messagePoints := 100; messageDuration := 10;
                globalMessagePoints := 500; globalMessageDuration := 60 |} in
  fst (attempts "10.0.0.1" [0; 1000; 2000; 302000] (new cfg))
  = [granted; granted; {| allowed := false; retryAfter := Some 300 |}; granted].
Proof.
  intros cfg.
  assert (Forall (λ t, t < 0 + connectionDuration cfg * 1000) [1000]) as Hrest.
  { apply Forall_singleton. reflexivity. }
  exact (connection_limit_then_block cfg "10.0.0.1" 0 [1000] 2000 302000
           ltac:(discriminate) eq_refl ltac:(discriminate) eq_refl
           ltac:(discriminate) eq_refl Hrest eq_refl ltac:(discriminate)).
Defined.

Lemma consume_rejected_ms key now l rej l' :
  0 <= duration (opts l) →
  consume key 1 now l = (inr rej, l') →
  0 < msBeforeNext rej ∨ msBeforeNext rej = -1.
Proof.
  intros Hd. unfold consume.
  assert (∀ res s, storage_incrby key 1 (duration (opts l)) now (storage l) = (res, s)
                   → 0 < msBeforeNext res ∨ msBeforeNext res = -1) as Hincr.
  { intros res s. unfold storage_incrby, storage_set, timer_fired.
    destruct (storage l !! key) as [[k [e|] [ta|]]|]; simpl;
      RateLimiterFacts.arith_cases; simpl; intros [= <- <-]; simpl; lia. }
  destruct (storage_incrby _ _ _ _ _) as [res0 s1] eqn:Hi.
  specialize (Hincr res0 s1 eq_refl).
  case_decide; [|done].
  case_bool_decide as Hb; simpl.
  - case_bool_decide; simpl.
    + unfold storage_set. intros [= <- <-]. simpl. case_decide; lia.
    + by intros [= <- <-].
  - by intros [= <- <-].
Qed.

(** X9. A verdict is either "allowed" without a retry-after, or "denied"
    with a retry-after of at least one second, for connections and for
    messages alike, as long as the configured windows are not negative. *)
Theorem denial_carries_retry_after
    (key : string) (userId : option string) (now : Z) (self : RateLimiterService) :
  0 <= duration (opts (connectionLimiter self)) →
  0 <= duration (opts (messageLimiter self)) →
  0 <= duration (opts (globalMessageLimiter self)) →
  ∀ v, v = fst (checkConnection key now self)
       ∨ v = fst (checkMessage key userId now self) →
       (allowed v = true ∧ retryAfter v = None)
       ∨ (allowed v = false ∧ ∃ n, retryAfter v = Some n ∧ 1 <= n).
Proof.
  intros Hc Hm Hg v [-> | ->].
  - unfold checkConnection.
    destruct (consume key 1 now (connectionLimiter self)) as [[res|rej] l'] eqn:Hcons;
      simpl; [by left|].
    right. split; [done|]. eexists. split; [done|].
    apply retry_after_at_least_one. exact (consume_rejected_ms _ _ _ _ _ Hc Hcons).
  - unfold checkMessage.
    destruct (consume key 1 now (messageLimiter self)) as [[res|rej] l'] eqn:Hcons;
      simpl.
    + destruct userId as [u|]; [|by left].
      destruct (truthy u); [|by left].
      destruct (consume u 1 now (globalMessageLimiter self)) as [[res'|rej'] g']
        eqn:Hcons'; simpl; [by left|].
      right. split; [done|]. eexists. split; [done|].
      apply retry_after_at_least_one. exact (consume_rejected_ms _ _ _ _ _ Hg Hcons').
    + right. split; [done|]. eexists. split; [done|].
      apply retry_after_at_least_one. exact (consume_rejected_ms _ _ _ _ _ Hm Hcons).
Qed.

Lemma denial_carries_retry_after_witness :
  let cfg := {| connectionPoints := 0; connectionDuration := 60;
                connectionBlockDuration := 300;
                messagePoints := 100; messageDuration := 10;
                globalMessagePoints := 500; globalMessageDuration := 60 |} in
  let v := fst (checkConnection "10.0.0.1" 0 (new cfg)) in
  (allowed v = true ∧ retryAfter v = None)
  ∨ (allowed v = false ∧ ∃ n, retryAfter v = Some n ∧ 1 <= n).
Proof.
  intros cfg v.
  exact (denial_carries_retry_after "10.0.0.1" None 0 (new cfg)
           ltac:(discriminate) ltac:(discriminate) ltac:(discriminate)
           v (or_introl eq_refl)).
Defined.

(** X10. [checkMessage] never touches the connection-rate limiter. It
    leaves the per-user limiter alone when the connection has no user (or
    an empty user id), and also when the per-connection limit is what
    denies the message: a message refused for the connection costs the
    user nothing. *)
Theorem checkMessage_spares_user_budget
    (connectionId : string) (userId : option string) (now : Z)
    (self : RateLimiterService) :
  let after := snd (checkMessage connectionId userId now self) in
  connectionLimiter after = connectionLimiter self
  ∧ config after = config self
  ∧ (match userId with Some u => truthy u = false | None => True end →
     globalMessageLimiter after = globalMessageLimiter self)
  ∧ (∀ rej ml,
       consume connectionId 1 now (messageLimiter self) = (inr rej, ml) →
       allowed (fst (checkMessage connectionId userId now self)) = false
       ∧ globalMessageLimiter after = globalMessageLimiter self).
Proof.
  simpl. unfold checkMessage.
  destruct (consume connectionId 1 now (messageLimiter self)) as [[res|rej] ml]
    eqn:Hcons; simpl.
  - destruct userId as [u|]; simpl.
    + destruct (truthy u) eqn:Hu; simpl.
      * destruct (consume u 1 now (globalMessageLimiter self)) as [[?|?] ?]; simpl;
          (split; [done|]; split; [done|]; split; [done|]; by intros ? ? [=]).
      * split; [done|]. split; [done|]. split; [done|]. by intros ? ? [=].
    + split; [done|]. split; [done|]. split; [done|]. by intros ? ? [=].
  - split; [done|]. split; [done|]. split; [done|]. by intros ? ? _.
Qed.

(** X11. After [reset(key)] the connection [key] has its whole message
    budget again and, when that budget is at least one message, its next
    message is allowed; the budget of every other key is what it was. *)
Theorem reset_restores_budget
    (key key' : string) (now : Z) (self : RateLimiterService) :
  points (opts (messageLimiter self)) = messagePoints (config self) →
  1 <= messagePoints (config self) →
  getRemaining key now (reset key self) = messagePoints (config self)
  ∧ allowed (fst (checkMessage key None now (reset key self))) = true
  ∧ (key ≠ key' → getRemaining key' now (reset key self) = getRemaining key' now self).
Proof.
  intros Hwired Hone. split; [|split].
  - unfold getRemaining, reset, get, delete. simpl. by rewrite lookup_delete_eq.
  - unfold checkMessage, reset, consume, storage_incrby, storage_set, delete. simpl.
    rewrite lookup_delete_eq. simpl. rewrite decide_False by lia. done.
  - intros Hne. unfold getRemaining, reset, get, delete. simpl.
    by rewrite lookup_delete_ne.
Qed.

Lemma reset_restores_budget_witness :
  let self :=
    snd (checkMessage "c1" None 0 (new DEFAULT_RATE_LIMIT_CONFIG)) in
  getRemaining "c1" 1 self = 99
  ∧ getRemaining "c1" 1 (reset "c1" self) = 100.
Proof.
  intros self. split; [reflexivity|].
  exact (proj1 (reset_restores_budget "c1" "c2" 1 self eq_refl ltac:(discriminate))).
Defined.
End AdmissionFacts.

(** ** Roles and permissions *)

Module AuthFacts.
Import AuthService.

(** X12. Whatever the role, known or not, the permissions granted contain
    "view" and are among the owner's; "manage" is granted to the owner
    only, and "admin" to the owner and the admin only. *)
Theorem getPermissionsForRole_graded (role : option string) :
  "view" ∈ getPermissionsForRole role
  ∧ getPermissionsForRole role ⊆ getPermissionsForRole (Some "owner")
  ∧ ("manage" ∈ getPermissionsForRole role ↔ role = Some "owner")
  ∧ ("admin" ∈ getPermissionsForRole role
     ↔ role = Some "owner" ∨ role = Some "admin").
Proof.
  unfold getPermissionsForRole.
  repeat match goal with
         | |- context [decide (role = ?r)] =>
             destruct (decide (role = r)) as [->|?]
         end;
    (split; [|split; [intros x|split]]);
    rewrite ?list_elem_of_In; simpl;
    intuition (try discriminate; try congruence).
Qed.
End AuthFacts.

(** ** The worker pool: selection by load, round robin, late replacements *)

Module WorkerPoolFacts.
Import WorkerManager WorkerPool.

(** The order of floating-point numbers, as the comparisons compute it. *)
Ltac compare_cases :=
  repeat match goal with
         | |- context [Z.compare ?a ?b] => destruct (Z.compare_spec a b)
         | |- context [Pos.compare_cont Eq ?a ?b] =>
             change (Pos.compare_cont Eq a b) with (Pos.compare a b);
             destruct (Pos.compare_spec a b)
         end.

Lemma at_most_less_trans (x s m : Js.number) :
  Js.at_most x s = true → Js.less s m = true → Js.less x m = true.
Proof.
  unfold Js.at_most, Js.less, SpecFloat.SFleb, SpecFloat.SFltb, SpecFloat.SFcompare.
  destruct x as [[]|[]| |[] mx ex], s as [[]|[]| |[] ms es], m as [[]|[]| |[] mm em];
    simpl; try done; compare_cases; simpl; subst; try done; lia.
Qed.

Lemma less_at_most (a b : Js.number) : Js.less a b = true → Js.at_most a b = true.
Proof.
  unfold Js.at_most, Js.less, SpecFloat.SFleb, SpecFloat.SFltb.
  by destruct (SpecFloat.SFcompare a b) as [[]|].
Qed.

Lemma less_irrefl (a : Js.number) : Js.less a a = false.
Proof.
  unfold Js.less, SpecFloat.SFltb, SpecFloat.SFcompare.
  destruct a as [[]|[]| |[] m e]; simpl; try done;
    compare_cases; simpl; try done; lia.
Qed.

Lemma not_at_most_below (x s m : Js.number) :
  Js.less s m = true → Js.less x m = false → Js.at_most x s = false.
Proof.
  intros Hs Hx. destruct (Js.at_most x s) eqn:Hxs; [|done].
  by rewrite (at_most_less_trans x s m Hxs Hs) in Hx.
Qed.

Lemma not_less_below (x s m : Js.number) :
  Js.less s m = true → Js.less x m = false → Js.less x s = false.
Proof.
  intros Hs Hx. destruct (Js.less x s) eqn:Hxs; [|done].
  apply less_at_most in Hxs. by rewrite (not_at_most_below x s m Hs Hx) in Hxs.
Qed.

Lemma least_loaded_hole closed ws :
  ∀ i minLoad sel, None ∈ ws → least_loaded closed ws i minLoad sel = Throw "TypeError".
Proof.
  induction ws as [|[w|] ws IH]; intros i minLoad sel Hin.
  - by apply not_elem_of_nil in Hin.
  - apply elem_of_cons in Hin as [Hin|Hin]; [done|]. simpl.
    destruct (decide (handle (worker w) ∈ closed)); [by apply IH|].
    destruct (Js.less (loadScore w) minLoad); by apply IH.
  - done.
Qed.

Lemma lookup_snoc_Some {A} (l : list A) (x y : A) (j : nat) :
  (l ++ [x]) !! j = Some y → l !! j = Some y ∨ (j = length l ∧ y = x).
Proof.
  intros H. apply lookup_app_Some in H as [H|[Hle H]]; [by left|]. right.
  destruct (j - length l)%nat as [|k] eqn:Hk; simpl in H; [|done].
  split; [lia | congruence].
Qed.

Lemma selected_step closed pre w minLoad sel :
  selected closed pre minLoad sel →
  if decide (handle (worker w) ∈ closed) then
    selected closed (pre ++ [w]) minLoad sel
  else if Js.less (loadScore w) minLoad then
    selected closed (pre ++ [w]) (loadScore w) (length pre)
  else selected closed (pre ++ [w]) minLoad sel.
Proof.
  intros Hsel. destruct (decide (handle (worker w) ∈ closed)) as [Hclosed|Hopen].
  - (* a closed worker is skipped *)
    destruct Hsel as [(Hinf & Hzero & Hall)|(info & Hlook & Hop & Hm & Hmin)].
    + left. split; [done|]. split; [done|].
      apply Forall_app. split; [done|]. apply Forall_singleton.
      intros Hop. by destruct Hop.
    + right. exists info. split; [by apply lookup_app_l_Some|]. split; [done|].
      split; [done|]. intros j info' Hj Hop'.
      apply lookup_snoc_Some in Hj as [Hj|[-> ->]]; [by apply Hmin|].
      by destruct Hop'.
  - destruct (Js.less (loadScore w) minLoad) eqn:Hless.
    + (* a strictly better score: the worker is selected *)
      right. exists w. split; [by apply list_lookup_middle|]. split; [done|].
      split; [done|]. intros j info' Hj Hop'.
      apply lookup_snoc_Some in Hj as [Hj|[-> ->]].
      * assert (Js.less (loadScore info') minLoad = false) as Hnot.
        { destruct Hsel as [(-> & _ & Hall)|(info & _ & _ & _ & Hmin)].
          - rewrite Forall_forall in Hall. apply Hall; [|done].
            by apply list_elem_of_lookup_2 with j.
          - by apply (Hmin j info'). }
        split; [by apply (not_less_below _ _ minLoad)|].
        intros _. by apply (not_at_most_below _ _ minLoad).
      * split; [apply less_irrefl | lia].
    + (* not better: the selection stands *)
      destruct Hsel as [(Hinf & Hzero & Hall)|(info & Hlook & Hop & Hm & Hmin)].
      * left. split; [done|]. split; [done|].
        apply Forall_app. split; [done|]. apply Forall_singleton.
        intros _. by rewrite <- Hinf.
      * right. exists info. split; [by apply lookup_app_l_Some|]. split; [done|].
        split; [done|]. intros j info' Hj Hop'.
        apply lookup_snoc_Some in Hj as [Hj|[-> ->]]; [by apply Hmin|].
        split; [done|]. intros Hlt. apply lookup_lt_Some in Hlook. lia.
Qed.

Lemma least_loaded_selected closed rest :
  ∀ pre minLoad sel,
    selected closed pre minLoad sel →
    ∃ minLoad' sel',
      least_loaded closed (Some <$> rest) (length pre) minLoad sel = Ok sel'
      ∧ selected closed (pre ++ rest) minLoad' sel'.
Proof.
  induction rest as [|w rest IH]; intros pre minLoad sel Hsel.
  - exists minLoad, sel. by rewrite app_nil_r.
  - pose proof (selected_step closed pre w minLoad sel Hsel) as Hstep.
    simpl. rewrite (cons_middle w pre rest), app_assoc.
    replace (S (length pre)) with (length (pre ++ [w]))
      by (rewrite length_app; simpl; lia).
    destruct (decide (handle (worker w) ∈ closed)); [by apply IH|].
    destruct (Js.less (loadScore w) minLoad); by apply IH.
Qed.

Lemma getLeastLoadedWorker_selected wm infos :
  workers wm = Some <$> infos →
  ∃ minLoad sel,
    selected (closedWorkers wm) infos minLoad sel
    ∧ getLeastLoadedWorker wm
      = match infos !! sel with
        | Some info => Ok (worker info)
        | None => Throw "TypeError"
        end.
Proof.
  intros Hws.
  destruct (least_loaded_selected (closedWorkers wm) infos [] Js.Infinity 0%nat)
    as (minLoad & sel & Hrun & Hsel); [left; by repeat split|].
  exists minLoad, sel. split; [done|].
  unfold getLeastLoadedWorker. rewrite Hws. simpl in Hrun. rewrite Hrun.
  rewrite list_lookup_fmap. by destruct (infos !! sel).
Qed.

(** X13. On a pool without holes in which some open worker has a load
    score below [Infinity], [getLeastLoadedWorker] returns an open worker
    such that no open worker has a score strictly below its score, and no
    open worker in a lower slot has a score at most its score. The
    scores are the floating-point numbers the code computes, and are
    compared as it compares them. *)
Theorem getLeastLoadedWorker_least_open
    (wm : WorkerManager) (infos : list WorkerInfo) :
  workers wm = Some <$> infos →
  Exists (λ info, is_open (closedWorkers wm) info
                  ∧ Js.less (loadScore info) Js.Infinity = true) infos →
  ∃ i info,
    infos !! i = Some info
    ∧ getLeastLoadedWorker wm = Ok (worker info)
    ∧ is_open (closedWorkers wm) info
    ∧ ∀ j info', infos !! j = Some info' → is_open (closedWorkers wm) info' →
        Js.less (loadScore info') (loadScore info) = false
        ∧ ((j < i)%nat → Js.at_most (loadScore info') (loadScore info) = false).
Proof.
  intros Hws Hex.
  destruct (getLeastLoadedWorker_selected wm infos Hws) as (minLoad & sel & Hsel & Hget).
  destruct Hsel as [(_ & _ & Hall)|(info & Hlook & Hop & Hm & Hmin)].
  - exfalso. apply Exists_exists in Hex as (info & Hin & Hop & Hfinite).
    rewrite Forall_forall in Hall. by rewrite (Hall info Hin Hop) in Hfinite.
  - exists sel, info. rewrite Hlook in Hget. subst minLoad. done.
Qed.

Lemma getLeastLoadedWorker_least_open_witness :
  let w0 := {| handle := 0; worker_pid := 100 |} in
  let w1 := {| handle := 1; worker_pid := 101 |} in
  let infos :=
    [ {| worker := w0; routerCount := 1; pid := 100;
         usage := Some {| ru_utime := 3969; ru_stime := 0 |} |};
      {| worker := w1; routerCount := 0; pid := 101;
         usage := Some {| ru_utime := 1003969; ru_stime := 0 |} |} ] in
  let wm := {| workers := Some <$> infos; closedWorkers := ∅ |} in
  getLeastLoadedWorker wm = Ok w1
  ∧ ∃ i info,
      infos !! i = Some info
      ∧ getLeastLoadedWorker wm = Ok (worker info)
      ∧ is_open (closedWorkers wm) info
      ∧ ∀ j info', infos !! j = Some info' → is_open (closedWorkers wm) info' →
          Js.less (loadScore info') (loadScore info) = false
          ∧ ((j < i)%nat → Js.at_most (loadScore info') (loadScore info) = false).
Proof.
  intros w0 w1 infos wm. split; [reflexivity|].
  apply (getLeastLoadedWorker_least_open wm infos eq_refl).
  apply Exists_cons_hd. split; [|reflexivity].
  unfold is_open. simpl. apply not_elem_of_empty.
Defined.

(** X14. When every worker of the pool is closed, [getLeastLoadedWorker]
    still answers: it returns the closed worker of slot 0. Only an empty
    pool makes it throw. *)
Theorem getLeastLoadedWorker_all_closed
    (wm : WorkerManager) (infos : list WorkerInfo) :
  workers wm = Some <$> infos →
  Forall (λ info, handle (worker info) ∈ closedWorkers wm) infos →
  getLeastLoadedWorker wm
  = match infos with
    | [] => Throw "TypeError"
    | info :: _ => Ok (worker info)
    end.
Proof.
  intros Hws Hall.
  destruct (getLeastLoadedWorker_selected wm infos Hws) as (minLoad & sel & Hsel & Hget).
  destruct Hsel as [(_ & -> & _)|(info & Hlook & Hop & _)].
  - rewrite Hget. by destruct infos.
  - exfalso. rewrite Forall_forall in Hall. apply Hop, Hall.
    by apply list_elem_of_lookup_2 with sel.
Qed.

Lemma getLeastLoadedWorker_all_closed_witness :
  let w0 := {| handle := 0; worker_pid := 100 |} in
  let w1 := {| handle := 1; worker_pid := 101 |} in
  getLeastLoadedWorker
    (run [Initialize [Ok w0; Ok w1]; Died w0; Died w1])
  = Ok w0.
Proof.
  intros w0 w1.
  apply (getLeastLoadedWorker_all_closed
           (run [Initialize [Ok w0; Ok w1]; Died w0; Died w1])
           [fresh_slot w0; fresh_slot w1] eq_refl).
  repeat constructor; simpl; set_solver.
Defined.
End WorkerPoolFacts.

Module RoundRobinFacts.
Import WorkerManager WorkerPool.

Lemma getNextWorker_at wm infos i info :
  workers wm = Some <$> infos → infos !! i = Some info →
  getNextWorker wm (Some i)
  = (Ok (worker info), Some ((i + 1) mod length infos)%nat).
Proof.
  intros Hws Hi. unfold getNextWorker. simpl. rewrite Hws.
  rewrite list_lookup_fmap, Hi. simpl. rewrite length_fmap.
  apply lookup_lt_Some in Hi. by rewrite decide_False by lia.
Qed.

Lemma getNextWorker_times_run wm infos :
  workers wm = Some <$> infos →
  ∀ k i, (i < length infos)%nat → (i + k ≤ length infos)%nat →
    getNextWorker_times k wm (Some i)
    = (Ok ∘ worker <$> take k (drop i infos), Some ((i + k) mod length infos)%nat).
Proof.
  intros Hws. induction k as [|k IH]; intros i Hi Hk.
  - simpl. by rewrite Nat.add_0_r, Nat.mod_small.
  - destruct (lookup_lt_is_Some_2 infos i Hi) as [info Hinfo].
    simpl. rewrite (getNextWorker_at wm infos i info Hws Hinfo).
    rewrite (drop_S infos info i Hinfo). simpl.
    replace (i + S k)%nat with (i + 1 + k)%nat by lia.
    destruct (decide (i + 1 = length infos)%nat) as [Hend|Hmore].
    + assert (k = 0%nat) as -> by lia. simpl.
      by rewrite Nat.add_0_r.
    + rewrite (Nat.mod_small (i + 1)) by lia.
      rewrite IH by lia. by replace (i + 1)%nat with (S i) by lia.
Qed.

Lemma getNextWorker_times_app wm a b idx :
  getNextWorker_times (a + b) wm idx
  = (fst (getNextWorker_times a wm idx)
     ++ fst (getNextWorker_times b wm (snd (getNextWorker_times a wm idx))),
     snd (getNextWorker_times b wm (snd (getNextWorker_times a wm idx)))).
Proof.
  revert idx. induction a as [|a IH]; intros idx; simpl.
  - by destruct (getNextWorker_times b wm idx).
  - destruct (getNextWorker wm idx) as [r next]. rewrite IH.
    by destruct (getNextWorker_times a wm next).
Qed.

(** X15. Round robin: on a pool of [n] workers without holes, with the
    index at [i < n], [n] calls of [getNextWorker] in a row return every
    worker of the pool exactly once, in slot order starting at slot [i]
    and wrapping round, and leave the index at [i] again. Closed workers
    are not skipped. *)
Theorem getNextWorker_visits_every_worker
    (wm : WorkerManager) (infos : list WorkerInfo) (i : nat) :
  workers wm = Some <$> infos →
  (i < length infos)%nat →
  getNextWorker_times (length infos) wm (Some i)
  = (Ok ∘ worker <$> rotate i infos, Some i).
Proof.
  intros Hws Hi.
  replace (length infos) with ((length infos - i) + i)%nat at 1 by lia.
  rewrite getNextWorker_times_app.
  rewrite (getNextWorker_times_run wm infos Hws (length infos - i) i) by lia.
  simpl. replace (i + (length infos - i))%nat with (length infos) by lia.
  rewrite Nat.Div0.mod_same.
  rewrite (getNextWorker_times_run wm infos Hws i 0) by lia. simpl.
  rewrite drop_0, (Nat.mod_small i) by lia.
  unfold rotate. rewrite (Nat.mod_small i) by lia.
  rewrite fmap_app. f_equal. f_equal.
  rewrite take_ge; [done|]. rewrite length_drop. lia.
Qed.

Lemma getNextWorker_visits_every_worker_witness :
  let w0 := {| handle := 0; worker_pid := 100 |} in
  let w1 := {| handle := 1; worker_pid := 101 |} in
  let w2 := {| handle := 2; worker_pid := 102 |} in
  getNextWorker_times 3 (run [Initialize [Ok w0; Ok w1; Ok w2]; Died w2]) (Some 1%nat)
  = ([Ok w1; Ok w2; Ok w0], Some 1%nat).
Proof.
  intros w0 w1 w2.
  exact (getNextWorker_visits_every_worker
           (run [Initialize [Ok w0; Ok w1; Ok w2]; Died w2])
           [fresh_slot w0; fresh_slot w1; fresh_slot w2] 1 eq_refl
           ltac:(simpl; lia)).
Defined.

(** X16. A call of [getNextWorker] on an empty pool throws and turns the
    index into NaN; from then on every call throws and the index stays
    NaN, whatever workers the pool has by then. *)
Theorem getNextWorker_empty_pool_poisons_index
    (wm : WorkerManager) (i : nat) :
  workers wm = [] →
  getNextWorker wm (Some i) = (Throw "TypeError", None)
  ∧ ∀ wm' n,
      getNextWorker_times n wm' None = (replicate n (Throw "TypeError"), None).
Proof.
  intros Hws. split.
  - unfold getNextWorker. rewrite Hws. simpl. done.
  - intros wm' n. induction n as [|n IH]; [done|].
    simpl. by rewrite IH.
Qed.

Lemma getNextWorker_empty_pool_poisons_index_witness :
  let w0 := {| handle := 0; worker_pid := 100 |} in
  let next := snd (getNextWorker new (Some 0%nat)) in
  getNextWorker_times 2 (run [Initialize [Ok w0]]) next
  = ([Throw "TypeError"; Throw "TypeError"], None).
Proof.
  intros w0 next.
  exact (proj2 (getNextWorker_empty_pool_poisons_index new 0 eq_refl)
           (run [Initialize [Ok w0]]) 2%nat).
Defined.

(** X17. A replacement worker stored past the end of the array (the
    restart of a worker that died lands after a shutdown has emptied the
    pool, say) leaves holes in the array, and from then on
    [getLeastLoadedWorker] throws. *)
Theorem late_replacement_breaks_selection
    (wm : WorkerManager) (index : nat) (newWorker : Worker) :
  (length (workers wm) < index)%nat →
  let wm' := handleWorkerDeath index (Ok newWorker) wm in
  getWorkerCount wm' = Z.of_nat index + 1
  ∧ workers wm' !! length (workers wm) = Some None
  ∧ workers wm' !! index = Some (Some (fresh_slot newWorker))
  ∧ getLeastLoadedWorker wm' = Throw "TypeError".
Proof.
  intros Hlate. simpl. unfold handleWorkerDeath, getWorkerCount, with_workers.
  simpl. unfold array_set. rewrite decide_False by lia.
  destruct (index - length (workers wm))%nat as [|d] eqn:Hd; [lia|].
  split; [|split; [|split]].
  - rewrite !length_app, length_replicate. simpl. lia.
  - rewrite lookup_app_r by lia. by rewrite Nat.sub_diag.
  - rewrite lookup_app_r by lia. rewrite Hd.
    rewrite lookup_app_r by (rewrite length_replicate; lia).
    by rewrite length_replicate, Nat.sub_diag.
  - unfold getLeastLoadedWorker. simpl.
    rewrite WorkerPoolFacts.least_loaded_hole; [done|].
    apply elem_of_app. right. simpl. apply elem_of_cons. by left.
Qed.
Lemma late_replacement_breaks_selection_witness :
  let w0 := {| handle := 0; worker_pid := 100 |} in
  let w1 := {| handle := 1; worker_pid := 101 |} in
  let w2 := {| handle := 2; worker_pid := 102 |} in
  getLeastLoadedWorker
    (run [Initialize [Ok w0; Ok w1]; Died w1; Shutdown; HandleWorkerDeath 1 (Ok w2)])
  = Throw "TypeError".
Proof.
  intros w0 w1 w2.
  exact (proj2 (proj2 (proj2
           (late_replacement_breaks_selection
              (run [Initialize [Ok w0; Ok w1]; Died w1; Shutdown]) 1 w2
              ltac:(simpl; lia))))).
Defined.

(** X18. [initialize] creates the workers in order and stops at the first
    one that cannot be created: the call is rejected with that error,
    and the workers created before it stay in the pool, each with no
    router and no usage sample. Without a failure every worker is in the
    pool, in order. *)
Theorem initialize_stops_at_first_failure
    (ws : list Worker) (e : string) (rest : list (result Worker))
    (wm : WorkerManager) :
  let pool := with_workers wm (workers wm ++ (Some ∘ fresh_slot <$> ws)) in
  initialize ((Ok <$> ws) ++ Throw e :: rest) wm = (Throw e, pool)
  ∧ initialize (Ok <$> ws) wm = (Ok tt, pool).
Proof.
  simpl. revert wm. induction ws as [|w ws IH]; intros wm.
  - simpl. rewrite app_nil_r. by destruct wm.
  - destruct (IH (with_workers wm (workers wm ++ [Some (fresh_slot w)])))
      as [Hfail Hok].
    rewrite fmap_cons. simpl initialize. rewrite Hfail, Hok.
    unfold with_workers. simpl. by rewrite <- app_assoc.
Qed.

Lemma find_index_alter (f : WorkerInfo → WorkerInfo) ws w :
  (∀ info, worker (f info) = worker info) →
  ∀ i k, find_index (alter (fmap f) i ws) w k = find_index ws w k.
Proof.
  intros Hf. induction ws as [|[info|] ws IH]; intros i k; [done| |].
  - destruct i as [|i]; simpl.
    + by rewrite Hf.
    + case_decide; [done|]. apply IH.
  - by destruct i.
Qed.

Lemma list_alter_twice {A} (f g : A → A) (l : list A) :
  ∀ i, alter f i (alter g i l) = alter (f ∘ g) i l.
Proof.
  induction l as [|x l IH]; intros [|i]; simpl; [done..|].
  f_equal. apply IH.
Qed.

(** X19. Counting a router on a worker and then uncounting it leaves the
    pool exactly as it was, whether the worker is tracked or not, as long
    as no tracked count is negative. *)
Theorem increment_then_decrement_restores (w : Worker) (wm : WorkerManager) :
  counts_nonneg (workers wm) →
  snd (decrementRouterCount w (snd (incrementRouterCount w wm))) = wm.
Proof.
  intros Hnn. unfold incrementRouterCount.
  destruct (find_index (workers wm) w 0) as [[i|]|e] eqn:Hfind; simpl.
  - destruct (WorkerManagerFacts.find_index_spec _ _ _ _ Hfind)
      as (_ & info & Hi & _).
    rewrite Nat.sub_0_r in Hi.
    unfold decrementRouterCount. simpl.
    rewrite find_index_alter by done. rewrite Hfind.
    rewrite list_lookup_alter_eq, Hi. simpl.
    unfold counts_nonneg in Hnn. rewrite Forall_lookup in Hnn.
    rewrite decide_True by (specialize (Hnn i _ Hi info eq_refl); lia).
    simpl. unfold with_workers. simpl.
    rewrite list_alter_twice.
    rewrite list_alter_id; [by destruct wm|].
    intros [[wk rc p u]|]; [|done]. simpl. unfold add_routers. simpl.
    do 2 f_equal. lia.
  - unfold decrementRouterCount. by rewrite Hfind.
  - unfold decrementRouterCount. by rewrite Hfind.
Qed.

Lemma increment_then_decrement_restores_witness :
  let w0 := {| handle := 0; worker_pid := 100 |} in
  let w1 := {| handle := 1; worker_pid := 101 |} in
  let wm := run [Initialize [Ok w0; Ok w1]; IncrementRouterCount w1] in
  routerCountAt (snd (incrementRouterCount w1 wm)) 1 = Some 2
  ∧ snd (decrementRouterCount w1 (snd (incrementRouterCount w1 wm))) = wm.
Proof.
  intros w0 w1 wm. split; [reflexivity|].
  apply (increment_then_decrement_restores w1 wm).
  repeat constructor; intros info [= <-]; simpl; lia.
Defined.
End RoundRobinFacts.

(** ** The life of a routing context on the media node *)

Module LifecycleFacts.
Import RouterManager.








(** X21. On an existing router: a transport is created, a producer is
    created on it, and a consumer of that producer on the same transport is
    granted and names the producer; the producer is listed by
    [getProducers]. Once [closeProducer] has closed it (one close call on
    the engine), consuming it throws "Producer not found" and pausing it
    does nothing. *)
Theorem produce_consume_then_close
    (routerId : string) (d : RoomManager.Direction) (sctp : option Any)
    (t : Transport) (k : RoomManager.MediaKind) (rtp : Any) (app : option Any)
    (p : Producer) (caps : Any) (c : Consumer)
    (self : RouterManager) (rr : RoomRouter) :
  getRouter routerId self = Some rr →
  let s1 := snd (createTransport routerId d sctp (Ok t) self) in
  let s2 := snd (produce routerId (transport_id t) k rtp app (Ok p) s1) in
  let s3 := fst (closeProducer routerId (producer_id p) s2) in
  fst (produce routerId (transport_id t) k rtp app (Ok p) s1) = Ok p
  ∧ fst (consume routerId (transport_id t) (producer_id p) caps true (Ok c) s2)
    = Ok (Some {| info_id := consumer_id c; info_producerId := producer_id p;
                  info_kind := consumer_kind c;
                  info_rtpParameters := consumer_rtpParameters c;
                  info_appData := consumer_appData c |})
  ∧ p ∈ RouterQueries.getProducers routerId s2
  ∧ snd (closeProducer routerId (producer_id p) s2) = [producer_close (producer_id p)]
  ∧ consume routerId (transport_id t) (producer_id p) caps true (Ok c) s3
    = (Throw ("Producer not found: " +:+ producer_id p), s3)
  ∧ pauseProducer routerId (producer_id p) s3 = [].
Proof.
  unfold getRouter. intros Hget. simpl.
  unfold createTransport. rewrite Hget. simpl.
  unfold produce. simpl. rewrite JsMapFacts.get_set_eq. simpl.
  rewrite JsMapFacts.get_set_eq. simpl.
  split; [done|].
  unfold consume. simpl. rewrite !JsMapFacts.get_set_eq. simpl.
  rewrite !JsMapFacts.get_set_eq. simpl.
  split; [done|].
  unfold RouterQueries.getProducers. simpl. rewrite JsMapFacts.get_set_eq. simpl.
  split.
  { apply list_elem_of_In, in_map_iff. exists (producer_id p, p). split; [done|].
    apply list_elem_of_In, JsMapFacts.get_Some_elem, JsMapFacts.get_set_eq. }
  unfold closeProducer. simpl. rewrite !JsMapFacts.get_set_eq. simpl.
  rewrite !JsMapFacts.get_set_eq. simpl.
  split; [done|].
  rewrite !JsMapFacts.get_set_eq. simpl.
  rewrite !JsMapFacts.get_set_eq, JsMapFacts.get_delete_eq.
  split; [done|].
  unfold pauseProducer. simpl. rewrite !JsMapFacts.get_set_eq. simpl.
  by rewrite JsMapFacts.get_delete_eq.
Qed.

Lemma produce_consume_then_close_witness :
  let w0 := {| WorkerManager.handle := 0; WorkerManager.worker_pid := 100 |} in
  let r := {| router_handle := 7; rtpCapabilities := "{ codecs: [] }" |} in
  let t := {| transport_id := "t1"; iceParameters := "{}"; iceCandidates := "[]";
              dtlsParameters := "{}"; sctpParameters := None |} in
  let p := {| producer_id := "p1"; producer_kind := RoomManager.video;
              producer_rtpParameters := "{}"; producer_appData := "{}" |} in
  let c := {| consumer_id := "c1"; consumer_kind := RoomManager.video;
              consumer_rtpParameters := "{}"; consumer_appData := "{}" |} in
  let self :=
    fst (run (WorkerManager.run [WorkerManager.Initialize [Ok w0]]) "sfu-1"
           {| Redis.client := Some Redis.empty_db |}
           [ CreateRouter "room-1" "uuid-1" 0 (Ok r) (Ok tt);
             CreateTransport "uuid-1" RoomManager.send None (Ok t);
             Produce "uuid-1" "t1" RoomManager.video "{}" None (Ok p);
             CloseProducer "uuid-1" "p1" ]) in
  fst (consume "uuid-1" "t1" "p1" "{}" true (Ok c) self)
  = Throw "Producer not found: p1".
Proof.
  intros w0 r t p c self.
  pose (s0 := fst (run (WorkerManager.run [WorkerManager.Initialize [Ok w0]]) "sfu-1"
                     {| Redis.client := Some Redis.empty_db |}
                     [ CreateRouter "room-1" "uuid-1" 0 (Ok r) (Ok tt) ])).
  destruct (produce_consume_then_close "uuid-1" RoomManager.send None t
              RoomManager.video "{}" None p "{}" c s0
              {| id := "uuid-1"; roomId := "room-1"; router := r; worker := w0;
                 transports := []; producers := []; consumers := [];
                 createdAt := 0 |} eq_refl)
    as (_ & _ & _ & _ & Hthrow & _).
  exact (f_equal fst Hthrow).
Defined.









End LifecycleFacts.

(** ** The gateway: what requests, broadcasts, pings and disconnects do *)

Module TrafficFacts.
Import SignalingServer Traffic.

Lemma send_stays_open c m : Forall (λ e, stays_open e = true) (send c m).
Proof. unfold send. destruct (readyState c); by repeat constructor. Qed.

Lemma elem_of_broadcast room ex m srv e :
  e ∈ broadcastToRoom room ex m srv
  ↔ ∃ c, c ∈ JsMap.values (clients srv)
         ∧ roomId c = Some room ∧ id c ≠ ex ∧ readyState c = OPEN
         ∧ e = Send (id c) m.
Proof.
  unfold broadcastToRoom. rewrite list_elem_of_In, in_flat_map. split.
  - intros (c & Hc & He). exists c. rewrite list_elem_of_In.
    destruct (bool_decide (roomId c = Some room)) eqn:Hroom; simpl in He; [|done].
    destruct (bool_decide (id c ≠ ex)) eqn:Hex; simpl in He; [|done].
    apply bool_decide_eq_true_1 in Hroom, Hex.
    unfold send in He. destruct (readyState c) eqn:Hst; simpl in He; try done.
    destruct He as [<-|[]]. done.
  - intros (c & Hc & Hroom & Hex & Hst & ->). exists c.
    rewrite <- list_elem_of_In. split; [done|].
    rewrite (bool_decide_eq_true_2 _ Hroom), (bool_decide_eq_true_2 _ Hex). simpl.
    unfold send. rewrite Hst. by left.
Qed.

Lemma broadcast_stays_open room ex m srv :
  Forall (λ e, stays_open e = true) (broadcastToRoom room ex m srv).
Proof.
  apply Forall_forall. intros e He.
  by apply elem_of_broadcast in He as (c & _ & _ & _ & _ & ->).
Qed.

Lemma invokes_stay_open {A} method room (l : list A) :
  Forall (λ e, stays_open e = true) (map (λ _, Invoke method room) l).
Proof. induction l; by constructor. Qed.

Lemma keys_update_client cid f srv :
  JsMap.keys (clients (update_client cid f srv)) = JsMap.keys (clients srv).
Proof.
  unfold update_client. destruct (JsMap.get (clients srv) cid) eqn:Hget; [|done].
  simpl. by apply JsMapFacts.keys_set_present.
Qed.

Lemma sfuManager_update_client cid f srv :
  sfuManager (update_client cid f srv) = sfuManager srv.
Proof. unfold update_client. by destruct (JsMap.get (clients srv) cid). Qed.

Ltac stays :=
  repeat first
    [ apply Forall_nil_2
    | apply send_stays_open
    | apply broadcast_stays_open
    | apply invokes_stay_open
    | apply Forall_app_2
    | apply Forall_cons_2; [reflexivity|] ].

Lemma cleanupClientRoom_quiet c srv :
  Forall (λ e, stays_open e = true) (snd (cleanupClientRoom c srv))
  ∧ JsMap.keys (clients (fst (cleanupClientRoom c srv))) = JsMap.keys (clients srv)
  ∧ sfuManager (fst (cleanupClientRoom c srv)) = sfuManager srv.
Proof.
  unfold cleanupClientRoom.
  destruct (present (roomId c)), (present (participantId c)); simpl;
    try (split; [stays | done]).
  destruct (RoomManager.leaveRoom _ _ _ _) as [rm redis]. simpl.
  split; [unfold sendError; stays|].
  by rewrite keys_update_client, sfuManager_update_client.
Qed.

Section Collaborators.
Variable verifyToken : string → result Auth.AuthenticatedUser.
Variable verifyOrganizationMembership : string → string → result bool.
Variable process_env : string → option string.

Lemma handleMessage_quiet c m now srv :
  let r := handleMessage verifyToken verifyOrganizationMembership process_env
             c m now srv in
  Forall (λ e, stays_open e = true) (snd r)
  ∧ JsMap.keys (clients (fst r)) = JsMap.keys (clients srv)
  ∧ sfuManager (fst r) = sfuManager srv.
Proof.
  simpl. destruct m; simpl.
  - unfold handleAuthenticate, sendError.
    destruct (verifyToken token) as [u|]; [|split; [stays | done]].
    destruct (verifyOrganizationMembership _ _) as [[|]|]; simpl;
      (split; [stays|]);
      by rewrite ?keys_update_client, ?sfuManager_update_client.
  - unfold handleJoinRoom, sendError.
    destruct (user c) as [u|]; [|split; [stays | done]].
    destruct (RoomManager.joinRoom _ _ _ _ _ _ _ _ _) as [[[info|e] rm] redis];
      simpl; [|split; [stays | done]].
    destruct rtpCapabilities; simpl; (split; [stays|]);
      by rewrite ?keys_update_client, ?sfuManager_update_client.
  - unfold handleLeaveRoom.
    pose proof (cleanupClientRoom_quiet c srv).
    destruct (present (roomId c)), (present (participantId c)); simpl;
      first [done | split; [stays | done]].
  - unfold handleCreateTransport, sendError.
    destruct (present (roomId c)), (present (participantId c)); simpl;
      try (split; [stays | done]).
    split; [stays|].
    by rewrite ?keys_update_client, ?sfuManager_update_client.
  - unfold handleConnectTransport, sendError.
    destruct (present (roomId c)); simpl; (split; [stays | done]).
  - unfold handleProduce, sendError.
    destruct (present (roomId c)), (present (participantId c)); simpl;
      try (split; [stays | done]).
    split; [destruct (user c); stays|].
    by rewrite ?keys_update_client, ?sfuManager_update_client.
  - unfold handleConsume, sendError.
    destruct (present (roomId c)), (present (participantId c)); simpl;
      try (split; [stays | done]).
    split; [stays|].
    by rewrite ?keys_update_client, ?sfuManager_update_client.
  - unfold handleResumeConsumer.
    destruct (present (roomId c)); simpl; (split; [stays | done]).
  - unfold handlePauseProducer.
    destruct (present (roomId c)); simpl; (split; [stays | done]).
  - unfold handleResumeProducer.
    destruct (present (roomId c)); simpl; (split; [stays | done]).
  - unfold handleCloseProducer.
    destruct (present (roomId c)); simpl; [|split; [stays | done]].
    split; [stays|].
    by rewrite ?keys_update_client, ?sfuManager_update_client.
  - unfold handleSetPreferredLayers.
    destruct (present (roomId c)); simpl; (split; [stays | done]).
  - unfold handleGetRouterRtpCapabilities. split; [stays | done].
  - unfold sendError. split; [stays | done].
Qed.

(** X24. Whatever a connection sends, parsable or not, within its rate
    limit or beyond, the gateway answers only by sending messages and by
    calling the room manager: no socket is closed, terminated or pinged,
    no connection is registered or dropped, and the registry of media
    nodes is left alone. *)
Theorem messages_never_close_connections
    (clientId : string) (parsed : option ClientMessage) (now : Z)
    (srv : SignalingServer) :
  let r := onMessage verifyToken verifyOrganizationMembership process_env
             clientId parsed now srv in
  Forall (λ e, stays_open e = true) (snd r)
  ∧ JsMap.keys (clients (fst r)) = JsMap.keys (clients srv)
  ∧ sfuManager (fst r) = sfuManager srv.
Proof.
  simpl. unfold onMessage.
  destruct (JsMap.get (clients srv) clientId) as [c|]; [|split; [stays | done]].
  destruct (RateLimiter.checkMessage _ _ _ _) as [check rl].
  destruct (RateLimiter.allowed check).
  - destruct parsed as [m|].
    + apply (handleMessage_quiet c m now (with_rateLimiter srv rl)).
    + unfold sendError. split; [stays | done].
  - unfold sendError. split; [stays | done].
Qed.
End Collaborators.
End TrafficFacts.

(** ** Disconnects, keep-alive and joining *)

Module SessionFacts.
Import SignalingServer Traffic.

Lemma get_update_client_ne cid f srv k :
  k ≠ cid →
  JsMap.get (clients (update_client cid f srv)) k = JsMap.get (clients srv) k.
Proof.
  intros Hne. unfold update_client.
  destruct (JsMap.get (clients srv) cid); [|done]. simpl.
  by rewrite JsMapFacts.get_set_ne.
Qed.

Lemma cleanupClientRoom_others c srv :
  (∀ k, k ≠ id c →
        JsMap.get (clients (fst (cleanupClientRoom c srv))) k
        = JsMap.get (clients srv) k)
  ∧ (∀ m, Send (id c) m ∉ snd (cleanupClientRoom c srv)).
Proof.
  unfold cleanupClientRoom.
  destruct (present (roomId c)) as [room|], (present (participantId c)) as [pid|];
    simpl; try (split; [done | intros m; apply not_elem_of_nil]).
  destruct (RoomManager.leaveRoom _ _ _ _) as [rm redis]. simpl. split.
  - intros k Hk. by rewrite get_update_client_ne.
  - intros m Hin. apply elem_of_app in Hin as [Hin|Hin].
    + apply list_elem_of_In, in_map_iff in Hin as (? & ? & _). done.
    + apply elem_of_cons in Hin as [?|Hin]; [done|].
      apply TrafficFacts.elem_of_broadcast in Hin as (c' & _ & _ & Hne & _ & Heq).
      congruence.
Qed.

(** X25. When a connection closes, its entry leaves the registry and every
    other entry of the registry is left exactly as it was; nothing is sent
    to the closed connection, and no other socket is closed, terminated or
    pinged. *)
Theorem onClose_removes_only_that_connection
    (clientId : string) (srv : SignalingServer) :
  clients_ok (clients srv) →
  JsMap.get (clients (fst (onClose clientId srv))) clientId = None
  ∧ (∀ k, k ≠ clientId →
          JsMap.get (clients (fst (onClose clientId srv))) k
          = JsMap.get (clients srv) k)
  ∧ Forall (λ e, stays_open e = true) (snd (onClose clientId srv))
  ∧ (∀ m, Send clientId m ∉ snd (onClose clientId srv)).
Proof.
  intros Hok. unfold onClose.
  destruct (JsMap.get (clients srv) clientId) as [c|] eqn:Hget.
  - destruct (Hok _ _ Hget) as [Hid _]. unfold cleanupClient.
    destruct (TrafficFacts.cleanupClientRoom_quiet c srv) as (Hquiet & _ & _).
    destruct (cleanupClientRoom_others c srv) as [Hothers Hnone].
    destruct (cleanupClientRoom c srv) as [srv1 out]. simpl in *.
    split; [apply JsMapFacts.get_delete_eq|].
    split; [|split; [done | by rewrite <- Hid]].
    intros k Hk. rewrite JsMapFacts.get_delete_ne by done.
    apply Hothers. congruence.
  - simpl. split; [done|]. split; [done|]. split; [constructor|].
    intros m. apply not_elem_of_nil.
Qed.

Lemma onClose_removes_only_that_connection_witness :
  let c1 := {| id := "c1"; readyState := OPEN; user := None; roomId := None;
               participantId := None; transportIds := []; producerIds := [];
               consumerIds := []; lastPing := 0; ip := "10.0.0.1" |} in
  let c2 := {| id := "c2"; readyState := OPEN; user := None; roomId := None;
               participantId := None; transportIds := []; producerIds := [];
               consumerIds := []; lastPing := 0; ip := "10.0.0.2" |} in
  let srv := {| clients := [("c1", c1); ("c2", c2)];
                roomManager := RoomManager.new; sfuManager := SFUManager.new;
                redisService := {| Redis.client := None |};
                rateLimiter := RateLimiter.new RateLimiter.DEFAULT_RATE_LIMIT_CONFIG |} in
  JsMap.get (clients (fst (onClose "c1" srv))) "c1" = None
  ∧ JsMap.get (clients (fst (onClose "c1" srv))) "c2" = Some c2.
Proof.
  intros c1 c2 srv.
  assert (clients_ok (clients srv)) as Hok.
  { intros k c. simpl.
    destruct (decide (k = "c1")) as [->|?]; [by intros [= <-]|].
    destruct (decide (k = "c2")) as [->|?]; [by intros [= <-]|done]. }
  destruct (onClose_removes_only_that_connection "c1" srv Hok)
    as (Hgone & Hothers & _).
  split; [exact Hgone|].
  exact (Hothers "c2" ltac:(discriminate)).
Defined.

Lemma elem_get_wf {V} (m : list (string * V)) k v :
  JsMap.wf m → (k, v) ∈ m → JsMap.get m k = Some v.
Proof.
  unfold JsMap.wf. induction m as [|[k' v'] m IH]; simpl.
  - by intros _ ?%elem_of_nil.
  - rewrite NoDup_cons. intros [Hni Hnd] Hin.
    apply elem_of_cons in Hin as [[= -> ->]|Hin]; [by rewrite decide_True|].
    rewrite decide_False; [by apply IH|].
    intros ->. apply Hni. by apply (list_elem_of_fmap_2 fst) in Hin.
Qed.

Lemma registered_value (srv : SignalingServer) c :
  JsMap.wf (clients srv) → clients_ok (clients srv) →
  c ∈ JsMap.values (clients srv) ↔ JsMap.get (clients srv) (id c) = Some c.
Proof.
  intros Hwf Hok. split.
  - intros Hin. apply list_elem_of_fmap in Hin as [[k c'] [-> Hin]]. simpl.
    pose proof (elem_get_wf _ _ _ Hwf Hin) as Hget.
    destruct (Hok _ _ Hget) as [Hid _]. simpl in Hid. by rewrite Hid.
  - intros Hget. apply JsMapFacts.get_Some_elem in Hget.
    by apply (list_elem_of_fmap_2 snd) in Hget.
Qed.

(** X26. The keep-alive round changes nothing in the gateway. It
    terminates exactly the registered connections whose last pong is more
    than 60 seconds old, and pings exactly the others that have an open
    socket. A connection whose pong arrived at most 60 seconds before the
    round is not terminated by it. *)
Theorem pingClients_terminates_exactly_the_stale
    (now : Z) (srv : SignalingServer) (cid : string) :
  JsMap.wf (clients srv) →
  clients_ok (clients srv) →
  fst (pingClients now srv) = srv
  ∧ (Terminate cid ∈ snd (pingClients now srv)
     ↔ ∃ c, JsMap.get (clients srv) cid = Some c ∧ stale now c)
  ∧ (Ping cid ∈ snd (pingClients now srv)
     ↔ ∃ c, JsMap.get (clients srv) cid = Some c ∧ ¬ stale now c
            ∧ readyState c = OPEN)
  ∧ (∀ t, now - t <= 60000 →
          Terminate cid ∉ snd (pingClients now (fst (onPong cid t srv)))).
Proof.
  intros Hwf Hok.
  assert (∀ srv', JsMap.wf (clients srv') → clients_ok (clients srv') →
            (Terminate cid ∈ snd (pingClients now srv')
             ↔ ∃ c, JsMap.get (clients srv') cid = Some c ∧ stale now c)) as Hterm.
  { intros srv' Hwf' Hok'. unfold pingClients, stale. simpl.
    rewrite list_elem_of_In, in_flat_map. split.
    - intros (c & Hc & Hin). exists c.
      apply list_elem_of_In, (registered_value srv' c Hwf' Hok') in Hc.
      destruct (decide (60000 < now - lastPing c)) as [Hst|Hst].
      + destruct Hin as [[= <-]|[]]. done.
      + destruct (readyState c); simpl in Hin; try done.
        by destruct Hin as [?|[]].
    - intros (c & Hget & Hst). exists c.
      destruct (Hok' _ _ Hget) as [Hid _]. subst cid.
      split; [by apply list_elem_of_In, registered_value|].
      rewrite decide_True by done. by left. }
  split; [done|]. split; [by apply Hterm|]. split.
  - unfold pingClients, stale. simpl.
    rewrite list_elem_of_In, in_flat_map. split.
    + intros (c & Hc & Hin). exists c.
      apply list_elem_of_In, (registered_value srv c Hwf Hok) in Hc.
      destruct (decide (60000 < now - lastPing c)) as [Hst|Hst].
      * by destruct Hin as [?|[]].
      * destruct (readyState c); simpl in Hin; try done.
        destruct Hin as [[= <-]|[]]. done.
    + intros (c & Hget & Hst & Hopen). exists c.
      destruct (Hok _ _ Hget) as [Hid _]. subst cid.
      split; [by apply list_elem_of_In, registered_value|].
      rewrite decide_False by done. rewrite Hopen. by left.
  - intros t Ht Hin. unfold onPong in Hin. simpl fst in Hin.
    apply Hterm in Hin as (c & Hget & Hst).
    + unfold update_client in Hget.
      destruct (JsMap.get (clients srv) cid) as [c0|] eqn:Hget0.
      * simpl in Hget. rewrite JsMapFacts.get_set_eq in Hget.
        injection Hget as <-. unfold stale in Hst. simpl in Hst. lia.
      * congruence.
    + unfold JsMap.wf. by rewrite TrafficFacts.keys_update_client.
    + by apply GatewayFacts.clients_ok_update_same.
Qed.

Lemma pingClients_terminates_exactly_the_stale_witness :
  let c1 := {| id := "c1"; readyState := OPEN; user := None; roomId := None;
               participantId := None; transportIds := []; producerIds := [];
               consumerIds := []; lastPing := 0; ip := "10.0.0.1" |} in
  let srv := {| clients := [("c1", c1)];
                roomManager := RoomManager.new; sfuManager := SFUManager.new;
                redisService := {| Redis.client := None |};
                rateLimiter := RateLimiter.new RateLimiter.DEFAULT_RATE_LIMIT_CONFIG |} in
  snd (pingClients 60001 srv) = [Terminate "c1"]
  ∧ Terminate "c1" ∉ snd (pingClients 60001 (fst (onPong "c1" 30000 srv))).
Proof.
  intros c1 srv. split; [reflexivity|].
  assert (JsMap.wf (clients srv)) as Hwf.
  { apply NoDup_singleton. }
  assert (clients_ok (clients srv)) as Hok.
  { intros k c. simpl.
    destruct (decide (k = "c1")) as [->|?]; [by intros [= <-]|done]. }
  destruct (pingClients_terminates_exactly_the_stale 60001 srv "c1" Hwf Hok)
    as (_ & _ & _ & Hpong).
  exact (Hpong 30000 ltac:(discriminate)).
Defined.
End SessionFacts.

(** ** Joining and leaving a room *)

Module JoinFacts.
Import RoomManager.

Lemma no_healthy_node sfu :
  Forall (λ n, SFUManager.isHealthy n = false) (JsMap.values (SFUManager.nodes sfu)) →
  SFUManager.getBestNode sfu = None.
Proof.
  intros Hall. unfold SFUManager.getBestNode.
  assert (filter (λ n, SFUManager.isHealthy n = true)
            (JsMap.values (SFUManager.nodes sfu)) = []) as ->; [|done].
  induction Hall as [|n l Hn Hl IH]; [done|].
  rewrite filter_cons_False; [done | congruence].
Qed.

Section Environment.
Variable process_env : string → option string.

(** X27. A join of a room that is not known locally and has no placement
    in the store fails when no media node is healthy: the connection is
    answered with the error JOIN_FAILED, and the gateway (its registry,
    its directory of rooms, the store) is left exactly as it was. *)
Theorem join_fails_without_healthy_node
    (c : SignalingServer.ConnectedClient) (u : Auth.AuthenticatedUser)
    (room role name : string) (caps : option Any) (now : Z)
    (srv : SignalingServer.SignalingServer) :
  SignalingServer.user c = Some u →
  JsMap.get (rooms (SignalingServer.roomManager srv)) room = None →
  Redis.getRoomRouter room (SignalingServer.redisService srv) = None →
  Forall (λ n, SFUManager.isHealthy n = false)
    (JsMap.values (SFUManager.nodes (SignalingServer.sfuManager srv))) →
  SignalingServer.handleJoinRoom process_env c room role name caps now srv
  = (srv,
     SignalingServer.Invoke SignalingServer.joinRoom room
       :: SignalingServer.sendError c "Failed to join room" (Some "JOIN_FAILED")).
Proof.
  intros Hu Hroom Hplace Hnodes.
  unfold SignalingServer.handleJoinRoom. rewrite Hu.
  unfold joinRoom. rewrite Hroom.
  unfold SFUManager.allocateRoom, SFUManager.allocateRoom_resume. rewrite Hplace.
  rewrite (no_healthy_node _ Hnodes). simpl. by destruct srv.
Qed.

(** X28. The first join of a room, with a healthy media node at hand:
    the room is placed on the node [getBestNode] selects and the placement
    is stored under that node's id; the room's only participant is the
    one that joined; the connection is moved into the room and, its socket
    being open, is answered with room-joined carrying an empty list of
    other participants. *)
Theorem first_join_creates_room
    (c : SignalingServer.ConnectedClient) (u : Auth.AuthenticatedUser)
    (room role name : string) (caps : option Any) (now : Z)
    (srv : SignalingServer.SignalingServer) (n : SFUManager.SFUNode) (db : Redis.Db) :
  SignalingServer.user c = Some u →
  SignalingServer.readyState c = SignalingServer.OPEN →
  JsMap.get (SignalingServer.clients srv) (SignalingServer.id c) = Some c →
  JsMap.get (rooms (SignalingServer.roomManager srv)) room = None →
  SignalingServer.redisService srv = {| Redis.client := Some db |} →
  Redis.room_routers db !! room = None →
  SFUManager.getBestNode (SignalingServer.sfuManager srv) = Some n →
  let r := SignalingServer.handleJoinRoom process_env c room role name caps now srv in
  let pid := "p-" +:+ Auth.id u +:+ "-" +:+ pretty now in
  let node := SFUManager.host n +:+ ":" +:+ Js.show (SFUManager.port n) in
  Redis.getRoomRouter room (SignalingServer.redisService (fst r))
  = Some {| Redis.nodeId := SFUManager.id n;
            Redis.routerId := "router-" +:+ room +:+ "-" +:+ pretty now |}
  ∧ info_id <$> getParticipants room (SignalingServer.roomManager (fst r)) = [pid]
  ∧ JsMap.get (SignalingServer.clients (fst r)) (SignalingServer.id c)
    = Some (SignalingServer.set_room (Some room) (Some pid) c)
  ∧ SignalingServer.Send (SignalingServer.id c)
      (SignalingServer.room_joined room pid empty_object [] node) ∈ snd r.
Proof.
  intros Hu Hopen Hc Hroom Hredis Hplace Hbest. simpl.
  unfold SignalingServer.handleJoinRoom. rewrite Hu.
  unfold joinRoom. rewrite Hroom.
  unfold SFUManager.allocateRoom, SFUManager.allocateRoom_resume,
    Redis.getRoomRouter. rewrite Hredis. simpl.
  rewrite Hplace, Hbest. simpl.
  assert (∀ rm,
            JsMap.get (SignalingServer.clients
                         (SignalingServer.update_client (SignalingServer.id c)
                            (SignalingServer.set_room (Some room)
                               (Some ("p-" +:+ Auth.id u +:+ "-" +:+ pretty now)))
                            rm)) (SignalingServer.id c)
            = match JsMap.get (SignalingServer.clients rm) (SignalingServer.id c) with
              | Some c' => Some (SignalingServer.set_room (Some room)
                                   (Some ("p-" +:+ Auth.id u +:+ "-" +:+ pretty now)) c')
              | None => None
              end) as Hupd.
  { intros rm. unfold SignalingServer.update_client.
    destruct (JsMap.get (SignalingServer.clients rm) (SignalingServer.id c)) eqn:Hg;
      [|done]. simpl. by rewrite JsMapFacts.get_set_eq. }
  destruct caps as [caps|]; simpl.
  - unfold Redis.setRoomRouter. simpl. split; [apply lookup_insert_eq|].
    unfold setParticipantRtpCapabilities, update_participant. simpl.
    rewrite JsMapFacts.get_set_eq. simpl. rewrite decide_True by done. simpl.
    unfold getParticipants. simpl. rewrite JsMapFacts.get_set_eq. simpl.
    rewrite decide_True by done. simpl.
    split; [done|]. split.
    + unfold SignalingServer.update_client. simpl. rewrite Hc. simpl.
      by rewrite JsMapFacts.get_set_eq.
    + rewrite filter_cons_False by (simpl; intros H; by apply H).
      rewrite filter_nil. unfold SignalingServer.send. rewrite Hopen. simpl.
      do 3 right. left.
  - unfold Redis.setRoomRouter. simpl. split; [apply lookup_insert_eq|].
    unfold getParticipants. simpl. rewrite JsMapFacts.get_set_eq. simpl.
    split; [done|]. split.
    + unfold SignalingServer.update_client. simpl. rewrite Hc. simpl.
      by rewrite JsMapFacts.get_set_eq.
    + rewrite filter_cons_False by (simpl; intros H; by apply H).
      rewrite filter_nil. unfold SignalingServer.send. rewrite Hopen. simpl.
      do 2 right. left.
Qed.

End Environment.
Lemma join_fails_without_healthy_node_witness :
  let u := {| Auth.id := "u1"; Auth.permissions := ["view"] |} in
  let c := {| SignalingServer.id := "c1";
              SignalingServer.readyState := SignalingServer.OPEN;
              SignalingServer.user := Some u;
              SignalingServer.roomId := None;
              SignalingServer.participantId := None;
              SignalingServer.transportIds := [];
              SignalingServer.producerIds := [];
              SignalingServer.consumerIds := [];
              SignalingServer.lastPing := 0;
              SignalingServer.ip := "10.0.0.1" |} in
  let down := {| SFUManager.id := "sfu-a-4000"; SFUManager.host := "a";
                 SFUManager.port := Some 4000; SFUManager.isHealthy := false;
                 SFUManager.load := 0; SFUManager.lastHealthCheck := 0 |} in
  let srv := {| SignalingServer.clients := [("c1", c)];
                SignalingServer.roomManager := new;
                SignalingServer.sfuManager :=
                  {| SFUManager.nodes := [("sfu-a-4000", down)] |};
                SignalingServer.redisService :=
                  {| Redis.client := Some Redis.empty_db |};
                SignalingServer.rateLimiter :=
                  RateLimiter.new RateLimiter.DEFAULT_RATE_LIMIT_CONFIG |} in
  SignalingServer.handleJoinRoom (λ _, None) c "room-1" "host" "Ann" None 5 srv
  = (srv,
     [ SignalingServer.Invoke SignalingServer.joinRoom "room-1";
       SignalingServer.Send "c1"
         (SignalingServer.error "Failed to join room" (Some "JOIN_FAILED")) ]).
Proof.
  intros u c down srv.
  refine (join_fails_without_healthy_node (λ _, None) c u "room-1" "host" "Ann"
            None 5 srv eq_refl eq_refl eq_refl _).
  repeat constructor.
Defined.

Lemma first_join_creates_room_witness :
  let u := {| Auth.id := "u1"; Auth.permissions := ["view"] |} in
  let c := {| SignalingServer.id := "c1";
              SignalingServer.readyState := SignalingServer.OPEN;
              SignalingServer.user := Some u;
              SignalingServer.roomId := None;
              SignalingServer.participantId := None;
              SignalingServer.transportIds := [];
              SignalingServer.producerIds := [];
              SignalingServer.consumerIds := [];
              SignalingServer.lastPing := 0;
              SignalingServer.ip := "10.0.0.1" |} in
  let up := {| SFUManager.id := "sfu-a-4000"; SFUManager.host := "a";
               SFUManager.port := Some 4000; SFUManager.isHealthy := true;
               SFUManager.load := 0; SFUManager.lastHealthCheck := 0 |} in
  let srv := {| SignalingServer.clients := [("c1", c)];
                SignalingServer.roomManager := new;
                SignalingServer.sfuManager :=
                  {| SFUManager.nodes := [("sfu-a-4000", up)] |};
                SignalingServer.redisService :=
                  {| Redis.client := Some Redis.empty_db |};
                SignalingServer.rateLimiter :=
                  RateLimiter.new RateLimiter.DEFAULT_RATE_LIMIT_CONFIG |} in
  let r := SignalingServer.handleJoinRoom (λ _, None) c "room-1" "host" "Ann"
             None 5 srv in
  Redis.getRoomRouter "room-1" (SignalingServer.redisService (fst r))
  = Some {| Redis.nodeId := "sfu-a-4000"; Redis.routerId := "router-room-1-5" |}
  ∧ SignalingServer.Send "c1"
      (SignalingServer.room_joined "room-1" "p-u1-5" empty_object [] "a:4000")
    ∈ snd r.
Proof.
  intros u c up srv r.
  destruct (first_join_creates_room (λ _, None) c u "room-1" "host" "Ann" None 5
              srv up Redis.empty_db eq_refl eq_refl eq_refl eq_refl eq_refl
              eq_refl eq_refl)
    as (Hplaced & _ & _ & Hsent).
  split; [exact Hplaced | exact Hsent].
Defined.


(** X30. [closeProducer] removes the producer id from the producer map of
    every participant of the room, whoever owns it; every other producer,
    every consumer, the roster of the room and every other room are left
    as they were. *)
Theorem closeProducer_removes_from_every_participant
    (roomId producerId : string) (self : RoomManager) (room : RoomState) :
  JsMap.get (rooms self) roomId = Some room →
  ∃ room',
    JsMap.get (rooms (closeProducer roomId producerId self)) roomId = Some room'
    ∧ JsMap.keys (participants room') = JsMap.keys (participants room)
    ∧ (∀ pid,
         JsMap.get (participants room') pid
         = drop_producer producerId <$> JsMap.get (participants room) pid)
    ∧ (∀ p q, JsMap.get (producers (drop_producer producerId p)) q
              = if decide (q = producerId) then None
                else JsMap.get (producers p) q)
    ∧ (∀ other, other ≠ roomId →
         JsMap.get (rooms (closeProducer roomId producerId self)) other
         = JsMap.get (rooms self) other).
Proof.
  intros Hroom. unfold closeProducer. rewrite Hroom. simpl.
  eexists. split; [apply JsMapFacts.get_set_eq|]. simpl.
  split; [|split; [|split]].
  - unfold JsMap.keys. by rewrite map_map.
  - intros pid.
    apply (SelectionFacts.get_map_keyed (λ _, drop_producer producerId)).
  - intros p q. simpl. case_decide as Hq.
    + subst q. apply JsMapFacts.get_delete_eq.
    + by apply JsMapFacts.get_delete_ne.
  - intros other Hother. by apply JsMapFacts.get_set_ne.
Qed.
Lemma closeProducer_removes_from_every_participant_witness :
  let st := {| producer_id := "producer-video-p-u1-5-9"; producer_kind := video;
               producer_source := "video"; producer_paused := false |} in
  let owner := {| id := "p-u1-5"; odUserId := "u1"; displayName := "Ann";
                  role := "host"; rtpCapabilities := None;
                  sendTransportId := None; recvTransportId := None;
                  producers := [("producer-video-p-u1-5-9", st)];
                  consumers := [] |} in
  let room := {| room_id := "room-1"; sfuNode := "a:4000";
                 routerId := "router-room-1-5";
                 routerRtpCapabilities := empty_object;
                 participants := [("p-u1-5", owner)]; createdAt := 5 |} in
  let self := {| rooms := [("room-1", room)] |} in
  info_producers
    <$> getParticipants "room-1"
          (closeProducer "room-1" "producer-video-p-u1-5-9" self)
  = [[]]
  ∧ ∃ room',
      JsMap.get (rooms (closeProducer "room-1" "producer-video-p-u1-5-9" self))
        "room-1" = Some room'
      ∧ JsMap.keys (participants room') = ["p-u1-5"].
Proof.
  intros st owner room self. split; [reflexivity|].
  destruct (closeProducer_removes_from_every_participant "room-1"
              "producer-video-p-u1-5-9" self room eq_refl)
    as (room' & Hget & Hkeys & _).
  exists room'. split; [exact Hget | exact Hkeys].
Defined.
End JoinFacts.
